(** * Signal computation, fusion and risk gating of the trading extension

    A shallow embedding of the numeric core of the repository:
    - [TechnicalAnalysis]: [calculateSMA], [calculateRSI]
      (technical-analysis module);
    - [DecisionEngine]: the per-indicator signal rules,
      [evaluateTechnicalSignals], [combineSignals] and the fallbacks of
      the sentiment and learned-prediction wrappers (decision-engine module);
    - [RiskManager]: [assessMarketConditions], [checkPortfolioExposure],
      [calculatePositionSize], [evaluateOpportunity] and the helpers they
      call, [validateConfig], [evaluateManualTrade] (risk-manager module);
    - [IndicatorLibrary], [VolumeAnalysis]: the other indicators of the
      technical-analysis module that need neither a square root nor a sort
      (EMA, MACD, stochastic, Williams %R, ATR, Fibonacci levels, extrema,
      trend, chart patterns, volume report);
    - [SentimentAnalysis]: the analyses of social and market data, the
      interpretation and the result cache (sentiment module);
    - [TradingService]: the test of the background service that decides
      whether a trade is executed.

    Numbers.  A JavaScript number is modelled by [JS.num]: an exact rational
    or one of the three special values of IEEE-754 (plus and minus infinity,
    NaN).  Rounding of binary64 arithmetic is not modelled; the special
    values, and the way comparisons, [Math.min], [Math.max] and division
    treat them, are.  The model has a single zero, which stands for [+0]: the
    divisions below whose divisor can be zero only ever divide by a [+0].

    Effects.  The [async] methods await their collaborators one after the
    other; they are modelled as functions of a record [RiskManager.Env] that
    holds what the collaborators and the extension storage return.  A
    [try]/[catch] is modelled by the value its handler returns, at the
    places where the typed model can throw (a missing [riskSettings], a
    failing provider).  Logging does not influence any result and is left
    out. *)

From Stdlib Require Import QArith Qabs Qround ZArith NArith List String Ascii Bool Lia Lqa.
From Stdlib Require Import DecimalString.
Import ListNotations.

Local Open Scope Q_scope.

(* ------------------------------------------------------------------ *)
(** ** JavaScript numbers *)

Module JS.

Inductive num : Type :=
| Fin (q : Q)
| PInf
| NInf
| NaN.

Definition Qltb (x y : Q) : bool := negb (Qle_bool y x).

Definition isZero (q : Q) : bool := Qeq_bool q 0.

Definition neg (a : num) : num :=
  match a with
  | Fin q => Fin (- q)
  | PInf => NInf
  | NInf => PInf
  | NaN => NaN
  end.

Definition add (a b : num) : num :=
  match a, b with
  | NaN, _ | _, NaN => NaN
  | Fin x, Fin y => Fin (x + y)
  | PInf, NInf | NInf, PInf => NaN
  | PInf, _ | _, PInf => PInf
  | NInf, _ | _, NInf => NInf
  end.

Definition sub (a b : num) : num := add a (neg b).

(** The infinity whose sign is that of [q]; NaN for a zero. *)
Definition infOfSign (q : Q) : num :=
  match q ?= 0 with
  | Gt => PInf
  | Lt => NInf
  | Eq => NaN
  end.

Definition mul (a b : num) : num :=
  match a, b with
  | NaN, _ | _, NaN => NaN
  | Fin x, Fin y => Fin (x * y)
  | PInf, Fin y | Fin y, PInf => infOfSign y
  | NInf, Fin y | Fin y, NInf => infOfSign (- y)
  | PInf, PInf | NInf, NInf => PInf
  | PInf, NInf | NInf, PInf => NInf
  end.

Definition div (a b : num) : num :=
  match a, b with
  | NaN, _ | _, NaN => NaN
  | Fin x, Fin y => if isZero y then infOfSign x else Fin (x / y)
  | Fin _, (PInf | NInf) => Fin 0
  | PInf, Fin y => if Qltb y 0 then NInf else PInf
  | NInf, Fin y => if Qltb y 0 then PInf else NInf
  | (PInf | NInf), (PInf | NInf) => NaN
  end.

(** [a < b] *)
Definition ltb (a b : num) : bool :=
  match a, b with
  | NaN, _ | _, NaN => false
  | Fin x, Fin y => Qltb x y
  | NInf, (Fin _ | PInf) => true
  | Fin _, PInf => true
  | _, _ => false
  end.

(** [a <= b] *)
Definition leb (a b : num) : bool :=
  match a, b with
  | NaN, _ | _, NaN => false
  | Fin x, Fin y => Qle_bool x y
  | NInf, _ => true
  | _, PInf => true
  | _, _ => false
  end.

(** [a > b] and [a >= b] *)
Definition gtb (a b : num) : bool := ltb b a.
Definition geb (a b : num) : bool := leb b a.

Definition isNaN (a : num) : bool :=
  match a with NaN => true | _ => false end.

(** [Math.min(a, b)], [Math.max(a, b)]: NaN as soon as one argument is. *)
Definition min (a b : num) : num :=
  if isNaN a || isNaN b then NaN else if ltb b a then b else a.

Definition max (a b : num) : num :=
  if isNaN a || isNaN b then NaN else if ltb a b then b else a.

(** [Math.abs] *)
Definition abs (a : num) : num :=
  match a with
  | Fin q => Fin (Qabs q)
  | PInf | NInf => PInf
  | NaN => NaN
  end.

(** Truthiness of a number: [0] and [NaN] are falsy. *)
Definition truthy (a : num) : bool :=
  match a with
  | Fin q => negb (isZero q)
  | PInf | NInf => true
  | NaN => false
  end.

(** [a || d] on numbers; an absent property ([undefined]) is falsy as well
    and is represented by [NaN] wherever it is only read through [||],
    arithmetic or a comparison. *)
Definition orElse (a d : num) : num := if truthy a then a else d.

(** [ToNumber] of a property that may be absent: [undefined] gives NaN. *)
Definition toNumber (v : option num) : num :=
  match v with Some n => n | None => NaN end.

Definition ofNat (n : nat) : num := Fin (inject_Z (Z.of_nat n)).

(** Equality of the denoted numbers (rationals up to [==]); NaN is only
    related to itself here, this is not the [===] of the language. *)
Definition same (a b : num) : Prop :=
  match a, b with
  | Fin x, Fin y => x == y
  | PInf, PInf | NInf, NInf | NaN, NaN => True
  | _, _ => False
  end.

(** [lo <= a <= hi] for a finite [a]. *)
Definition within (lo hi : Q) (a : num) : Prop :=
  match a with
  | Fin q => lo <= q /\ q <= hi
  | _ => False
  end.

(** A finite, non-negative number. *)
Definition nonneg (a : num) : Prop :=
  match a with
  | Fin q => 0 <= q
  | _ => False
  end.

Definition finite (a : num) : Prop :=
  match a with
  | Fin _ => True
  | _ => False
  end.

(** [array.reduce((a, b) => a + b, 0)] *)
Definition sum (l : list num) : num := fold_left add l (Fin 0).

(** [array.slice(b, e)] for indices [0 <= b <= e]. *)
Definition slice {A : Type} (l : list A) (b e : nat) : list A :=
  firstn (e - b) (skipn b l).

End JS.

Import JS.

(** Rational literals are read as numbers of the language. *)
Coercion Fin : Q >-> num.

(* ------------------------------------------------------------------ *)
(** ** Technical indicators *)

Module TechnicalAnalysis.

(** [calculateSMA(prices, period)].  The loop index [i] of the source runs
    from [period - 1] to [prices.length - 1]; with [k = i - (period - 1)] the
    window [prices.slice(i - period + 1, i + 1)] is [prices.slice(k, k + period)]
    and [k] runs from [0] to [prices.length - period]. *)
Definition calculateSMA (prices : list num) (period : nat) : list num :=
  if (List.length prices <? period)%nat then []
  else
    map (fun k => div (sum (slice prices k (k + period))) (ofNat period))
        (seq 0 (List.length prices + 1 - period)).

(** The [change] of the first loop of [calculateRSI] and its two pushes. *)
Definition gainOf (change : num) : num :=
  if gtb change 0 then change else 0.

Definition lossOf (change : num) : num :=
  if ltb change 0 then abs change else 0.

Fixpoint changes (prices : list num) : list num :=
  match prices with
  | p0 :: (p1 :: _) as rest => sub p1 p0 :: changes rest
  | _ => []
  end.

(** [100 - (100 / (1 + rs))] with [rs = avgGain / avgLoss]. *)
Definition rsiOf (avgGain avgLoss : num) : num :=
  let rs := div avgGain avgLoss in
  sub 100 (div 100 (add 1 rs)).

(** One step of the smoothing loop: the new averages. *)
Definition smooth (period : nat) (avg x : num) : num :=
  div (add (mul avg (sub (ofNat period) 1)) x) (ofNat period).

(** The second loop of [calculateRSI], over [gains[i], losses[i]] for
    [i >= period]; it pushes one value per iteration. *)
Fixpoint rsiLoop (period : nat) (avgGain avgLoss : num)
         (rest : list (num * num)) : list num :=
  match rest with
  | [] => []
  | (g, l) :: rest' =>
      let avgGain' := smooth period avgGain g in
      let avgLoss' := smooth period avgLoss l in
      rsiOf avgGain' avgLoss' :: rsiLoop period avgGain' avgLoss' rest'
  end.

Definition calculateRSI (prices : list num) (period : nat) : list num :=
  if (List.length prices <? period + 1)%nat then []
  else
    let gains := map gainOf (changes prices) in
    let losses := map lossOf (changes prices) in
    let avgGain := div (sum (slice gains 0 period)) (ofNat period) in
    let avgLoss := div (sum (slice losses 0 period)) (ofNat period) in
    rsiOf avgGain avgLoss
      :: rsiLoop period avgGain avgLoss
           (combine (skipn period gains) (skipn period losses)).

(** The pairs [(avgGain, avgLoss)] behind the successive values of
    [calculateRSI], in the order in which the values are pushed. *)
Fixpoint averagesLoop (period : nat) (avgGain avgLoss : num)
         (rest : list (num * num)) : list (num * num) :=
  match rest with
  | [] => []
  | (g, l) :: rest' =>
      let avgGain' := smooth period avgGain g in
      let avgLoss' := smooth period avgLoss l in
      (avgGain', avgLoss') :: averagesLoop period avgGain' avgLoss' rest'
  end.

Definition rsiAverages (prices : list num) (period : nat) : list (num * num) :=
  if (List.length prices <? period + 1)%nat then []
  else
    let gains := map gainOf (changes prices) in
    let losses := map lossOf (changes prices) in
    let avgGain := div (sum (slice gains 0 period)) (ofNat period) in
    let avgLoss := div (sum (slice losses 0 period)) (ofNat period) in
    (avgGain, avgLoss)
      :: averagesLoop period avgGain avgLoss
           (combine (skipn period gains) (skipn period losses)).

(** Both averages are finite and non-negative. *)
Definition bothNonneg (a : num * num) : Prop := nonneg (fst a) /\ nonneg (snd a).

(** What [rsiOf] gives on a pair of averages: a value in [[0, 100]] when
    the average loss is positive, [100] when only the average loss is zero,
    NaN when both averages are zero. *)
Definition rsiCase (a : num * num) : Prop :=
  match a with
  | (Fin g, Fin l) =>
      0 <= g /\ 0 <= l
      /\ (0 < l -> within 0 100 (rsiOf g l))
      /\ (l == 0 -> 0 < g -> same (rsiOf g l) 100)
      /\ (l == 0 -> g == 0 -> rsiOf g l = NaN)
  | _ => False
  end.

(** A series without any price change: fifteen bars at 100. *)
Definition flatSeries : list num := repeat (Fin 100) 15.

End TechnicalAnalysis.

(* ------------------------------------------------------------------ *)
(** ** Signal generation and fusion *)

Module DecisionEngine.

Local Open Scope string_scope.

(** [s.includes(sub)] *)
Fixpoint includes (s sub : string) : bool :=
  prefix sub s
  || match s with
     | EmptyString => false
     | String _ s' => includes s' sub
     end.

(** The object a per-indicator rule returns: [{ signal, strength }], with a
    [pattern] tag for the rule on chart patterns. *)
Record Signal : Type := mkSignal {
  signal : string;
  strength : num;
  pattern : option string
}.

Definition sig (label : string) (s : num) : Signal := mkSignal label s None.

(** *** Threshold rules, one per indicator *)

Definition getMACrossoverSignal (sma20 sma50 : num) : Signal :=
  if gtb sma20 (mul sma50 1.01) then sig "BUY" 0.7
  else if ltb sma20 (mul sma50 0.99) then sig "SELL" 0.7
  else sig "HOLD" 0.3.

Definition getEMACrossoverSignal (ema12 ema26 : num) : Signal :=
  if gtb ema12 (mul ema26 1.005) then sig "BUY" 0.8
  else if ltb ema12 (mul ema26 0.995) then sig "SELL" 0.8
  else sig "HOLD" 0.4.

Record MACD : Type := mkMACD {
  macdLine : num;
  signalLine : num;
  histogram : num
}.

Definition getMACDSignal (macd : MACD) : Signal :=
  if gtb (macdLine macd) (signalLine macd) && gtb (histogram macd) 0
  then sig "BUY" 0.75
  else if ltb (macdLine macd) (signalLine macd) && ltb (histogram macd) 0
  then sig "SELL" 0.75
  else sig "HOLD" 0.4.

Definition getRSISignal (rsi : num) : Signal :=
  if ltb rsi 30 then sig "BUY" 0.8
  else if gtb rsi 70 then sig "SELL" 0.8
  else if gtb rsi 45 && ltb rsi 55 then sig "HOLD" 0.6
  else sig "HOLD" 0.4.

Record Bands : Type := mkBands {
  upper : num;
  middle : num;
  lower : num
}.

Definition getBollingerSignal (currentPrice : num) (bb : Bands) : Signal :=
  if leb currentPrice (lower bb) then sig "BUY" 0.7
  else if geb currentPrice (upper bb) then sig "SELL" 0.7
  else if gtb currentPrice (middle bb) then sig "WEAK_BUY" 0.4
  else if ltb currentPrice (middle bb) then sig "WEAK_SELL" 0.4
  else sig "HOLD" 0.3.

Record SupportResistance : Type := mkSR {
  support : num;
  resistance : num
}.

Definition getSupportResistanceSignal (currentPrice : num)
           (sr : SupportResistance) : Signal :=
  if gtb currentPrice (mul (resistance sr) 1.002) then sig "BUY" 0.8
  else if ltb currentPrice (mul (support sr) 0.998) then sig "SELL" 0.8
  else if leb currentPrice (mul (support sr) 1.01)
          && geb currentPrice (mul (support sr) 0.99)
  then sig "BUY" 0.6
  else if geb currentPrice (mul (resistance sr) 0.99)
          && leb currentPrice (mul (resistance sr) 1.01)
  then sig "SELL" 0.6
  else sig "HOLD" 0.3.

Record VolumeAnalysis : Type := mkVolume {
  trend : string;
  volumeStrength : string;   (* the [strength] property of the analysis *)
  unusualActivity : bool
}.

Definition getVolumeSignal (volumeAnalysis : VolumeAnalysis) : Signal :=
  if unusualActivity volumeAnalysis && (trend volumeAnalysis =? "INCREASING")
  then sig "STRONG_SIGNAL" 0.9
  else if (volumeStrength volumeAnalysis =? "HIGH")
          && (trend volumeAnalysis =? "INCREASING")
  then sig "CONFIRMATION" 0.7
  else if volumeStrength volumeAnalysis =? "LOW"
  then sig "WEAK_SIGNAL" 0.3
  else sig "NEUTRAL" 0.5.

Definition bullishPatterns : list string :=
  ["DOUBLE_BOTTOM"; "HEAD_AND_SHOULDERS_INVERSE"; "ASCENDING_TRIANGLE"].
Definition bearishPatterns : list string :=
  ["DOUBLE_TOP"; "HEAD_AND_SHOULDERS"; "DESCENDING_TRIANGLE"].

Definition arrayIncludes (l : list string) (x : string) : bool :=
  existsb (String.eqb x) l.

(** The [for (const pattern of patterns)] loop; [patterns] holds the [type]
    of each detected pattern. *)
Fixpoint firstPatternSignal (patterns : list string) : Signal :=
  match patterns with
  | [] => sig "HOLD" 0.4
  | type :: rest =>
      if arrayIncludes bullishPatterns type
      then mkSignal "BUY" 0.8 (Some type)
      else if arrayIncludes bearishPatterns type
      then mkSignal "SELL" 0.8 (Some type)
      else firstPatternSignal rest
  end.

Definition getPatternSignal (patterns : list string) : Signal :=
  match patterns with
  | [] => sig "NONE" 0
  | _ => firstPatternSignal patterns
  end.

(** The argument of [generateTechnicalSignals].  Each indicator has the type
    that its rule is written for (a number, or a record of numbers), also
    where [performTechnicalAnalysis] hands over a whole result array. *)
Record Indicators : Type := mkIndicators {
  sma20 : num;
  sma50 : num;
  ema12 : num;
  ema26 : num;
  macd : MACD;
  rsi : num;
  bollingerBands : Bands;
  supportResistance : SupportResistance;
  volumeAnalysis : VolumeAnalysis;
  patterns : list string;
  currentPrice : num
}.

(** The [signals] object, as its entries in insertion order. *)
Definition generateTechnicalSignals (indicators : Indicators)
  : list (string * Signal) :=
  let currentPrice := currentPrice indicators in
  [ ("maSignal", getMACrossoverSignal (sma20 indicators) (sma50 indicators));
    ("emaSignal", getEMACrossoverSignal (ema12 indicators) (ema26 indicators));
    ("macdSignal", getMACDSignal (macd indicators));
    ("rsiSignal", getRSISignal (rsi indicators));
    ("bbSignal", getBollingerSignal currentPrice (bollingerBands indicators));
    ("srSignal",
      getSupportResistanceSignal currentPrice (supportResistance indicators));
    ("volumeSignal", getVolumeSignal (volumeAnalysis indicators));
    ("patternSignal", getPatternSignal (patterns indicators)) ].

(** *** Aggregation of the technical signals *)

Record Scores : Type := mkScores {
  buy : num;
  sell : num;
  hold : num
}.

(** The three arrays [buySignals], [sellSignals], [holdSignals]. *)
Record Buckets : Type := mkBuckets {
  buySignals : list num;
  sellSignals : list num;
  holdSignals : list num
}.

(** One iteration of the loop over [Object.entries(signals)]. *)
Definition pushSignal (b : Buckets) (entry : string * Signal) : Buckets :=
  let s := snd entry in
  if includes (signal s) "BUY"
  then mkBuckets (buySignals b ++ [strength s]) (sellSignals b) (holdSignals b)
  else if includes (signal s) "SELL"
  then mkBuckets (buySignals b) (sellSignals b ++ [strength s]) (holdSignals b)
  else mkBuckets (buySignals b) (sellSignals b) (holdSignals b ++ [strength s]).

Definition partitionSignals (signals : list (string * Signal)) : Buckets :=
  fold_left pushSignal signals (mkBuckets [] [] []).

(** What [evaluateTechnicalSignals] returns: [{ signal, confidence, scores }].
    The object has no [strength] property. *)
Record TechnicalVerdict : Type := mkVerdict {
  tv_signal : string;
  tv_confidence : num;
  tv_scores : Scores
}.

Definition evaluateTechnicalSignals (signals : list (string * Signal))
  : TechnicalVerdict :=
  let b := partitionSignals signals in
  let buyScore := sum (buySignals b) in
  let sellScore := sum (sellSignals b) in
  let holdScore := sum (holdSignals b) in
  let totalScore := add (add buyScore sellScore) holdScore in
  let scores := mkScores buyScore sellScore holdScore in
  if gtb buyScore sellScore && gtb buyScore holdScore
  then mkVerdict "BUY" (div buyScore totalScore) scores
  else if gtb sellScore buyScore && gtb sellScore holdScore
  then mkVerdict "SELL" (div sellScore totalScore) scores
  else mkVerdict "HOLD" (div holdScore totalScore) scores.

(** *** External sources: sentiment and learned prediction *)

Record SentimentScore : Type := mkSentimentScore {
  score : num;
  s_confidence : num
}.

(** [sentiment.overall]: [{ score, confidence, signal }]; the object that
    the failure path of [performSentimentAnalysis] builds has no [signal]. *)
Record SentimentOverall : Type := mkSentimentOverall {
  so_score : num;
  so_confidence : num;
  so_signal : option Signal
}.

Record Sentiment : Type := mkSentiment {
  social : SentimentScore;
  news : SentimentScore;
  market : SentimentScore;
  s_overall : SentimentOverall
}.

Definition sentimentToSignal (score confidence : num) : Signal :=
  if ltb confidence 0.5 then sig "HOLD" 0.2
  else if gtb score 0.6 then sig "BUY" (mul confidence 0.7)
  else if ltb score (neg 0.6) then sig "SELL" (mul confidence 0.7)
  else sig "HOLD" (mul confidence 0.4).

Definition combineSentimentScores (social news market : SentimentScore)
  : SentimentOverall :=
  let weightedScore :=
    add (add (mul (score social) 0.3) (mul (score news) 0.4))
        (mul (score market) 0.3) in
  let avgConfidence :=
    div (add (add (s_confidence social) (s_confidence news))
             (s_confidence market)) 3 in
  mkSentimentOverall weightedScore avgConfidence
    (Some (sentimentToSignal weightedScore avgConfidence)).

(** [performSentimentAnalysis]; [fetched] is [None] when one of the three
    awaited provider calls throws. *)
Definition performSentimentAnalysis
           (fetched : option (SentimentScore * SentimentScore * SentimentScore))
  : Sentiment :=
  match fetched with
  | Some (socialSentiment, newsSentiment, marketSentiment) =>
      mkSentiment socialSentiment newsSentiment marketSentiment
        (combineSentimentScores socialSentiment newsSentiment marketSentiment)
  | None =>
      let zero := mkSentimentScore 0 0 in
      mkSentiment zero zero zero (mkSentimentOverall 0 0 None)
  end.

(** What [machineLearning.predict] resolves to, as far as the engine reads it. *)
Record Prediction : Type := mkPrediction {
  p_priceDirection : string;
  p_volatility : option string;
  p_confidence : num;
  p_timeHorizon : option string
}.

(** The [ml] argument of [combineSignals]. *)
Record MLAnalysis : Type := mkML {
  ml_priceDirection : string;
  ml_volatility : option string;
  ml_confidence : num;
  ml_timeHorizon : option string;
  ml_signal : option Signal
}.

Definition mlToSignal (predictions : Prediction) : Signal :=
  let confidence := p_confidence predictions in
  if ltb confidence 0.6 then sig "HOLD" 0.3
  else if p_priceDirection predictions =? "UP"
  then sig "BUY" (mul confidence 0.8)
  else if p_priceDirection predictions =? "DOWN"
  then sig "SELL" (mul confidence 0.8)
  else sig "HOLD" (mul confidence 0.5).

(** [performMLAnalysis]; [predicted] is [None] when feature extraction or
    the awaited [predict] throws. *)
Definition performMLAnalysis (predicted : option Prediction) : MLAnalysis :=
  match predicted with
  | Some predictions =>
      mkML (p_priceDirection predictions) (p_volatility predictions)
           (p_confidence predictions) (p_timeHorizon predictions)
           (Some (mlToSignal predictions))
  | None =>
      mkML "NEUTRAL" (Some "MEDIUM") 0 None (Some (sig "HOLD" 0))
  end.

(** *** The decision combiner *)

(** [technical.overall] as [combineSignals] reads it: [signal], [strength]
    and [confidence].  [o_strength] is [None] when the object has no
    [strength] property, which is the case of every object built by
    [evaluateTechnicalSignals]. *)
Record Overall : Type := mkOverall {
  o_signal : string;
  o_strength : option num;
  o_confidence : num
}.

Definition overallOf (v : TechnicalVerdict) : Overall :=
  mkOverall (tv_signal v) None (tv_confidence v).

(** An element of the local array [signals]: a spread source object plus its
    [weight].  A property the source lacks is [None] ([undefined]). *)
Record Entry : Type := mkEntry {
  e_signal : option string;
  e_strength : option num;
  e_weight : num
}.

Definition spreadOverall (o : Overall) (weight : num) : Entry :=
  mkEntry (Some (o_signal o)) (o_strength o) weight.

(** [{ ...s, weight }]; spreading [undefined] adds no property. *)
Definition spreadSignal (s : option Signal) (weight : num) : Entry :=
  match s with
  | Some s => mkEntry (Some (signal s)) (Some (strength s)) weight
  | None => mkEntry None None weight
  end.

(** [s.signal === label] *)
Definition hasSignal (label : string) (s : Entry) : bool :=
  match e_signal s with
  | Some l => l =? label
  | None => false
  end.

(** [signals.filter(s => s.signal === label)
           .reduce((sum, s) => sum + (s.strength * s.weight), 0)] *)
Definition bucketScore (label : string) (signals : list Entry) : num :=
  fold_left (fun sum s => add sum (mul (toNumber (e_strength s)) (e_weight s)))
            (filter (hasSignal label) signals) 0.

Record Reasoning : Type := mkReasoning {
  technicalScore : num;
  sentimentScore : num;
  mlScore : num;
  finalScores : Scores
}.

Record Decision : Type := mkDecision {
  d_signal : string;
  d_confidence : num;
  orderType : string;
  stopLoss : option num;
  takeProfit : option num;
  reasoning : Reasoning
}.

(** Truthiness of a string that may be absent. *)
Definition truthyString (s : option string) : bool :=
  match s with
  | Some EmptyString | None => false
  | Some _ => true
  end.

Definition isString (s : option string) (lit : string) : bool :=
  match s with
  | Some s => s =? lit
  | None => false
  end.

Definition combineSignals (technical : Overall) (sentiment : Sentiment)
           (ml : MLAnalysis) : Decision :=
  let signals :=
    [ spreadOverall technical 0.5;
      spreadSignal (so_signal (s_overall sentiment)) 0.3;
      spreadSignal (ml_signal ml) 0.2 ] in
  let buyScore := bucketScore "BUY" signals in
  let sellScore := bucketScore "SELL" signals in
  let holdScore := bucketScore "HOLD" signals in
  let totalWeight := fold_left (fun sum s => add sum (e_weight s)) signals 0 in
  let neutralWeight := sub 1 totalWeight in
  let adjustedHoldScore := add holdScore (mul neutralWeight 0.5) in
  let '(finalSignal, confidence, orderType) :=
    if gtb buyScore sellScore && gtb buyScore adjustedHoldScore
       && gtb buyScore 0.6
    then let confidence := min buyScore 0.95 in
         ("BUY", confidence, if gtb confidence 0.8 then "MARKET" else "LIMIT")
    else if gtb sellScore buyScore && gtb sellScore adjustedHoldScore
            && gtb sellScore 0.6
    then let confidence := min sellScore 0.95 in
         ("SELL", confidence, if gtb confidence 0.8 then "MARKET" else "LIMIT")
    else ("HOLD", max adjustedHoldScore 0.3, "MARKET") in
  let '(stopLoss, takeProfit) :=
    if negb (finalSignal =? "HOLD") && truthyString (ml_volatility ml)
    then
      let volatilityMultiplier :=
        if isString (ml_volatility ml) "HIGH" then 1.5
        else if isString (ml_volatility ml) "LOW" then 0.7
        else 1.0 in
      (Some (if gtb confidence 0.8 then mul 0.02 volatilityMultiplier
             else mul 0.015 volatilityMultiplier),
       Some (if gtb confidence 0.8 then mul 0.04 volatilityMultiplier
             else mul 0.03 volatilityMultiplier))
    else (None, None) in
  mkDecision finalSignal confidence orderType stopLoss takeProfit
    (mkReasoning (o_confidence technical)
                 (so_confidence (s_overall sentiment))
                 (ml_confidence ml)
                 (mkScores buyScore sellScore adjustedHoldScore)).

(** The part of [analyzeMarket] after the technical signals have been
    generated: the three analyses, their combination, and the record the
    risk manager receives. *)
Record Analysis : Type := mkAnalysis {
  a_signal : string;
  a_confidence : num;
  a_orderType : string;
  a_stopLoss : option num;
  a_takeProfit : option num;
  a_technical : TechnicalVerdict;
  a_sentiment : Sentiment;
  a_machineLearning : MLAnalysis;
  a_reasoning : Reasoning
}.

Definition analyzeMarket (signals : list (string * Signal))
           (fetched : option (SentimentScore * SentimentScore * SentimentScore))
           (predicted : option Prediction) : Analysis :=
  let technicalOverall := evaluateTechnicalSignals signals in
  let sentimentSignals := performSentimentAnalysis fetched in
  let mlPredictions := performMLAnalysis predicted in
  let finalDecision :=
    combineSignals (overallOf technicalOverall) sentimentSignals mlPredictions in
  mkAnalysis (d_signal finalDecision) (d_confidence finalDecision)
             (orderType finalDecision) (stopLoss finalDecision)
             (takeProfit finalDecision)
             technicalOverall sentimentSignals mlPredictions
             (reasoning finalDecision).

(** The combiner as the specification words it, for comparison with
    [combineSignals]: every contribution is [strength * weight * confidence]
    of its source, and a direction other than HOLD needs a score above both
    other scores and above [0.6]. *)
Module Spec.

Definition contribution (label : string) (s : option string)
           (strength weight confidence : num) : num :=
  if isString s label then mul (mul strength weight) confidence else 0.

Definition score (label : string) (technical : Overall) (sentiment : Sentiment)
           (ml : MLAnalysis) : num :=
  let sentimentSignal := so_signal (s_overall sentiment) in
  let mlSignal := ml_signal ml in
  add (add (contribution label (Some (o_signal technical))
                         (toNumber (o_strength technical)) 0.5
                         (o_confidence technical))
           (contribution label (option_map signal sentimentSignal)
                         (toNumber (option_map strength sentimentSignal)) 0.3
                         (so_confidence (s_overall sentiment))))
      (contribution label (option_map signal mlSignal)
                    (toNumber (option_map strength mlSignal)) 0.2
                    (ml_confidence ml)).


End Spec.

End DecisionEngine.

(* ------------------------------------------------------------------ *)
(** ** Risk evaluation *)

Module RiskManager.

Local Open Scope string_scope.

(** The level literals ['LOW'], ['MEDIUM'], ['HIGH'], ['EXTREME'] and
    ['UNKNOWN']. *)
Inductive Level : Type := LOW | MEDIUM | HIGH | EXTREME | UNKNOWN.

Definition levelEqb (a b : Level) : bool :=
  match a, b with
  | LOW, LOW | MEDIUM, MEDIUM | HIGH, HIGH | EXTREME, EXTREME
  | UNKNOWN, UNKNOWN => true
  | _, _ => false
  end.

(** Position of a market-condition level on the scale LOW < MEDIUM < HIGH <
    EXTREME. *)
Definition rank (l : Level) : nat :=
  match l with
  | LOW => 0
  | MEDIUM => 1
  | HIGH => 2
  | EXTREME => 3
  | UNKNOWN => 0
  end.

(** *** Number formatting *)

Definition digitsOf (n : N) : string := NilZero.string_of_uint (N.to_uint n).

Fixpoint zeros (n : nat) : string :=
  match n with
  | O => ""
  | S n' => String "0" (zeros n')
  end.

Definition padLeft (width : nat) (s : string) : string :=
  zeros (width - String.length s) ++ s.

(** [x.toFixed(d)]: the decimal with [d] fraction digits closest to [x], the
    larger one on a tie, after the sign has been set aside.  For magnitudes
    from [10^21] on the language switches to exponent notation, which is not
    rendered here: the digits are printed positionally throughout. *)
Definition toFixed (d : nat) (x : num) : string :=
  match x with
  | NaN => "NaN"
  | PInf => "Infinity"
  | NInf => "-Infinity"
  | Fin q =>
      let scale := (10 ^ N.of_nat d)%N in
      let n := Z.to_N (Qfloor (Qabs q * inject_Z (Z.of_N scale) + (1 # 2))) in
      let whole := digitsOf (N.div n scale) in
      let fraction :=
        match d with
        | O => ""
        | _ => "." ++ padLeft d (digitsOf (N.modulo n scale))
        end in
      (if Qltb q 0 then "-" else "") ++ whole ++ fraction
  end.

(** [(x * 100).toFixed(1)], the percentage of every reason string. *)
Definition percent (x : num) : string := toFixed 1 (mul x 100).

(** *** Configuration and portfolio snapshot *)

Record RiskSettings : Type := mkRiskSettings {
  maxPositionSize : num;
  maxDailyLoss : num;
  maxTotalExposure : num;
  stopLossPercentage : num;
  maxSectorExposure : num;
  useKellyCriterion : bool;
  minTradeValue : num;
  maxTradeValue : num
}.

Record TradingSettings : Type := mkTradingSettings {
  allowedSymbols : option (list string);
  blockedSymbols : option (list string)
}.

(** The stored [tradingConfig]; a property that is absent is [None]
    (a number that is absent is [NaN], see [JS.orElse]). *)
Record Config : Type := mkConfig {
  riskSettings : option RiskSettings;
  platforms : option (list string);   (* the [name] of each platform *)
  tradingSettings : option TradingSettings
}.

Record Position : Type := mkPosition {
  pos_symbol : string;
  quantity : num;
  pos_currentPrice : num
}.

Record Balance : Type := mkBalance {
  currency : string;
  available : num;
  locked : num
}.

Record PlatformData : Type := mkPlatformData {
  positions : option (list Position);
  balances : option (list Balance)
}.

(** The stored [portfolioData], as the entries of the object. *)
Definition Portfolio : Type := list (string * PlatformData).

(** A [Map] from strings to numbers, in insertion order. *)
Definition NumMap : Type := list (string * num).

Fixpoint mapGet (m : NumMap) (k : string) : option num :=
  match m with
  | [] => None
  | (k', v) :: m' => if k' =? k then Some v else mapGet m' k
  end.

Fixpoint mapSet (m : NumMap) (k : string) (v : num) : NumMap :=
  match m with
  | [] => [(k, v)]
  | (k', v') :: m' =>
      if k' =? k then (k, v) :: m' else (k', v') :: mapSet m' k v
  end.

Record Exposure : Type := mkExposure {
  total : num;
  byAsset : NumMap;
  bySector : NumMap
}.

Record MarketHours : Type := mkMarketHours {
  crypto : bool;
  stocks : bool
}.

Record Conditions : Type := mkConditions {
  volatility : num;
  majorEvents : option (list string);
  isMarketHours : option MarketHours;  (* [None]: absent, hence falsy *)
  liquidityScore : num;
  trendStrength : num
}.

Record OpenPosition : Type := mkOpenPosition {
  op_symbol : string;
  exposure : num
}.

(** The analysis record as the risk manager reads it: the composite signal
    and confidence, and the confidences of the three sub-analyses where the
    corresponding objects are present. *)
Record MLView : Type := mkMLView {
  mlv_confidence : num;
  mlv_volatility : option string
}.

Record TradeAnalysis : Type := mkTradeAnalysis {
  ta_signal : string;
  ta_confidence : num;
  ta_technical : option num;      (* [analysis.technical.overall.confidence] *)
  ta_sentiment : option num;      (* [analysis.sentiment.overall.confidence] *)
  ta_machineLearning : option MLView
}.

Definition tradeAnalysisOf (a : DecisionEngine.Analysis) : TradeAnalysis :=
  mkTradeAnalysis
    (DecisionEngine.a_signal a) (DecisionEngine.a_confidence a)
    (Some (DecisionEngine.tv_confidence (DecisionEngine.a_technical a)))
    (Some (DecisionEngine.so_confidence
             (DecisionEngine.s_overall (DecisionEngine.a_sentiment a))))
    (Some (mkMLView
             (DecisionEngine.ml_confidence (DecisionEngine.a_machineLearning a))
             (DecisionEngine.ml_volatility (DecisionEngine.a_machineLearning a)))).

(** Everything the risk manager obtains from outside itself: the two stored
    objects and the helper methods that stand for market data, trade history
    and platform status. *)
Record Env : Type := mkEnv {
  tradingConfig : Config;
  portfolioData : Portfolio;
  getMarketConditions : option Conditions;   (* [None]: the call throws *)
  getAssetVolatility : string -> num;
  getHistoricalWinRate : string -> string -> num;
  getAverageWin : string -> string -> num;
  getAverageLoss : string -> string -> num;
  getCurrentPositions : list OpenPosition;
  getCorrelation : string -> string -> num;
  platformSupportsSymbol : string -> string -> bool;
  checkPlatformHealth : string -> bool;      (* the [healthy] flag *)
  assessIndividualPlatformRisk : string -> string -> Level
}.

(** [isMarketHours()] at UTC day-of-week [day] and hour [hour]. *)
Definition marketHoursAt (day hour : nat) : MarketHours :=
  mkMarketHours true
    ((1 <=? day)%nat && (day <=? 5)%nat && (14 <=? hour)%nat && (hour <=? 21)%nat).

(** The helper methods as the source defines them for now: fixed values.
    [getCorrelation] draws a random number in the source; it is never called
    there because [getCurrentPositions] is empty. *)
Definition sourceEnv (config : Config) (portfolio : Portfolio)
           (day hour : nat) (correlation : string -> string -> num) : Env :=
  mkEnv config portfolio
        (Some (mkConditions 0.2 (Some []) (Some (marketHoursAt day hour))
                            0.8 0.6))
        (fun _ => 0.3)
        (fun _ _ => 0.55)
        (fun _ _ => 0.03)
        (fun _ _ => 0.02)
        []
        correlation
        (fun _ _ => true)
        (fun _ => true)
        (fun _ _ => LOW).

(** *** validateConfig *)

Definition validateConfig (config : Config) : list string :=
  ((match riskSettings config with
   | None => ["Risk settings are required"]
   | Some rs =>
       (if leb (maxPositionSize rs) 0 || gtb (maxPositionSize rs) 0.1
        then ["Max position size must be between 0 and 10% of portfolio"]
        else [])
       ++ (if leb (maxDailyLoss rs) 0 || gtb (maxDailyLoss rs) 0.05
           then ["Max daily loss must be between 0 and 5% of portfolio"]
           else [])
       ++ (if leb (maxTotalExposure rs) 0 || gtb (maxTotalExposure rs) 1.0
           then ["Max total exposure must be between 0 and 100% of portfolio"]
           else [])
       ++ (if leb (stopLossPercentage rs) 0
              || gtb (stopLossPercentage rs) 0.1
           then ["Stop loss percentage must be between 0 and 10%"]
           else [])
   end)
  ++ (match platforms config with
      | None | Some [] => ["At least one trading platform must be configured"]
      | Some _ => []
      end)
  ++ (match tradingSettings config with
      | None => ["Trading settings are required"]
      | Some _ => []
      end))%list.

(** *** Market conditions *)

Record MarketRisk : Type := mkMarketRisk {
  level : Level;
  factors : list string;
  conditions : option Conditions
}.

Definition assessMarketConditions (env : Env) : MarketRisk :=
  match getMarketConditions env with
  | None => mkMarketRisk HIGH ["Market assessment failed"] None
  | Some conditions =>
      let riskFactors : list string := [] in
      let riskLevel := LOW in
      (* Volatility assessment *)
      let '(riskFactors, riskLevel) :=
        if gtb (volatility conditions) 0.4
        then ((riskFactors ++ ["High market volatility"])%list, HIGH)
        else if gtb (volatility conditions) 0.25
        then ((riskFactors ++ ["Elevated market volatility"])%list, MEDIUM)
        else (riskFactors, riskLevel) in
      (* Economic events *)
      let '(riskFactors, riskLevel) :=
        match majorEvents conditions with
        | Some (_ :: _) =>
            ((riskFactors ++ ["Major economic events scheduled"])%list,
             if levelEqb riskLevel HIGH then EXTREME else HIGH)
        | _ => (riskFactors, riskLevel)
        end in
      (* Market hours *)
      let '(riskFactors, riskLevel) :=
        match isMarketHours conditions with
        | None =>
            ((riskFactors ++ ["Trading outside market hours"])%list,
             if levelEqb riskLevel LOW then MEDIUM else riskLevel)
        | Some _ => (riskFactors, riskLevel)
        end in
      (* Liquidity conditions *)
      let '(riskFactors, riskLevel) :=
        if ltb (liquidityScore conditions) 0.5
        then ((riskFactors ++ ["Low market liquidity"])%list,
              if levelEqb riskLevel HIGH then EXTREME else HIGH)
        else (riskFactors, riskLevel) in
      mkMarketRisk riskLevel riskFactors (Some conditions)
  end.

(** *** Portfolio exposure *)

Definition getAssetSector (symbol : string) : option string :=
  if symbol =? "AAPL" then Some "Technology"
  else if symbol =? "GOOGL" then Some "Technology"
  else if symbol =? "MSFT" then Some "Technology"
  else if symbol =? "BTC" then Some "Cryptocurrency"
  else if symbol =? "ETH" then Some "Cryptocurrency"
  else None.

Definition exchangeRate (currency : string) : num :=
  if currency =? "BTC" then 45000
  else if currency =? "ETH" then 3000
  else if currency =? "BNB" then 300
  else if currency =? "EUR" then 1.1
  else if currency =? "GBP" then 1.3
  else 1.

Definition convertToUSD (currency : string) (amount : num) : num :=
  mul amount (exchangeRate currency).

Definition addBalance (totalValue : num) (balance : Balance) : num :=
  let amount := add (available balance) (locked balance) in
  if (currency balance =? "USD") || (currency balance =? "USDT")
  then add totalValue amount
  else add totalValue (convertToUSD (currency balance) amount).

Definition getTotalAccountValue (portfolio : Portfolio) : num :=
  let totalValue :=
    fold_left
      (fun totalValue entry =>
         match balances (snd entry) with
         | Some bs => fold_left addBalance bs totalValue
         | None => totalValue
         end)
      portfolio (Fin 0) in
  max totalValue 1000.

(** The running state of the loops of [getCurrentExposure]. *)
Definition addPosition (st : num * NumMap * NumMap) (position : Position)
  : num * NumMap * NumMap :=
  let '(totalValue, byAsset, bySector) := st in
  let value := mul (quantity position) (pos_currentPrice position) in
  let currentAssetValue :=
    orElse (toNumber (mapGet byAsset (pos_symbol position))) 0 in
  let byAsset := mapSet byAsset (pos_symbol position)
                        (add currentAssetValue value) in
  let bySector :=
    match getAssetSector (pos_symbol position) with
    | Some sector =>
        let currentSectorValue := orElse (toNumber (mapGet bySector sector)) 0 in
        mapSet bySector sector (add currentSectorValue value)
    | None => bySector
    end in
  (add totalValue value, byAsset, bySector).

Definition getCurrentExposure (env : Env) : Exposure :=
  let portfolio := portfolioData env in
  let '(totalValue, byAsset, bySector) :=
    fold_left
      (fun st entry =>
         match positions (snd entry) with
         | Some ps => fold_left addPosition ps st
         | None => st
         end)
      portfolio (Fin 0, [], []) in
  let totalAccountValue := getTotalAccountValue portfolio in
  mkExposure
    (if gtb totalAccountValue 0 then div totalValue totalAccountValue else 0)
    (map (fun kv => (fst kv, div (snd kv) totalAccountValue)) byAsset)
    (map (fun kv => (fst kv, div (snd kv) totalAccountValue)) bySector).

Record ExposureCheck : Type := mkExposureCheck {
  allowed : bool;
  ec_reason : option string;
  currentExposure : option Exposure;
  availableCapacity : option num
}.

Definition rejectExposure (reason : string) : ExposureCheck :=
  mkExposureCheck false (Some reason) None None.

Definition checkPortfolioExposure (env : Env) (symbol : string)
  : ExposureCheck :=
  match riskSettings (tradingConfig env) with
  | None => rejectExposure "Portfolio exposure check failed"
  | Some rs =>
      let currentExposure := getCurrentExposure env in
      let maxTotalExposure := maxTotalExposure rs in
      let maxSingleAssetExposure := maxPositionSize rs in
      if geb (total currentExposure) maxTotalExposure
      then rejectExposure
             ("Total portfolio exposure (" ++ percent (total currentExposure)
              ++ "%) exceeds limit (" ++ percent maxTotalExposure ++ "%)")
      else
        let assetExposure :=
          orElse (toNumber (mapGet (byAsset currentExposure) symbol)) 0 in
        if geb assetExposure maxSingleAssetExposure
        then rejectExposure
               ("Exposure to " ++ symbol ++ " (" ++ percent assetExposure
                ++ "%) exceeds single asset limit ("
                ++ percent maxSingleAssetExposure ++ "%)")
        else
          let accept :=
            mkExposureCheck true None (Some currentExposure)
              (Some (sub maxTotalExposure (total currentExposure))) in
          match getAssetSector symbol with
          | Some sector =>
              let sectorExposure :=
                orElse (toNumber (mapGet (bySector currentExposure) sector)) 0 in
              let maxSectorExposure := orElse (maxSectorExposure rs) 0.3 in
              if geb sectorExposure maxSectorExposure
              then rejectExposure
                     ("Exposure to " ++ sector ++ " sector ("
                      ++ percent sectorExposure ++ "%) exceeds limit ("
                      ++ percent maxSectorExposure ++ "%)")
              else accept
          | None => accept
          end
  end.

(** *** Signal quality *)

Record SignalQuality : Type := mkSignalQuality {
  sq_score : num;
  sq_factors : list string;
  recommendation : Level
}.

Definition assessSignalQuality (analysis : TradeAnalysis) : SignalQuality :=
  let score := add 0 (mul (ta_confidence analysis) 0.4) in
  let factors := ["Confidence: " ++ percent (ta_confidence analysis) ++ "%"] in
  let '(score, factors) :=
    match ta_technical analysis with
    | Some c => (add score (mul c 0.3),
                 (factors ++ [("Technical: " ++ percent c ++ "%")%string])%list)
    | None => (score, factors)
    end in
  let '(score, factors) :=
    match ta_sentiment analysis with
    | Some c => (add score (mul c 0.2),
                 (factors ++ [("Sentiment: " ++ percent c ++ "%")%string])%list)
    | None => (score, factors)
    end in
  let '(score, factors) :=
    match ta_machineLearning analysis with
    | Some m => (add score (mul (mlv_confidence m) 0.1),
                 (factors ++ [("ML: " ++ percent (mlv_confidence m) ++ "%")%string])%list)
    | None => (score, factors)
    end in
  mkSignalQuality (min score 1.0) factors
    (if geb score 0.7 then HIGH else if geb score 0.6 then MEDIUM else LOW).

(** *** Position sizing *)

Definition calculateKellyPosition (env : Env) (analysis : TradeAnalysis)
           (symbol : string) : num :=
  let winRate := getHistoricalWinRate env symbol (ta_signal analysis) in
  let avgWin := getAverageWin env symbol (ta_signal analysis) in
  let avgLoss := getAverageLoss env symbol (ta_signal analysis) in
  if leb avgLoss 0 then 0
  else
    let b := div avgWin avgLoss in
    let p := winRate in
    let q := sub 1 p in
    let kellyFraction := div (sub (mul b p) q) b in
    max 0 (min kellyFraction 0.05).

Definition getTotalPortfolioValue (env : Env) : num :=
  getTotalAccountValue (portfolioData env).

Definition calculatePositionSize (env : Env) (analysis : TradeAnalysis)
           (symbol : string) : num :=
  match riskSettings (tradingConfig env) with
  | None => 0   (* the property access throws; the handler returns 0 *)
  | Some rs =>
      let portfolioValue := getTotalPortfolioValue env in
      let baseSize := maxPositionSize rs in
      let confidenceAdjustment := add (mul (ta_confidence analysis) 0.8) 0.2 in
      let baseSize := mul baseSize confidenceAdjustment in
      let volatility := getAssetVolatility env symbol in
      let volatilityAdjustment := max 0.3 (sub 1 volatility) in
      let baseSize := mul baseSize volatilityAdjustment in
      let marketConditions := assessMarketConditions env in
      let marketAdjustment : num :=
        if levelEqb (level marketConditions) HIGH then 0.5
        else if levelEqb (level marketConditions) MEDIUM then 0.7
        else 1.0 in
      let baseSize := mul baseSize marketAdjustment in
      let baseSize :=
        if useKellyCriterion rs
        then min baseSize (calculateKellyPosition env analysis symbol)
        else baseSize in
      let minTradeValue := orElse (minTradeValue rs) 10 in
      let calculatedValue := mul baseSize portfolioValue in
      if ltb calculatedValue minTradeValue then 0
      else
        let maxTradeValue :=
          orElse (maxTradeValue rs) (mul portfolioValue 0.1) in
        min baseSize (div maxTradeValue portfolioValue)
  end.

(** *** Correlation and platforms *)

Record Correlated : Type := mkCorrelated {
  c_symbol : string;
  c_correlation : num;
  c_exposure : num
}.

Record CorrelationRisk : Type := mkCorrelationRisk {
  cr_level : Level;
  totalCorrelatedExposure : num;
  maxCorrelation : num;
  correlatedPositions : list Correlated
}.

Definition isHighlyCorrelated (c : Correlated) : bool :=
  gtb (abs (c_correlation c)) 0.7.

Definition checkCorrelationRisk (env : Env) (symbol : string)
  : CorrelationRisk :=
  let correlations :=
    map (fun position =>
           mkCorrelated (op_symbol position)
                        (getCorrelation env symbol (op_symbol position))
                        (exposure position))
        (getCurrentPositions env) in
  let '(totalCorrelatedExposure, maxCorrelation) :=
    fold_left
      (fun acc corr =>
         if isHighlyCorrelated corr
         then (add (fst acc) (c_exposure corr),
               max (snd acc) (abs (c_correlation corr)))
         else acc)
      correlations (Fin 0, Fin 0) in
  let riskLevel :=
    if gtb totalCorrelatedExposure 0.3 then HIGH
    else if gtb totalCorrelatedExposure 0.15 then MEDIUM
    else LOW in
  mkCorrelationRisk riskLevel totalCorrelatedExposure maxCorrelation
                    (filter isHighlyCorrelated correlations).

(** The [approvedPlatforms] of [assessPlatformRisk]. *)
Definition assessPlatformRisk (env : Env) (symbol : string) : list string :=
  let enabledPlatforms :=
    match platforms (tradingConfig env) with
    | Some ps => ps
    | None => []
    end in
  filter
    (fun name =>
       platformSupportsSymbol env name symbol
       && checkPlatformHealth env name
       && negb (levelEqb (assessIndividualPlatformRisk env name symbol) HIGH))
    enabledPlatforms.

Definition isSymbolAllowed (env : Env) (symbol : string) : bool :=
  let config := tradingConfig env in
  let whitelist :=
    match tradingSettings config with
    | Some ts => allowedSymbols ts
    | None => None
    end in
  let blacklist :=
    match tradingSettings config with
    | Some ts => blockedSymbols ts
    | None => None
    end in
  if match blacklist with
     | Some bl => existsb (String.eqb symbol) bl
     | None => false
     end
  then false
  else
    match whitelist with
    | Some (w :: wl) => existsb (String.eqb symbol) (w :: wl)
    | _ => true
    end.

(** *** Overall risk level and trade conditions *)

Definition isVolatility (m : option MLView) (lit : string) : bool :=
  match m with
  | Some v => DecisionEngine.isString (mlv_volatility v) lit
  | None => false
  end.

Definition calculateRiskLevel (analysis : TradeAnalysis)
           (exposureCheck : ExposureCheck) (correlationRisk : CorrelationRisk)
  : Level :=
  let factors :=
    ((if ltb (ta_confidence analysis) 0.7 then ["LOW_CONFIDENCE"] else [])
     ++ (match currentExposure exposureCheck with
         | Some e => if gtb (total e) 0.8 then ["HIGH_EXPOSURE"] else []
         | None => []
         end)
     ++ (if levelEqb (cr_level correlationRisk) HIGH
         then ["HIGH_CORRELATION"] else [])
     ++ (if isVolatility (ta_machineLearning analysis) "HIGH"
         then ["HIGH_VOLATILITY"] else []))%list in
  if existsb (String.eqb "HIGH_EXPOSURE") factors
     || existsb (String.eqb "HIGH_CORRELATION") factors
  then HIGH
  else if (2 <=? List.length factors)%nat then MEDIUM
  else LOW.

Definition getTradeConditions (analysis : TradeAnalysis) (riskLevel : Level)
  : list string :=
  ((if levelEqb riskLevel HIGH
    then ["Reduced position size due to high risk";
          "Tighter stop loss required"]
    else [])
   ++ (if ltb (ta_confidence analysis) 0.8
       then ["Limit order recommended due to lower confidence"] else [])
   ++ (if isVolatility (ta_machineLearning analysis) "HIGH"
       then ["Extra caution due to high volatility"] else []))%list.

(** *** The entry point *)

Record RiskAssessment : Type := mkRiskAssessment {
  approved : bool;
  recommendedSize : num;
  reason : string;
  riskLevel : Level;
  approvedPlatforms : list string;
  ra_conditions : list string
}.

Definition rejected (reason : string) (approvedPlatforms : list string)
  : RiskAssessment :=
  mkRiskAssessment false 0 reason UNKNOWN approvedPlatforms [].

(** [evaluateOpportunity].  Each helper handles its own exceptions, so that
    on the typed inputs of the model the handler of the entry point itself is
    never reached. *)
Definition evaluateOpportunity (env : Env) (analysis : TradeAnalysis)
           (symbol : string) : RiskAssessment :=
  if negb (isSymbolAllowed env symbol)
  then rejected "Symbol not in allowed trading list" []
  else
    let marketRisk := assessMarketConditions env in
    if levelEqb (level marketRisk) EXTREME
    then rejected "Extreme market conditions detected" []
    else
      let exposureCheck := checkPortfolioExposure env symbol in
      if negb (allowed exposureCheck)
      then rejected (match ec_reason exposureCheck with
                     | Some r => r
                     | None => ""
                     end) []
      else
        let signalQuality := assessSignalQuality analysis in
        if ltb (sq_score signalQuality) 0.6
        then rejected "Signal quality too low for trading" []
        else
          let positionSize := calculatePositionSize env analysis symbol in
          if leb positionSize 0
          then rejected "Calculated position size too small to trade" []
          else
            let correlationRisk := checkCorrelationRisk env symbol in
            if levelEqb (cr_level correlationRisk) HIGH
            then rejected "High correlation with existing positions" []
            else
              let approvedPlatforms := assessPlatformRisk env symbol in
              match approvedPlatforms with
              | [] => rejected "No approved platforms for this trade" []
              | _ =>
                  let riskLevel :=
                    calculateRiskLevel analysis exposureCheck correlationRisk in
                  mkRiskAssessment true positionSize "" riskLevel
                    approvedPlatforms (getTradeConditions analysis riskLevel)
              end.

Definition evaluateManualTrade (env : Env) (side symbol : string)
  : RiskAssessment :=
  let mockAnalysis :=
    mkTradeAnalysis side 0.7 (Some (Fin 0.6)) (Some (Fin 0.5))
                    (Some (mkMLView 0.5 (Some "MEDIUM"))) in
  evaluateOpportunity env mockAnalysis symbol.

End RiskManager.

(* ------------------------------------------------------------------ *)
(** ** Derived notions used by the statements *)

Module Notions.

Import DecisionEngine.
Local Open Scope string_scope.

(** The three branches of the bucket test of [evaluateTechnicalSignals], as
    predicates on the label. *)
Definition isBuyLabel (label : string) : bool := includes label "BUY".
Definition isSellLabel (label : string) : bool :=
  negb (includes label "BUY") && includes label "SELL".
Definition isHoldLabel (label : string) : bool :=
  negb (includes label "BUY") && negb (includes label "SELL").

(** The strengths of the signals whose label satisfies [p], in entry order. *)
Definition strengthsWhere (p : string -> bool)
           (signals : list (string * Signal)) : list num :=
  map strength (filter (fun s => p (signal s)) (map snd signals)).

(** Every label a rule of the signal generator can return. *)
Definition generatedLabels : list string :=
  ["BUY"; "SELL"; "HOLD"; "WEAK_BUY"; "WEAK_SELL";
   "STRONG_SIGNAL"; "CONFIRMATION"; "WEAK_SIGNAL"; "NEUTRAL"; "NONE"].

(** Indicator readings on which every rule abstains. *)
Definition neutralIndicators : Indicators :=
  mkIndicators 100 100 100 100 (mkMACD 0 0 0) 50 (mkBands 110 100 90)
               (mkSR 80 120) (mkVolume "STABLE" "MEDIUM" false) [] 100.


(** The three elements of the array [signals] of [combineSignals]. *)
Definition entriesOf (technical : Overall) (sentiment : Sentiment)
           (ml : MLAnalysis) : list Entry :=
  [ spreadOverall technical 0.5;
    spreadSignal (so_signal (s_overall sentiment)) 0.3;
    spreadSignal (ml_signal ml) 0.2 ].

(** What one element adds to the score of [label]: [strength * weight] when
    its signal is [label], nothing otherwise. *)
Definition contributionOf (label : string) (e : Entry) : num :=
  if hasSignal label e then mul (toNumber (e_strength e)) (e_weight e) else 0.



(** A sentiment analysis whose overall signal is [label] with [strength]. *)
Definition sentimentWith (label : string) (strength confidence : num)
  : Sentiment :=
  let unit := mkSentimentScore 0 confidence in
  mkSentiment unit unit unit
    (mkSentimentOverall 0 confidence (Some (sig label strength))).

(** Scenario D: technical BUY of strength 0.8 and confidence 0.9. *)
Definition scenarioD_technical : Overall := mkOverall "BUY" (Some (Fin 0.8)) 0.9.


(** Three sources that all say HOLD at full strength. *)
Definition holdTechnical : Overall := mkOverall "HOLD" (Some (Fin 1)) 1.
Definition holdML : MLAnalysis :=
  mkML "NEUTRAL" (Some "MEDIUM") 1 (Some "SHORT") (Some (sig "HOLD" 1)).

(** Every source that carries a signal carries a strength in [[0, 1]]. *)
Definition strengthInRange (s : option Signal) : Prop :=
  match s with
  | Some s => within 0 1 (strength s)
  | None => True
  end.

Definition strengthsInRange (technical : Overall) (sentiment : Sentiment)
           (ml : MLAnalysis) : Prop :=
  within 0 1 (toNumber (o_strength technical))
  /\ strengthInRange (so_signal (s_overall sentiment))
  /\ strengthInRange (ml_signal ml).

End Notions.

Module RiskNotions.

Import RiskManager.
Local Open Scope string_scope.

(** The same environment with other market conditions. *)
Definition withConditions (env : Env) (c : option Conditions) : Env :=
  mkEnv (tradingConfig env) (portfolioData env) c
        (getAssetVolatility env) (getHistoricalWinRate env)
        (getAverageWin env) (getAverageLoss env) (getCurrentPositions env)
        (getCorrelation env) (platformSupportsSymbol env)
        (checkPlatformHealth env) (assessIndividualPlatformRisk env).

(** The same conditions with another liquidity score. *)
Definition setLiquidity (c : Conditions) (score : num) : Conditions :=
  mkConditions (volatility c) (majorEvents c) (isMarketHours c) score
               (trendStrength c).

Definition hasMajorEvents (c : Conditions) : bool :=
  match majorEvents c with
  | Some (_ :: _) => true
  | _ => false
  end.

Definition inMarketHours (c : Conditions) : bool :=
  match isMarketHours c with
  | Some _ => true
  | None => false
  end.

(** The default risk and trading settings of the extension, with one
    platform added ([validateConfig] refuses a configuration without one). *)
Definition defaultRiskSettings : RiskSettings :=
  mkRiskSettings 0.02 0.01 0.8 0.02 0.3 false 10 1000.

Definition defaultConfig : Config :=
  mkConfig (Some defaultRiskSettings) (Some ["binance"])
           (Some (mkTradingSettings None None)).

(** The source's environment on a Monday at 15:00 UTC, with the default
    configuration and a given portfolio. *)
Definition defaultEnv (portfolio : Portfolio) : Env :=
  sourceEnv defaultConfig portfolio 1 15 (fun _ _ => Fin 0).

(** Calm and liquid conditions (those of the source), and the same with a
    liquidity score of 0.3. *)
Definition calmConditions : Conditions :=
  mkConditions 0.2 (Some []) (Some (marketHoursAt 1 15)) 0.8 0.6.
Definition illiquidConditions : Conditions := setLiquidity calmConditions 0.3.

(** Volatile conditions with a major event scheduled, liquid and illiquid. *)
Definition stressedConditions : Conditions :=
  mkConditions 0.5 (Some ["FOMC"]) (Some (marketHoursAt 1 15)) 0.8 0.6.
Definition stressedIlliquid : Conditions := setLiquidity stressedConditions 0.3.








(** An analysis as the decision engine produces it: the technical signals
    of [neutralIndicators], a mildly positive sentiment and a neutral
    prediction, all three sources available. *)
Definition quietAnalysis : DecisionEngine.Analysis :=
  DecisionEngine.analyzeMarket
    (DecisionEngine.generateTechnicalSignals Notions.neutralIndicators)
    (Some (DecisionEngine.mkSentimentScore 0.1 0.8,
           DecisionEngine.mkSentimentScore 0.1 0.8,
           DecisionEngine.mkSentimentScore 0.1 0.8))
    (Some (DecisionEngine.mkPrediction "NEUTRAL" (Some "MEDIUM") 0.7
                                       (Some "SHORT"))).

(** The same environment with other open positions and correlations. *)
Definition withPositions (env : Env) (ps : list OpenPosition)
           (correlation : string -> string -> num) : Env :=
  mkEnv (tradingConfig env) (portfolioData env) (getMarketConditions env)
        (getAssetVolatility env) (getHistoricalWinRate env)
        (getAverageWin env) (getAverageLoss env) ps correlation
        (platformSupportsSymbol env) (checkPlatformHealth env)
        (assessIndividualPlatformRisk env).

(** Three open positions of exposure 0.12 each. *)
Definition threePositions : list OpenPosition :=
  [mkOpenPosition "ETH" 0.12; mkOpenPosition "SOL" 0.12;
   mkOpenPosition "ADA" 0.12].

(** The size is a finite number of [[0, cap]] for a finite cap. *)
Definition sizeWithin (cap size : num) : Prop :=
  match cap with
  | Fin m => within 0 m size
  | _ => False
  end.

End RiskNotions.

(* ------------------------------------------------------------------ *)
(** ** The rest of the indicator library *)

Module IndicatorLibrary.

Import TechnicalAnalysis.
Local Open Scope string_scope.

(** [Math.max(...values)] and [Math.min(...values)]: minus and plus
    infinity on an empty array, NaN as soon as one value is. *)
Definition maxOf (values : list num) : num := fold_left max values NInf.
Definition minOf (values : list num) : num := fold_left min values PInf.

(** [a === b] on numbers: NaN is equal to nothing. *)
Definition strictEq (a b : num) : bool :=
  match a, b with
  | Fin x, Fin y => Qeq_bool x y
  | PInf, PInf | NInf, NInf => true
  | _, _ => false
  end.

(** [values[i]] read as a number: [undefined] (NaN) out of range. *)
Definition at_ (values : list num) (i : nat) : num :=
  toNumber (nth_error values i).

(** [Math.floor] *)
Definition floor (a : num) : num :=
  match a with
  | Fin q => Fin (inject_Z (Qfloor q))
  | other => other
  end.

(** [array.slice(-n)]: the last [n] elements, the whole array for [n = 0]
    (the argument is then [-0]). *)
Definition sliceLast {A : Type} (l : list A) (n : nat) : list A :=
  match n with
  | O => l
  | _ => skipn (List.length l - n) l
  end.

(** The loop of [calculateEMA] from index 1 on. *)
Fixpoint emaLoop (multiplier previous : num) (rest : list num) : list num :=
  match rest with
  | [] => []
  | price :: rest' =>
      let current :=
        add (mul price multiplier) (mul previous (sub 1 multiplier)) in
      current :: emaLoop multiplier current rest'
  end.

Definition calculateEMA (prices : list num) (period : nat) : list num :=
  match prices with
  | [] => []
  | first :: rest =>
      let multiplier := div 2 (add (ofNat period) 1) in
      first :: emaLoop multiplier first rest
  end.

(** [calculateMACD]; the loop index starts at [Math.max(0, slowPeriod - 1)]
    and both averages have the length of [prices]. *)
Definition calculateMACD (prices : list num)
           (fastPeriod slowPeriod signalPeriod : nat)
  : list DecisionEngine.MACD :=
  let fastEMA := calculateEMA prices fastPeriod in
  let slowEMA := calculateEMA prices slowPeriod in
  match fastEMA, slowEMA with
  | [], _ | _, [] => []
  | _, _ =>
      let macdLine :=
        skipn (slowPeriod - 1)
              (map (fun fs => sub (fst fs) (snd fs)) (combine fastEMA slowEMA)) in
      let signalLine := calculateEMA macdLine signalPeriod in
      let histogram :=
        map (fun ms => sub (fst ms) (snd ms)) (combine macdLine signalLine) in
      map (fun i =>
             DecisionEngine.mkMACD (at_ macdLine i)
                                   (orElse (at_ signalLine i) 0)
                                   (orElse (at_ histogram i) 0))
          (seq 0 (List.length macdLine))
  end.


(** The window [slice(i - period + 1, i + 1)] for [i = period - 1 + k]. *)
Definition window (values : list num) (period k : nat) : list num :=
  slice values k (k + period).




(** The true range of bar [i >= 1]. *)
Definition trueRange (highs lows closes : list num) (i : nat) : num :=
  let tr1 := sub (at_ highs i) (at_ lows i) in
  let tr2 := abs (sub (at_ highs i) (at_ closes (i - 1))) in
  let tr3 := abs (sub (at_ lows i) (at_ closes (i - 1))) in
  maxOf [tr1; tr2; tr3].

Definition calculateATR (highs lows closes : list num) (period : nat)
  : list num :=
  if (List.length highs <? 2)%nat then []
  else
    let trueRanges :=
      map (trueRange highs lows closes) (seq 1 (List.length highs - 1)) in
    calculateEMA trueRanges period.

(** *** Fibonacci retracements *)





(** *** Extrema and the least-squares trend *)

Record Extremum : Type := mkExtremum {
  price : num;
  index : nat
}.

(** The loop shared by [findPeaks] and [findTroughs]: [i] from [window] to
    [prices.length - window - 1], the neighbourhood being
    [prices.slice(i - window, i + window + 1)]. *)
Definition findExtrema (extreme : list num -> num) (prices : list num)
           (window : nat) : list Extremum :=
  flat_map
    (fun i =>
       let subset := slice prices (i - window) (i + window + 1) in
       if strictEq (at_ prices i) (extreme subset)
       then [mkExtremum (at_ prices i) i] else [])
    (seq window (List.length prices - window - window)).

Definition findPeaks (prices : list num) (window : nat) : list Extremum :=
  findExtrema maxOf prices window.

Definition findTroughs (prices : list num) (window : nat) : list Extremum :=
  findExtrema minOf prices window.

(** [values.reduce((sum, val, i) => sum + (i * val), 0)], the index starting
    at [start]. *)
Fixpoint indexWeightedSum (start : nat) (acc : num) (values : list num) : num :=
  match values with
  | [] => acc
  | val :: rest =>
      indexWeightedSum (S start) (add acc (mul (ofNat start) val)) rest
  end.

Definition calculateTrend (values : list num) : num :=
  if (List.length values <? 2)%nat then 0
  else
    let n := ofNat (List.length values) in
    let sumX := div (mul n (sub n 1)) 2 in
    let sumY := sum values in
    let sumXY := indexWeightedSum 0 0 values in
    let sumXX := div (mul (mul n (sub n 1)) (sub (mul 2 n) 1)) 6 in
    div (sub (mul n sumXY) (mul sumX sumY))
        (sub (mul n sumXX) (mul sumX sumX)).

(** *** Chart patterns *)

(** [calculatePatternConfidence(patternType, ...points)]; [None] when the
    branch taken reads a point that was not passed (a [TypeError]). *)
Definition pointPrice (points : list Extremum) (k : nat) : option num :=
  option_map price (nth_error points k).

Definition clampConfidence (baseConfidence : num) : num :=
  max 0.3 (min 0.95 baseConfidence).

Definition calculatePatternConfidence (patternType : string)
           (points : list Extremum) : option num :=
  let baseConfidence : num := 0.6 in
  if (patternType =? "DOUBLE_TOP") || (patternType =? "DOUBLE_BOTTOM")
  then
    match pointPrice points 0, pointPrice points 1 with
    | Some p0, Some p1 =>
        let priceDiff := div (abs (sub p0 p1)) p0 in
        Some (clampConfidence
                (add baseConfidence (mul (sub 0.02 priceDiff) 10)))
    | _, _ => None
    end
  else if patternType =? "HEAD_AND_SHOULDERS"
  then
    match pointPrice points 0, pointPrice points 1, pointPrice points 2 with
    | Some p0, Some p1, Some p2 =>
        let shoulderDiff := div (abs (sub p0 p2)) p0 in
        let headHeight := div (sub p1 (max p0 p2)) p1 in
        Some (clampConfidence
                (add baseConfidence
                     (add (mul (sub 0.05 shoulderDiff) 5) (mul headHeight 2))))
    | _, _, _ => None
    end
  else Some (clampConfidence baseConfidence).

(** The confidence stored in a pattern; the detectors always pass the
    points that the branch reads, so the default is never used. *)
Definition confidenceFor (patternType : string) (points : list Extremum)
  : num :=
  match calculatePatternConfidence patternType points with
  | Some c => c
  | None => NaN
  end.

(** The properties a pattern carries besides the common ones. *)
Inductive PatternDetails : Type :=
| DoublePrices (price1 price2 : num)
| Shoulders (leftShoulder head rightShoulder : num)
| ResistanceLevel (resistance : num)
| SupportLevel (support : num).

Record Pattern : Type := mkPattern {
  p_type : string;
  startIndex : nat;
  endIndex : nat;
  details : PatternDetails;
  p_confidence : num
}.

(** The pairs [(points[i], points[i + 1])] and the triples
    [(points[i], points[i + 1], points[i + 2])] of the detector loops. *)
Fixpoint consecutivePairs (points : list Extremum)
  : list (Extremum * Extremum) :=
  match points with
  | a :: (b :: _) as rest => (a, b) :: consecutivePairs rest
  | _ => []
  end.

Fixpoint consecutiveTriples (points : list Extremum)
  : list (Extremum * Extremum * Extremum) :=
  match points with
  | a :: (b :: c :: _) as rest => (a, b, c) :: consecutiveTriples rest
  | _ => []
  end.

Definition doublePatterns (patternType : string) (window : nat)
           (points : list Extremum) : list Pattern :=
  flat_map
    (fun pq =>
       let '(p1, p2) := pq in
       if ltb (div (abs (sub (price p1) (price p2))) (price p1)) 0.02
          && (Z.of_nat window <? Z.of_nat (index p2) - Z.of_nat (index p1))%Z
       then [mkPattern patternType (index p1) (index p2)
                       (DoublePrices (price p1) (price p2))
                       (confidenceFor patternType [p1; p2])]
       else [])
    (consecutivePairs points).

Definition detectDoubleTopBottom (prices : list num) (window : nat)
  : list Pattern :=
  (doublePatterns "DOUBLE_TOP" window (findPeaks prices window)
   ++ doublePatterns "DOUBLE_BOTTOM" window (findTroughs prices window))%list.

Definition detectHeadAndShoulders (prices : list num) (window : nat)
  : list Pattern :=
  let peaks := findPeaks prices window in
  if (List.length peaks <? 3)%nat then []
  else
    flat_map
      (fun t =>
         let '(leftShoulder, head, rightShoulder) := t in
         if gtb (price head) (price leftShoulder)
            && gtb (price head) (price rightShoulder)
            && ltb (div (abs (sub (price leftShoulder) (price rightShoulder)))
                        (price leftShoulder)) 0.05
         then [mkPattern "HEAD_AND_SHOULDERS"
                         (index leftShoulder) (index rightShoulder)
                         (Shoulders (price leftShoulder) (price head)
                                    (price rightShoulder))
                         (confidenceFor "HEAD_AND_SHOULDERS"
                                        [leftShoulder; head; rightShoulder])]
         else [])
      (consecutiveTriples peaks).

Definition averagePrice (points : list Extremum) : num :=
  div (fold_left (fun sum h => add sum (price h)) points 0)
      (ofNat (List.length points)).

Definition detectTriangles (prices : list num) (window : nat)
  : list Pattern :=
  if (List.length prices <? window * 2)%nat then []
  else
    let recentPrices := sliceLast prices (window * 2) in
    let highs := findExtrema maxOf recentPrices 5 in
    let lows := findExtrema minOf recentPrices 5 in
    match highs, lows with
    | h0 :: _ :: _, l0 :: _ :: _ =>
        let highTrend := calculateTrend (map price highs) in
        let lowTrend := calculateTrend (map price lows) in
        let startIndex := Nat.min (index h0) (index l0) in
        let endIndex := Nat.max (index (last highs h0)) (index (last lows l0)) in
        ((if ltb (abs highTrend) 0.001 && gtb lowTrend 0.001
          then [mkPattern "ASCENDING_TRIANGLE" startIndex endIndex
                          (ResistanceLevel (averagePrice highs)) 0.7]
          else [])
         ++ (if ltb (abs lowTrend) 0.001 && ltb highTrend (neg 0.001)
             then [mkPattern "DESCENDING_TRIANGLE" startIndex endIndex
                             (SupportLevel (averagePrice lows)) 0.7]
             else []))%list
    | _, _ => []
    end.

Definition detectPatterns (prices : list num) (window : nat) : list Pattern :=
  if (List.length prices <? window * 3)%nat then []
  else
    (detectDoubleTopBottom prices window
     ++ detectHeadAndShoulders prices window
     ++ detectTriangles prices window)%list.

(** The pattern signal of the decision engine on the detected patterns. *)
Definition patternSignalOf (prices : list num) (window : nat)
  : DecisionEngine.Signal :=
  DecisionEngine.getPatternSignal (map p_type (detectPatterns prices window)).

End IndicatorLibrary.

(* ------------------------------------------------------------------ *)
(** ** Volume analysis *)

Module VolumeAnalysis.

Import IndicatorLibrary.
Local Open Scope string_scope.

(** The loop of [calculateVPT] from index [i >= 1] on: [previous] is
    [vpt[i - 1]], [lastPrice] is [prices[i - 1]]. *)
Fixpoint vptLoop (volumes : list num) (i : nat) (previous lastPrice : num)
         (rest : list num) : list num :=
  match rest with
  | [] => []
  | p :: rest' =>
      let priceChange := div (sub p lastPrice) lastPrice in
      let current := add previous (mul (at_ volumes i) priceChange) in
      current :: vptLoop volumes (S i) current p rest'
  end.

Definition calculateVPT (prices volumes : list num) : list num :=
  match prices with
  | first :: (_ :: _) as rest => Fin 0 :: vptLoop volumes 1 0 first rest
  | _ => [Fin 0]
  end.

(** The key of the bin that starts at [minPrice + i * binSize]. *)
Definition binKey (minPrice binSize i : num) : string :=
  let binStart := add minPrice (mul i binSize) in
  let binEnd := add binStart binSize in
  RiskManager.toFixed 2 binStart ++ "-" ++ RiskManager.toFixed 2 binEnd.

(** [profile[key] += volume]: a key that is absent reads [undefined]. *)
Definition addToBin (profile : RiskManager.NumMap) (key : string) (volume : num)
  : RiskManager.NumMap :=
  RiskManager.mapSet profile key
    (add (toNumber (RiskManager.mapGet profile key)) volume).

(** [calculateVolumeProfile]; the empty object is the empty map. *)
Definition calculateVolumeProfile (prices volumes : list num) (bins : nat)
  : RiskManager.NumMap :=
  if negb (List.length prices =? List.length volumes)%nat
     || (List.length prices =? 0)%nat
  then []
  else
    let minPrice := minOf prices in
    let maxPrice := maxOf prices in
    let priceRange := sub maxPrice minPrice in
    let binSize := div priceRange (ofNat bins) in
    let profile :=
      fold_left
        (fun profile i =>
           RiskManager.mapSet profile (binKey minPrice binSize (ofNat i)) 0)
        (seq 0 bins) [] in
    fold_left
      (fun profile pv =>
         let binIndex :=
           min (floor (div (sub (fst pv) minPrice) binSize))
               (sub (ofNat bins) 1) in
         addToBin profile (binKey minPrice binSize binIndex) (snd pv))
      (combine prices volumes) profile.

(** What [analyzeVolume] returns; the properties after [unusualActivity]
    are absent from the object returned on a short history. *)
Record VolumeReport : Type := mkVolumeReport {
  vr_trend : string;
  vr_strength : string;
  vr_unusualActivity : bool;
  avgVolume : option num;
  recentVolume : option num;
  volumeRatio : option num;
  vpt : option num;
  volumeProfile : RiskManager.NumMap
}.

Definition analyzeVolume (prices volumes : list num) : VolumeReport :=
  if (List.length volumes <? 20)%nat
  then mkVolumeReport "UNKNOWN" "LOW" false None None None None []
  else
    let avgVolume := div (sum volumes) (ofNat (List.length volumes)) in
    let recentVolume := div (sum (sliceLast volumes 5)) 5 in
    let volumeTrend :=
      if gtb recentVolume (mul avgVolume 1.2) then "INCREASING"
      else if ltb recentVolume (mul avgVolume 0.8) then "DECREASING"
      else "STABLE" in
    let volumeStrength :=
      if gtb recentVolume (mul avgVolume 2) then "HIGH"
      else if gtb recentVolume (mul avgVolume 1.5) then "MEDIUM"
      else "LOW" in
    let unusualActivity :=
      gtb (at_ volumes (List.length volumes - 1)) (mul avgVolume 3) in
    let vpt := calculateVPT prices volumes in
    mkVolumeReport volumeTrend volumeStrength unusualActivity
      (Some avgVolume) (Some recentVolume)
      (Some (div recentVolume avgVolume))
      (Some (orElse (at_ vpt (List.length vpt - 1)) 0))
      (calculateVolumeProfile prices volumes 10).

(** The part of the report that [getVolumeSignal] reads. *)
Definition volumeAnalysisOf (r : VolumeReport) : DecisionEngine.VolumeAnalysis :=
  DecisionEngine.mkVolume (vr_trend r) (vr_strength r) (vr_unusualActivity r).

Definition volumeSignalOf (prices volumes : list num) : DecisionEngine.Signal :=
  DecisionEngine.getVolumeSignal (volumeAnalysisOf (analyzeVolume prices volumes)).

End VolumeAnalysis.

(* ------------------------------------------------------------------ *)
(** ** Sentiment analysis *)

Module SentimentAnalysis.

Local Open Scope string_scope.

(** [calculateVariance]; [Math.pow(x, 2)] is [x * x]. *)
Definition calculateVariance (values : list num) : num :=
  match values with
  | [] => 0
  | _ =>
      let mean := div (sum values) (ofNat (List.length values)) in
      let squaredDiffs :=
        map (fun val => mul (sub val mean) (sub val mean)) values in
      div (sum squaredDiffs) (ofNat (List.length values))
  end.

Record Twitter : Type := mkTwitter {
  tw_mentions : num;
  tw_sentiment : num;
  tw_volume : num;
  influencerSentiment : num
}.

Record Reddit : Type := mkReddit {
  posts : num;
  upvoteRatio : num;
  comments : num;
  rd_sentiment : num
}.

Record Telegram : Type := mkTelegram {
  messages : num;
  tg_sentiment : num;
  memberCount : num
}.

Record SocialData : Type := mkSocialData {
  twitter : Twitter;
  reddit : Reddit;
  telegram : Telegram
}.

(** The [score] and [confidence] of the objects the analyses return; the
    [breakdown] and [metadata] they carry along repeat inputs and
    intermediate values. *)
Definition getDefaultSentiment : DecisionEngine.SentimentScore :=
  DecisionEngine.mkSentimentScore 0 0.1.

Definition analyzeSentimentData (socialData : SocialData)
  : DecisionEngine.SentimentScore :=
  let twitter := twitter socialData in
  let reddit := reddit socialData in
  let telegram := telegram socialData in
  let weightedSentiment :=
    add (add (mul (tw_sentiment twitter) 0.4) (mul (rd_sentiment reddit) 0.35))
        (mul (tg_sentiment telegram) 0.25) in
  let totalVolume :=
    add (add (tw_mentions twitter) (posts reddit)) (messages telegram) in
  let volumeScore := min (div totalVolume 1000) 1 in
  let influencerBoost := mul (influencerSentiment twitter) 0.1 in
  let sentimentVariance :=
    calculateVariance [tw_sentiment twitter; rd_sentiment reddit;
                       tg_sentiment telegram] in
  let consistency := max 0 (sub 1 sentimentVariance) in
  let confidence := add (mul (mul volumeScore consistency) 0.8) 0.2 in
  DecisionEngine.mkSentimentScore
    (max (neg 1) (min 1 (add weightedSentiment influencerBoost)))
    (max 0.1 (min 0.95 confidence)).

Record MarketData : Type := mkMarketData {
  fearGreedIndex : num;
  vix : num;
  fundingRate : num;
  putCallRatio : num;
  marginRates : num;
  institutionalFlow : num
}.

Definition analyzeMarketIndicators (marketData : MarketData)
  : DecisionEngine.SentimentScore :=
  let fgSentiment := div (sub (fearGreedIndex marketData) 50) 50 in
  let vixSentiment := div (neg (sub (vix marketData) 20)) 20 in
  let fundingSentiment :=
    max (neg 1) (min 1 (mul (fundingRate marketData) 100)) in
  let pcSentiment := div (neg (sub (putCallRatio marketData) 1)) 1 in
  let instSentiment := institutionalFlow marketData in
  let weightedSentiment :=
    add (add (add (add (mul fgSentiment 0.3) (mul vixSentiment 0.2))
                  (mul fundingSentiment 0.2))
             (mul pcSentiment 0.15))
        (mul instSentiment 0.15) in
  let indicators :=
    [fgSentiment; vixSentiment; fundingSentiment; pcSentiment; instSentiment] in
  let variance := calculateVariance indicators in
  let confidence := max 0.3 (sub 1 variance) in
  DecisionEngine.mkSentimentScore
    (max (neg 1) (min 1 weightedSentiment))
    (max 0.1 (min 0.9 confidence)).

(** *** Interpretation *)

Record Interpretation : Type := mkInterpretation {
  i_signal : string;
  i_strength : string;
  i_score : option num;
  i_confidence : option num;
  description : string
}.

Definition descriptions : list (string * string) :=
  [ ("BULLISH_STRONG", "Very positive market sentiment detected");
    ("BULLISH_MODERATE", "Moderately positive market sentiment");
    ("BULLISH_WEAK", "Slightly positive market sentiment");
    ("BEARISH_STRONG", "Very negative market sentiment detected");
    ("BEARISH_MODERATE", "Moderately negative market sentiment");
    ("BEARISH_WEAK", "Slightly negative market sentiment");
    ("NEUTRAL_STRONG", "Strong neutral sentiment");
    ("NEUTRAL_MODERATE", "Moderate neutral sentiment");
    ("NEUTRAL_WEAK", "Weak neutral sentiment");
    ("UNCERTAIN", "Sentiment unclear due to insufficient data") ].

Fixpoint lookup (table : list (string * string)) (key : string)
  : option string :=
  match table with
  | [] => None
  | (k, v) :: rest => if k =? key then Some v else lookup rest key
  end.

(** [s.toLowerCase()] on the ASCII letters. *)
Definition lowerAscii (c : ascii) : ascii :=
  let n := nat_of_ascii c in
  if (65 <=? n)%nat && (n <=? 90)%nat then ascii_of_nat (n + 32) else c.

Fixpoint toLowerCase (s : string) : string :=
  match s with
  | EmptyString => EmptyString
  | String c rest => String (lowerAscii c) (toLowerCase rest)
  end.

Definition getSentimentDescription (signal strength : string) : string :=
  let key :=
    if signal =? "UNCERTAIN" then "UNCERTAIN" else signal ++ "_" ++ strength in
  match lookup descriptions key with
  | Some d => d
  | None => signal ++ " sentiment with " ++ toLowerCase strength ++ " conviction"
  end.

Definition interpretSentiment (sentimentScore confidence : num)
  : Interpretation :=
  if ltb confidence 0.3
  then mkInterpretation "UNCERTAIN" "WEAK" None None
         "Insufficient data for reliable sentiment analysis"
  else
    let absScore := abs sentimentScore in
    let strength :=
      if gtb absScore 0.7 then "STRONG"
      else if gtb absScore 0.4 then "MODERATE"
      else "WEAK" in
    let signal :=
      if gtb sentimentScore 0.2 then "BULLISH"
      else if ltb sentimentScore (neg 0.2) then "BEARISH"
      else "NEUTRAL" in
    mkInterpretation signal strength (Some sentimentScore) (Some confidence)
                     (getSentimentDescription signal strength).

Record CombinedSentiment : Type := mkCombinedSentiment {
  cs_score : num;
  cs_confidence : num;
  interpretation : Interpretation
}.

Definition combineSentiments (social news market : DecisionEngine.SentimentScore)
  : CombinedSentiment :=
  let weightedScore :=
    add (add (mul (mul (DecisionEngine.score social) 0.4)
                  (DecisionEngine.s_confidence social))
             (mul (mul (DecisionEngine.score news) 0.35)
                  (DecisionEngine.s_confidence news)))
        (mul (mul (DecisionEngine.score market) 0.25)
             (DecisionEngine.s_confidence market)) in
  let weightedConfidence :=
    add (add (mul (DecisionEngine.s_confidence social) 0.4)
             (mul (DecisionEngine.s_confidence news) 0.35))
        (mul (DecisionEngine.s_confidence market) 0.25) in
  mkCombinedSentiment weightedScore weightedConfidence
                      (interpretSentiment weightedScore weightedConfidence).

(** *** The result cache

    [this.cache] maps a key to the data stored and the time of storing, in
    milliseconds; [now] is [Date.now()]. *)
Section Cache.

Variable Data : Type.

Definition Cache : Type := list (string * (Data * Z)).

Definition cacheTimeout : Z := 5 * 60 * 1000.

Fixpoint cacheLookup (cache : Cache) (key : string) : option (Data * Z) :=
  match cache with
  | [] => None
  | (k, entry) :: rest => if k =? key then Some entry else cacheLookup rest key
  end.

Fixpoint cacheStore (cache : Cache) (key : string) (entry : Data * Z) : Cache :=
  match cache with
  | [] => [(key, entry)]
  | (k, e) :: rest =>
      if k =? key then (key, entry) :: rest
      else (k, e) :: cacheStore rest key entry
  end.

Definition getFromCache (cache : Cache) (now : Z) (key : string)
  : option Data :=
  match cacheLookup cache key with
  | Some (data, timestamp) =>
      if (now - timestamp <? cacheTimeout)%Z then Some data else None
  | None => None
  end.

Definition setCache (cache : Cache) (now : Z) (key : string) (data : Data)
  : Cache :=
  cacheStore cache key (data, now).

Definition clearCache (cache : Cache) : Cache := [].

(** [analyzeSocialMedia] and its two siblings: the cached result when it is
    fresh at time [now]; otherwise the analysis of the fetched data, which is
    stored at time [later], or the default sentiment, which is not stored,
    when fetching fails ([None]). *)
Definition analyzeCached (default : Data) (cache : Cache) (now later : Z)
           (cacheKey : string) (analysed : option Data) : Data * Cache :=
  match getFromCache cache now cacheKey with
  | Some cached => (cached, cache)
  | None =>
      match analysed with
      | Some sentiment => (sentiment, setCache cache later cacheKey sentiment)
      | None => (default, cache)
      end
  end.

End Cache.

Arguments cacheLookup {Data}.
Arguments cacheStore {Data}.
Arguments getFromCache {Data}.
Arguments setCache {Data}.
Arguments clearCache {Data}.
Arguments analyzeCached {Data}.

Definition analyzeSocialMedia (cache : Cache DecisionEngine.SentimentScore)
           (now later : Z) (symbol : string) (fetched : option SocialData)
  : DecisionEngine.SentimentScore * Cache DecisionEngine.SentimentScore :=
  analyzeCached getDefaultSentiment cache now later ("social_" ++ symbol)
                (option_map analyzeSentimentData fetched).

Definition analyzeMarketSentiment (cache : Cache DecisionEngine.SentimentScore)
           (now later : Z) (symbol : string) (fetched : option MarketData)
  : DecisionEngine.SentimentScore * Cache DecisionEngine.SentimentScore :=
  analyzeCached getDefaultSentiment cache now later ("market_" ++ symbol)
                (option_map analyzeMarketIndicators fetched).

End SentimentAnalysis.

(* ------------------------------------------------------------------ *)
(** ** The caller of the engine and of the risk evaluator *)

Module TradingService.

Local Open Scope string_scope.

(** The test of [performTradingAnalysis] before [executeTrade]:
    [riskCheck.approved && analysis.signal !== 'HOLD']. *)
Definition shouldExecute (analysis : DecisionEngine.Analysis)
           (riskCheck : RiskManager.RiskAssessment) : bool :=
  RiskManager.approved riskCheck
  && negb (DecisionEngine.a_signal analysis =? "HOLD").

(** One iteration of [performTradingAnalysis] on a symbol of the watchlist:
    whether the trade is executed. *)
Definition analyseAndDecide (env : RiskManager.Env)
           (signals : list (string * DecisionEngine.Signal))
           (fetched : option (DecisionEngine.SentimentScore
                              * DecisionEngine.SentimentScore
                              * DecisionEngine.SentimentScore))
           (predicted : option DecisionEngine.Prediction)
           (symbol : string) : bool :=
  let analysis := DecisionEngine.analyzeMarket signals fetched predicted in
  let riskCheck :=
    RiskManager.evaluateOpportunity env (RiskManager.tradeAnalysisOf analysis)
                                    symbol in
  shouldExecute analysis riskCheck.

End TradingService.

(* ------------------------------------------------------------------ *)
(** ** Further notions used by the statements *)

Module MoreNotions.

Import DecisionEngine.
Local Open Scope string_scope.

(** The confidences of the three fetched sentiments are in [[0, 1]]. *)
Definition unitConfidences
           (fetched : option (SentimentScore * SentimentScore * SentimentScore))
  : Prop :=
  match fetched with
  | Some (social, news, market) =>
      within 0 1 (s_confidence social)
      /\ within 0 1 (s_confidence news)
      /\ within 0 1 (s_confidence market)
  | None => True
  end.

Definition unitPrediction (predicted : option Prediction) : Prop :=
  match predicted with
  | Some p => within 0 1 (p_confidence p)
  | None => True
  end.

(** The label of a signal that may be absent. *)
Definition labelIs (s : option Signal) (label : string) : bool :=
  match s with
  | Some s => signal s =? label
  | None => false
  end.

(** [lo < a <= hi] for a finite [a]. *)
Definition withinLeftOpen (lo hi : Q) (a : num) : Prop :=
  match a with
  | Fin q => lo < q /\ q <= hi
  | _ => False
  end.

(** [x] is a finite number not above [q]. *)
Definition boundedBy (q : Q) (x : num) : Prop :=
  match x with
  | Fin y => y <= q
  | _ => False
  end.

(** Bars whose prices are finite numbers with [low <= close <= high]. *)
Fixpoint wellFormedBars (highs lows closes : list num) : Prop :=
  match highs, lows, closes with
  | [], [], [] => True
  | Fin h :: highs', Fin l :: lows', Fin c :: closes' =>
      l <= c /\ c <= h /\ wellFormedBars highs' lows' closes'
  | _, _, _ => False
  end.


(** Strictly increasing indices. *)
Fixpoint ascending (l : list nat) : Prop :=
  match l with
  | a :: (b :: _) as rest => (a < b)%nat /\ ascending rest
  | _ => True
  end.


(** Social data whose sentiments and counts are finite numbers. *)
Definition finiteSocial (d : SentimentAnalysis.SocialData) : Prop :=
  let tw := SentimentAnalysis.twitter d in
  let rd := SentimentAnalysis.reddit d in
  let tg := SentimentAnalysis.telegram d in
  Forall finite
         [SentimentAnalysis.tw_sentiment tw; SentimentAnalysis.rd_sentiment rd;
          SentimentAnalysis.tg_sentiment tg;
          SentimentAnalysis.influencerSentiment tw;
          SentimentAnalysis.tw_mentions tw; SentimentAnalysis.posts rd;
          SentimentAnalysis.messages tg].

(** The three counts of mentions, posts and messages are not negative. *)
Definition nonnegCounts (d : SentimentAnalysis.SocialData) : Prop :=
  Forall nonneg
         [SentimentAnalysis.tw_mentions (SentimentAnalysis.twitter d);
          SentimentAnalysis.posts (SentimentAnalysis.reddit d);
          SentimentAnalysis.messages (SentimentAnalysis.telegram d)].

(** Market data whose five indicators read by the analysis are finite. *)
Definition finiteMarket (d : SentimentAnalysis.MarketData) : Prop :=
  Forall finite
         [SentimentAnalysis.fearGreedIndex d; SentimentAnalysis.vix d;
          SentimentAnalysis.fundingRate d; SentimentAnalysis.putCallRatio d;
          SentimentAnalysis.institutionalFlow d].

(** What [validateConfig] accepts for a setting with upper bound [bound]: a
    number in [(0, bound]], or NaN. *)
Definition validSetting (bound : Q) (x : num) : Prop :=
  match x with
  | Fin q => 0 < q /\ q <= bound
  | NaN => True
  | _ => False
  end.


End MoreNotions.

(* ================================================================== *)
(** * Properties *)

(** ** Facts about the number model *)

Section NumberFacts.

Lemma Qltb_lt (x y : Q) : Qltb x y = true <-> x < y.
Proof.
  unfold Qltb. rewrite negb_true_iff.
  split; intro H.
  - apply Qnot_le_lt. intro Hle. apply Qle_bool_iff in Hle. congruence.
  - destruct (Qle_bool y x) eqn:E; [|reflexivity].
    apply Qle_bool_iff in E. exfalso. exact (Qlt_not_le _ _ H E).
Qed.

Lemma Qltb_ge (x y : Q) : Qltb x y = false <-> y <= x.
Proof.
  unfold Qltb. rewrite negb_false_iff. apply Qle_bool_iff.
Qed.

Lemma isZero_true (q : Q) : isZero q = true <-> q == 0.
Proof. unfold isZero. apply Qeq_bool_iff. Qed.

Lemma isZero_false (q : Q) : isZero q = false <-> ~ q == 0.
Proof.
  unfold isZero. split; intro H.
  - intro E. apply Qeq_bool_iff in E. congruence.
  - destruct (Qeq_bool q 0) eqn:E; [|reflexivity].
    apply Qeq_bool_iff in E. contradiction.
Qed.

Lemma infOfSign_pos (q : Q) : 0 < q -> infOfSign q = PInf.
Proof.
  intro H. unfold infOfSign.
  apply Qgt_alt in H. now rewrite H.
Qed.

Lemma infOfSign_zero (q : Q) : q == 0 -> infOfSign q = NaN.
Proof.
  intro H. unfold infOfSign.
  apply Qeq_alt in H. now rewrite H.
Qed.



Lemma nonneg_finite (a : num) : nonneg a -> finite a.
Proof. destruct a; simpl; tauto. Qed.

Lemma add_nonneg (a b : num) : nonneg a -> nonneg b -> nonneg (add a b).
Proof.
  destruct a, b; simpl; try tauto. intros; lra.
Qed.

Lemma fold_add_nonneg (l : list num) :
  forall acc, nonneg acc -> Forall nonneg l -> nonneg (fold_left add l acc).
Proof.
  induction l as [|x l IH]; intros acc Hacc Hl; simpl.
  - exact Hacc.
  - inversion Hl; subst. apply IH; [apply add_nonneg|]; assumption.
Qed.

Lemma sum_nonneg (l : list num) : Forall nonneg l -> nonneg (sum l).
Proof.
  intro H. unfold sum. apply fold_add_nonneg; [simpl; lra | exact H].
Qed.

Lemma Forall_firstn {A : Type} (P : A -> Prop) (n : nat) :
  forall l : list A, Forall P l -> Forall P (firstn n l).
Proof.
  induction n as [|n IH]; intros l H; simpl.
  - constructor.
  - destruct H; constructor; auto.
Qed.

Lemma Forall_skipn {A : Type} (P : A -> Prop) (n : nat) :
  forall l : list A, Forall P l -> Forall P (skipn n l).
Proof.
  induction n as [|n IH]; intros l H; simpl.
  - exact H.
  - destruct H; [constructor | auto].
Qed.

Lemma Forall_slice {A : Type} (P : A -> Prop) (l : list A) (b e : nat) :
  Forall P l -> Forall P (slice l b e).
Proof.
  intro H. unfold slice. now apply Forall_firstn, Forall_skipn.
Qed.

Lemma ofNat_pos (p : nat) : (1 <= p)%nat -> 0 < inject_Z (Z.of_nat p).
Proof.
  intro H. change 0 with (inject_Z 0). rewrite <- Zlt_Qlt. lia.
Qed.

Lemma ofNat_ge_1 (p : nat) : (1 <= p)%nat -> 1 <= inject_Z (Z.of_nat p).
Proof.
  intro H. change 1 with (inject_Z 1). rewrite <- Zle_Qle. lia.
Qed.

Lemma div_ofNat_nonneg (a : num) (p : nat) :
  (1 <= p)%nat -> nonneg a -> nonneg (div a (ofNat p)).
Proof.
  intros Hp Ha. destruct a as [q| | |]; simpl in *; try tauto.
  pose proof (ofNat_pos p Hp) as Hpos.
  destruct (isZero (inject_Z (Z.of_nat p))) eqn:E.
  - apply isZero_true in E. lra.
  - simpl. apply Qle_shift_div_l; [exact Hpos | lra].
Qed.

End NumberFacts.

(** ** Technical indicators *)

Module TechnicalAnalysisFacts.

Import TechnicalAnalysis.

Lemma length_changes (prices : list num) :
  List.length (changes prices) = (List.length prices - 1)%nat.
Proof.
  induction prices as [|p0 rest IH]; [reflexivity|].
  destruct rest as [|p1 rest']; [reflexivity|].
  change (changes (p0 :: p1 :: rest')) with (sub p1 p0 :: changes (p1 :: rest')).
  simpl List.length in *. lia.
Qed.

Lemma length_rsiLoop (period : nat) (rest : list (num * num)) :
  forall avgGain avgLoss,
    List.length (rsiLoop period avgGain avgLoss rest) = List.length rest.
Proof.
  induction rest as [|[g l] rest IH]; intros; simpl; [reflexivity|].
  now rewrite IH.
Qed.

Lemma rsiLoop_averages (period : nat) (rest : list (num * num)) :
  forall avgGain avgLoss,
    rsiLoop period avgGain avgLoss rest
    = map (fun a => rsiOf (fst a) (snd a))
          (averagesLoop period avgGain avgLoss rest).
Proof.
  induction rest as [|[g l] rest IH]; intros; simpl; [reflexivity|].
  now rewrite IH.
Qed.

Lemma calculateRSI_averages (prices : list num) (period : nat) :
  calculateRSI prices period
  = map (fun a => rsiOf (fst a) (snd a)) (rsiAverages prices period).
Proof.
  unfold calculateRSI, rsiAverages.
  destruct (List.length prices <? period + 1)%nat; [reflexivity|].
  simpl. now rewrite rsiLoop_averages.
Qed.

Lemma changes_finite (prices : list num) :
  Forall finite prices -> Forall finite (changes prices).
Proof.
  induction prices as [|p0 rest IH]; intro H; [constructor|].
  destruct rest as [|p1 rest']; [constructor|].
  change (changes (p0 :: p1 :: rest')) with (sub p1 p0 :: changes (p1 :: rest')).
  inversion H as [|? ? H0 Hrest]; subst.
  constructor; [|now apply IH].
  inversion Hrest as [|? ? H1 _]; subst.
  destruct p0, p1; simpl in *; tauto.
Qed.

Lemma gainOf_nonneg (c : num) : finite c -> nonneg (gainOf c).
Proof.
  destruct c as [q| | |]; simpl; try tauto. intros _.
  unfold gainOf, gtb. simpl.
  destruct (Qltb 0 q) eqn:E; simpl.
  - apply Qltb_lt in E. lra.
  - lra.
Qed.

Lemma lossOf_nonneg (c : num) : finite c -> nonneg (lossOf c).
Proof.
  destruct c as [q| | |]; simpl; try tauto. intros _.
  unfold lossOf. simpl.
  destruct (Qltb q 0); simpl.
  - apply Qabs_nonneg.
  - lra.
Qed.

Lemma smooth_nonneg (period : nat) (avg x : num) :
  (1 <= period)%nat -> nonneg avg -> nonneg x -> nonneg (smooth period avg x).
Proof.
  intros Hp Ha Hx. unfold smooth.
  apply div_ofNat_nonneg; [exact Hp|].
  apply add_nonneg; [|exact Hx].
  destruct avg as [a| | |]; simpl in *; try tauto.
  pose proof (ofNat_ge_1 period Hp). nra.
Qed.

Lemma averagesLoop_nonneg (period : nat) (rest : list (num * num)) :
  (1 <= period)%nat ->
  forall avgGain avgLoss,
    nonneg avgGain -> nonneg avgLoss -> Forall bothNonneg rest ->
    Forall bothNonneg (averagesLoop period avgGain avgLoss rest).
Proof.
  intro Hp.
  induction rest as [|[g l] rest IH]; intros avgGain avgLoss HG HL Hrest;
    simpl; [constructor|].
  inversion Hrest as [|? ? [Hg Hl] Hrest']; subst. simpl in Hg, Hl.
  assert (nonneg (smooth period avgGain g)) by now apply smooth_nonneg.
  assert (nonneg (smooth period avgLoss l)) by now apply smooth_nonneg.
  constructor; [split; assumption | now apply IH].
Qed.

Lemma Forall_combine_nonneg (gs ls : list num) :
  Forall nonneg gs -> Forall nonneg ls -> Forall bothNonneg (combine gs ls).
Proof.
  intro Hg. revert ls.
  induction Hg as [|g gs Hg0 Hgs IH]; intros ls Hl; simpl; [constructor|].
  destruct Hl as [|l ls Hl0 Hls]; constructor; [split; assumption | auto].
Qed.

Lemma rsiAverages_nonneg (prices : list num) (period : nat) :
  (1 <= period)%nat -> Forall finite prices ->
  Forall bothNonneg (rsiAverages prices period).
Proof.
  intros Hp Hfin. unfold rsiAverages.
  destruct (List.length prices <? period + 1)%nat; [constructor|].
  pose proof (changes_finite prices Hfin) as Hch.
  assert (Hgains : Forall nonneg (map gainOf (changes prices))).
  { apply Forall_map. eapply Forall_impl; [|exact Hch].
    intros c Hc. now apply gainOf_nonneg. }
  assert (Hlosses : Forall nonneg (map lossOf (changes prices))).
  { apply Forall_map. eapply Forall_impl; [|exact Hch].
    intros c Hc. now apply lossOf_nonneg. }
  assert (HG : nonneg (div (sum (slice (map gainOf (changes prices)) 0 period))
                           (ofNat period))).
  { apply div_ofNat_nonneg; [exact Hp|]. now apply sum_nonneg, Forall_slice. }
  assert (HL : nonneg (div (sum (slice (map lossOf (changes prices)) 0 period))
                           (ofNat period))).
  { apply div_ofNat_nonneg; [exact Hp|]. now apply sum_nonneg, Forall_slice. }
  cbv zeta. constructor; [split; assumption|].
  apply averagesLoop_nonneg; try assumption.
  apply Forall_combine_nonneg; now apply Forall_skipn.
Qed.

(** The three cases of [100 - 100 / (1 + avgGain / avgLoss)] on non-negative
    averages. *)
Lemma rsiOf_positive_loss (g l : Q) :
  0 <= g -> 0 < l -> within 0 100 (rsiOf g l).
Proof.
  intros Hg Hl. unfold rsiOf. simpl.
  assert (El : isZero l = false) by (apply isZero_false; lra).
  rewrite El. simpl.
  assert (Hr : 0 <= g / l) by (apply Qle_shift_div_l; lra).
  assert (Ed : isZero (1 + g / l) = false) by (apply isZero_false; lra).
  rewrite Ed. simpl.
  assert (H1 : 100 / (1 + g / l) <= 100) by (apply Qle_shift_div_r; lra).
  assert (H2 : 0 <= 100 / (1 + g / l)) by (apply Qle_shift_div_l; lra).
  lra.
Qed.

Lemma rsiOf_zero_loss (g l : Q) :
  0 < g -> l == 0 -> same (rsiOf g l) 100.
Proof.
  intros Hg Hl. unfold rsiOf. simpl.
  assert (El : isZero l = true) by now apply isZero_true.
  rewrite El, (infOfSign_pos g Hg). simpl. lra.
Qed.

Lemma rsiOf_flat (g l : Q) :
  g == 0 -> l == 0 -> rsiOf g l = NaN.
Proof.
  intros Hg Hl. unfold rsiOf. simpl.
  assert (El : isZero l = true) by now apply isZero_true.
  now rewrite El, (infOfSign_zero g Hg).
Qed.

End TechnicalAnalysisFacts.

(** ** Claims on the indicator library *)

Module IndicatorClaims.

Import TechnicalAnalysis TechnicalAnalysisFacts.

(** C8.  Indicator results are aligned to a suffix of the input.
    [calculateSMA] returns [len - period + 1] values when [len >= period] and
    the empty array otherwise; [calculateRSI], whose warm-up is [period + 1],
    returns [len - (period + 1) + 1] values when [len >= period + 1] and the
    empty array otherwise, in particular on any five prices with period 14.
    Both functions are total: no input makes them fail. *)
Theorem C8_indicator_alignment :
  forall (prices : list num) (period : nat),
    List.length (calculateSMA prices period)
    = (if List.length prices <? period then 0
       else List.length prices - period + 1)%nat
    /\ (if (List.length prices <? period)%nat
        then calculateSMA prices period = [] else True)
    /\ List.length (calculateRSI prices period)
       = (if List.length prices <? period + 1 then 0
          else List.length prices - (period + 1) + 1)%nat
    /\ (if (List.length prices <? period + 1)%nat
        then calculateRSI prices period = [] else True)
    /\ (forall p0 p1 p2 p3 p4 : num, calculateRSI [p0; p1; p2; p3; p4] 14 = []).
Proof.
  intros prices period.
  split; [|split; [|split; [|split]]].
  - unfold calculateSMA.
    destruct (List.length prices <? period)%nat eqn:E; [reflexivity|].
    apply Nat.ltb_ge in E.
    rewrite length_map, length_seq. lia.
  - unfold calculateSMA.
    destruct (List.length prices <? period)%nat; [reflexivity | exact I].
  - unfold calculateRSI.
    destruct (List.length prices <? period + 1)%nat eqn:E; [reflexivity|].
    apply Nat.ltb_ge in E. cbv zeta. simpl List.length.
    rewrite length_rsiLoop, length_combine, !length_skipn, !length_map,
      length_changes.
    lia.
  - unfold calculateRSI.
    destruct (List.length prices <? period + 1)%nat; [reflexivity | exact I].
  - intros. reflexivity.
Qed.

(** C6, as the code has it.  For a series of finite prices and a period of
    at least one, every value of [calculateRSI] comes from a pair of finite,
    non-negative averages [(avgGain, avgLoss)]; it lies in [[0, 100]] when
    the average loss is positive, it is [100] when the average loss is zero
    and the average gain is positive, and it is NaN when both averages are
    zero.  Hence every value is in [[0, 100]] or is NaN. *)
Theorem C6_rsi_range_or_nan :
  forall (prices : list num) (period : nat),
    (1 <= period)%nat ->
    Forall finite prices ->
    calculateRSI prices period
    = map (fun a => rsiOf (fst a) (snd a)) (rsiAverages prices period)
    /\ Forall rsiCase (rsiAverages prices period)
    /\ Forall (fun v => within 0 100 v \/ v = NaN) (calculateRSI prices period).
Proof.
  intros prices period Hp Hfin.
  pose proof (rsiAverages_nonneg prices period Hp Hfin) as Hnn.
  assert (Hcase : Forall rsiCase (rsiAverages prices period)).
  { eapply Forall_impl; [|exact Hnn].
    intros [g l] [Hg Hl]. simpl in Hg, Hl.
    destruct g as [g| | |], l as [l| | |]; simpl in Hg, Hl; try tauto.
    unfold rsiCase. repeat split; try assumption.
    - intro. now apply rsiOf_positive_loss.
    - intros. now apply rsiOf_zero_loss.
    - intros. now apply rsiOf_flat. }
  split; [apply calculateRSI_averages|].
  split; [exact Hcase|].
  rewrite calculateRSI_averages. apply Forall_map.
  eapply Forall_impl; [|exact Hcase].
  intros [g l] H. unfold rsiCase in H.
  destruct g as [g| | |], l as [l| | |]; try tauto.
  destruct H as (Hg & Hl & Hpos & Hzero & Hflat). simpl fst; simpl snd.
  destruct (Qlt_le_dec 0 l) as [Hl0|Hl0].
  - left. now apply Hpos.
  - assert (El : l == 0) by lra.
    destruct (Qlt_le_dec 0 g) as [Hg0|Hg0].
    + left. specialize (Hzero El Hg0).
      destruct (rsiOf g l) as [v| | |]; simpl in Hzero |- *; try tauto. lra.
    + right. apply Hflat; [exact El | lra].
Qed.

(** The statement of C6 applied to a rising series: four prices, period 2. *)
Lemma C6_rsi_range_or_nan_witness :
  Forall (fun v => within 0 100 v \/ v = NaN)
         (calculateRSI [Fin 1; Fin 2; Fin 3; Fin 2] 2).
Proof.
  apply (C6_rsi_range_or_nan [Fin 1; Fin 2; Fin 3; Fin 2] 2).
  - lia.
  - repeat constructor.
Defined.

(** C6 as stated fails: on a flat series both averages are zero and the
    single value returned is NaN, which is not in [[0, 100]]. *)
Lemma C6_flat_series_counterexample :
  Forall finite flatSeries
  /\ calculateRSI flatSeries 14 = [NaN]
  /\ ~ Forall (within 0 100) (calculateRSI flatSeries 14).
Proof.
  split; [repeat constructor|].
  assert (E : calculateRSI flatSeries 14 = [NaN]) by (vm_compute; reflexivity).
  split; [exact E|].
  rewrite E. intro H. inversion H as [|? ? Hnan _]. exact Hnan.
Qed.

End IndicatorClaims.

(** ** Claims on the technical aggregation *)

Module AggregationClaims.

Import DecisionEngine Notions.
Local Open Scope string_scope.

Lemma strengthsWhere_cons (p : string -> bool) (e : string * Signal)
      (rest : list (string * Signal)) :
  strengthsWhere p (e :: rest)
  = if p (signal (snd e))
    then strength (snd e) :: strengthsWhere p rest
    else strengthsWhere p rest.
Proof.
  unfold strengthsWhere. simpl.
  destruct (p (signal (snd e))); reflexivity.
Qed.

Lemma partition_fold (signals : list (string * Signal)) :
  forall acc : Buckets,
    fold_left pushSignal signals acc
    = mkBuckets (buySignals acc ++ strengthsWhere isBuyLabel signals)
                (sellSignals acc ++ strengthsWhere isSellLabel signals)
                (holdSignals acc ++ strengthsWhere isHoldLabel signals).
Proof.
  induction signals as [|e rest IH]; intros [bs ss hs]; simpl.
  - unfold strengthsWhere. simpl. now rewrite !app_nil_r.
  - rewrite IH, !strengthsWhere_cons.
    unfold pushSignal, isBuyLabel, isSellLabel, isHoldLabel.
    destruct (includes (signal (snd e)) "BUY");
      [|destruct (includes (signal (snd e)) "SELL")];
      simpl; rewrite <- ?app_assoc; reflexivity.
Qed.

Ltac in_labels := simpl; repeat (first [left; reflexivity | right]); fail.

Lemma firstPatternSignal_label (patterns : list string) :
  In (signal (firstPatternSignal patterns)) generatedLabels.
Proof.
  induction patterns as [|type rest IH]; cbn [firstPatternSignal].
  - in_labels.
  - destruct (arrayIncludes bullishPatterns type); [in_labels|].
    destruct (arrayIncludes bearishPatterns type); [in_labels|].
    exact IH.
Qed.

Ltac split_conditions :=
  repeat match goal with
         | |- context [if ?c then _ else _] => destruct c
         end;
  in_labels.

Lemma generated_labels (indicators : Indicators) :
  Forall (fun e => In (signal (snd e)) generatedLabels)
         (generateTechnicalSignals indicators).
Proof.
  unfold generateTechnicalSignals.
  repeat apply Forall_cons; try apply Forall_nil; cbn [snd].
  - unfold getMACrossoverSignal. split_conditions.
  - unfold getEMACrossoverSignal. split_conditions.
  - unfold getMACDSignal. split_conditions.
  - unfold getRSISignal. split_conditions.
  - unfold getBollingerSignal. split_conditions.
  - unfold getSupportResistanceSignal. split_conditions.
  - unfold getVolumeSignal. split_conditions.
  - unfold getPatternSignal.
    destruct (patterns indicators) as [|type rest]; [in_labels|].
    apply firstPatternSignal_label.
Qed.



(** C10.  Bucket membership is decided by label substring, BUY first: the
    BUY bucket holds the strengths of the signals whose label contains
    ["BUY"], the SELL bucket those whose label contains ["SELL"] (and not
    ["BUY"]), the HOLD bucket all others.  On the labels the signal
    generator can return, no label contains both substrings; BUY and
    WEAK_BUY go to BUY, SELL and WEAK_SELL to SELL, and HOLD, NEUTRAL, NONE,
    STRONG_SIGNAL, CONFIRMATION and WEAK_SIGNAL to HOLD, so a volume signal
    always lands in the HOLD bucket. *)
Theorem C10_bucket_by_label :
  forall signals : list (string * Signal),
    buySignals (partitionSignals signals) = strengthsWhere isBuyLabel signals
    /\ sellSignals (partitionSignals signals)
       = strengthsWhere isSellLabel signals
    /\ holdSignals (partitionSignals signals)
       = strengthsWhere isHoldLabel signals
    /\ (forall indicators : Indicators,
           Forall (fun e => In (signal (snd e)) generatedLabels)
                  (generateTechnicalSignals indicators))
    /\ Forall (fun l => isSellLabel l = includes l "SELL") generatedLabels
    /\ map isBuyLabel ["BUY"; "WEAK_BUY"] = [true; true]
    /\ map isSellLabel ["SELL"; "WEAK_SELL"] = [true; true]
    /\ map isHoldLabel ["HOLD"; "NEUTRAL"; "NONE"; "STRONG_SIGNAL";
                        "CONFIRMATION"; "WEAK_SIGNAL"]
       = [true; true; true; true; true; true]
    /\ (forall volumeAnalysis : VolumeAnalysis,
           isHoldLabel (signal (getVolumeSignal volumeAnalysis)) = true).
Proof.
  intro signals.
  unfold partitionSignals. rewrite partition_fold. simpl.
  split; [reflexivity|]. split; [reflexivity|]. split; [reflexivity|].
  split; [exact generated_labels|].
  split; [repeat constructor|].
  split; [reflexivity|]. split; [reflexivity|]. split; [reflexivity|].
  intro va. unfold getVolumeSignal.
  repeat match goal with
         | |- context [if ?c then _ else _] => destruct c
         end; reflexivity.
Qed.

End AggregationClaims.

(** ** Claims on the decision combiner *)

Module CombinerFacts.

Import DecisionEngine Notions.
Local Open Scope string_scope.

Lemma same_refl (a : num) : same a a.
Proof. destruct a; simpl; auto. reflexivity. Qed.

Lemma same_trans (a b c : num) : same a b -> same b c -> same a c.
Proof.
  destruct a, b, c; simpl; try tauto. intros H1 H2. now rewrite H1.
Qed.

Lemma add_same_l (a a' x : num) : same a a' -> same (add a x) (add a' x).
Proof.
  destruct a, a', x; simpl; try tauto. intro H. now rewrite H.
Qed.

Lemma add_zero_r (a a' : num) (z : Q) :
  z == 0 -> same a a' -> same a (add a' z).
Proof.
  destruct a, a'; simpl; try tauto. intros Hz H. rewrite H, Hz. ring.
Qed.

Lemma bucketScore_fold (label : string) (entries : list Entry) :
  forall a a' : num,
    same a a' ->
    same (fold_left (fun sum s => add sum (mul (toNumber (e_strength s))
                                               (e_weight s)))
                    (filter (hasSignal label) entries) a)
         (fold_left add (map (contributionOf label) entries) a').
Proof.
  induction entries as [|e rest IH]; intros a a' H; simpl; [exact H|].
  destruct (hasSignal label e) eqn:E; simpl; apply IH;
    unfold contributionOf; rewrite E.
  - now apply add_same_l.
  - apply add_zero_r; [reflexivity | exact H].
Qed.

(** A bucket score is the sum of [strength * weight] over the entries that
    carry the label. *)
Lemma bucketScore_contributions (label : string) (entries : list Entry) :
  same (bucketScore label entries) (sum (map (contributionOf label) entries)).
Proof.
  unfold bucketScore, sum. apply bucketScore_fold. apply same_refl.
Qed.

(** The weights of the three entries always add up to one, so that the
    neutral weight is zero. *)
Lemma neutralWeight_zero (technical : Overall) (sentiment : Sentiment)
      (ml : MLAnalysis) :
  exists z : Q,
    z == 0
    /\ mul (sub 1 (fold_left (fun sum s => add sum (e_weight s))
                             (entriesOf technical sentiment ml) 0)) 0.5
       = Fin z.
Proof.
  unfold entriesOf.
  destruct (so_signal (s_overall sentiment)), (ml_signal ml); simpl;
    eexists; (split; [|reflexivity]); reflexivity.
Qed.

Lemma finalScores_eq (technical : Overall) (sentiment : Sentiment)
      (ml : MLAnalysis) :
  let signals := entriesOf technical sentiment ml in
  finalScores (reasoning (combineSignals technical sentiment ml))
  = mkScores (bucketScore "BUY" signals) (bucketScore "SELL" signals)
             (add (bucketScore "HOLD" signals)
                  (mul (sub 1 (fold_left (fun sum s => add sum (e_weight s))
                                         signals 0)) 0.5)).
Proof.
  unfold combineSignals. fold (entriesOf technical sentiment ml). cbv zeta.
  repeat match goal with
         | |- context [if ?c then _ else _] => destruct c
         end; reflexivity.
Qed.

Lemma hold_is_bucketScore (technical : Overall) (sentiment : Sentiment)
      (ml : MLAnalysis) :
  same (hold (finalScores (reasoning (combineSignals technical sentiment ml))))
       (bucketScore "HOLD" (entriesOf technical sentiment ml)).
Proof.
  destruct (neutralWeight_zero technical sentiment ml) as (z & Hz & E).
  rewrite finalScores_eq. cbv zeta. cbn [hold]. rewrite E.
  destruct (bucketScore "HOLD" (entriesOf technical sentiment ml));
    simpl; auto; rewrite Hz; ring.
Qed.

(** The decision rule, on the three scores that [combineSignals] reports. *)
Lemma decision_rule (technical : Overall) (sentiment : Sentiment)
      (ml : MLAnalysis) :
  let d := combineSignals technical sentiment ml in
  let buyScore := buy (finalScores (reasoning d)) in
  let sellScore := sell (finalScores (reasoning d)) in
  let holdScore := hold (finalScores (reasoning d)) in
  (d_signal d, d_confidence d)
  = if gtb buyScore sellScore && gtb buyScore holdScore && gtb buyScore 0.6
    then ("BUY", min buyScore 0.95)
    else if gtb sellScore buyScore && gtb sellScore holdScore
            && gtb sellScore 0.6
    then ("SELL", min sellScore 0.95)
    else ("HOLD", max holdScore 0.3).
Proof.
  cbv zeta. rewrite finalScores_eq. cbv zeta. cbn [buy sell hold].
  unfold combineSignals. fold (entriesOf technical sentiment ml). cbv zeta.
  repeat match goal with
         | |- context [if ?c then _ else _] => destruct c
         end; reflexivity.
Qed.

End CombinerFacts.

Module CombinerClaims.

Import DecisionEngine Notions CombinerFacts.
Local Open Scope string_scope.

Lemma signal_of_rule (technical : Overall) (sentiment : Sentiment)
      (ml : MLAnalysis) :
  let d := combineSignals technical sentiment ml in
  let buyScore := buy (finalScores (reasoning d)) in
  let sellScore := sell (finalScores (reasoning d)) in
  let holdScore := hold (finalScores (reasoning d)) in
  d_signal d
  = if gtb buyScore sellScore && gtb buyScore holdScore && gtb buyScore 0.6
    then "BUY"
    else if gtb sellScore buyScore && gtb sellScore holdScore
            && gtb sellScore 0.6
    then "SELL"
    else "HOLD".
Proof.
  pose proof (decision_rule technical sentiment ml) as H. cbv zeta in H |- *.
  apply (f_equal fst) in H. cbn [fst] in H. rewrite H.
  repeat match goal with
         | |- context [if ?c then _ else _] => destruct c
         end; reflexivity.
Qed.





Lemma min_cap (x : num) :
  gtb x 0.6 = true ->
  exists c : Q, min x 0.95 = Fin c /\ 0.6 < c /\ c <= 0.95.
Proof.
  destruct x as [q| | |]; simpl; try discriminate.
  - unfold gtb, min. simpl. intro H. apply Qltb_lt in H.
    destruct (Qltb 0.95 q) eqn:E.
    + exists 0.95. repeat split; lra.
    + apply Qltb_ge in E. exists q. repeat split; assumption.
  - intros _. exists 0.95. repeat split; lra.
Qed.

Lemma max_floor (h : Q) :
  h <= 1 -> within 0.3 1 (max h 0.3).
Proof.
  intro H. unfold max. simpl.
  destruct (Qltb h 0.3) eqn:E; simpl.
  - lra.
  - apply Qltb_ge in E. lra.
Qed.

Lemma bucketScore_in_range (label : string) (technical : Overall)
      (sentiment : Sentiment) (ml : MLAnalysis) :
  strengthsInRange technical sentiment ml ->
  exists h : Q,
    bucketScore label (entriesOf technical sentiment ml) = Fin h
    /\ 0 <= h /\ h <= 1.
Proof.
  intros (Ht & Hs & Hm).
  unfold bucketScore, entriesOf, spreadOverall, spreadSignal, hasSignal.
  destruct (o_strength technical) as [[x| | |]|]; simpl in Ht; try tauto.
  destruct (so_signal (s_overall sentiment)) as [[ls [y| | |] ps]|],
           (ml_signal ml) as [[lm [z| | |] pm]|];
    simpl in Hs, Hm; try tauto;
    cbn [e_signal e_strength e_weight filter signal strength];
    repeat match goal with
           | |- context [if ?c then _ else _] => destruct c
           end;
    simpl; eexists; (split; [reflexivity|]); lra.
Qed.

(** C3, as the code has it.  On a HOLD decision the confidence is the
    adjusted HOLD score floored at [0.3]; on a BUY or SELL decision it is the
    winning score capped at [0.95], hence in [(0.6, 0.95]].  The HOLD branch
    has no cap: when every source that carries a signal carries a strength
    in [[0, 1]], the confidence lies in [[0.3, 1]]. *)
Theorem C3_confidence_by_branch :
  forall (technical : Overall) (sentiment : Sentiment) (ml : MLAnalysis),
    let d := combineSignals technical sentiment ml in
    let buyScore := buy (finalScores (reasoning d)) in
    let sellScore := sell (finalScores (reasoning d)) in
    let holdScore := hold (finalScores (reasoning d)) in
    (d_signal d = "HOLD" -> d_confidence d = max holdScore 0.3)
    /\ (d_signal d = "BUY" ->
        d_confidence d = min buyScore 0.95
        /\ exists c : Q, d_confidence d = Fin c /\ 0.6 < c /\ c <= 0.95)
    /\ (d_signal d = "SELL" ->
        d_confidence d = min sellScore 0.95
        /\ exists c : Q, d_confidence d = Fin c /\ 0.6 < c /\ c <= 0.95)
    /\ (strengthsInRange technical sentiment ml ->
        within 0.3 1 (d_confidence d)).
Proof.
  intros technical sentiment ml d buyScore sellScore holdScore.
  pose proof (decision_rule technical sentiment ml) as Hrule.
  cbv zeta in Hrule. fold d buyScore sellScore holdScore in Hrule.
  destruct (gtb buyScore sellScore && gtb buyScore holdScore
            && gtb buyScore 0.6) eqn:EB;
    [|destruct (gtb sellScore buyScore && gtb sellScore holdScore
                && gtb sellScore 0.6) eqn:ES];
    injection Hrule as Hsig Hconf; rewrite Hsig, Hconf.
  - apply andb_true_iff in EB as [_ EB].
    destruct (min_cap buyScore EB) as (c & Ec & Hlo & Hhi).
    repeat split; try discriminate;
      try (exists c; repeat split; assumption).
    intros _. rewrite Ec. simpl. lra.
  - apply andb_true_iff in ES as [_ ES].
    destruct (min_cap sellScore ES) as (c & Ec & Hlo & Hhi).
    repeat split; try discriminate;
      try (exists c; repeat split; assumption).
    intros _. rewrite Ec. simpl. lra.
  - repeat split; try discriminate.
    intro Hrange.
    destruct (bucketScore_in_range "HOLD" technical sentiment ml Hrange)
      as (h & Eh & Hh0 & Hh1).
    destruct (neutralWeight_zero technical sentiment ml) as (z & Hz & Ez).
    subst holdScore d. rewrite finalScores_eq. cbv zeta. cbn [hold].
    rewrite Eh, Ez. cbn [add].
    apply max_floor. lra.
Qed.

(** C3 on scenario D: the HOLD confidence lies in [[0.3, 1]]. *)
Lemma C3_confidence_by_branch_witness :
  within 0.3 1
         (d_confidence (combineSignals scenarioD_technical
                                       (sentimentWith "HOLD" 0.2 0.6)
                                       (performMLAnalysis None))).
Proof.
  apply (C3_confidence_by_branch scenarioD_technical
           (sentimentWith "HOLD" 0.2 0.6) (performMLAnalysis None)).
  vm_compute. intuition discriminate.
Defined.

(** C3 as stated fails: three HOLD verdicts of strength 1 give a HOLD
    decision of confidence [1 * 0.5 + 1 * 0.3 + 1 * 0.2 = 1], above 0.95. *)
Lemma C3_hold_uncapped_counterexample :
  let d := combineSignals holdTechnical (sentimentWith "HOLD" 1 1) holdML in
  strengthsInRange holdTechnical (sentimentWith "HOLD" 1 1) holdML
  /\ d_signal d = "HOLD"
  /\ same (d_confidence d) 1
  /\ ~ within 0.1 0.95 (d_confidence d).
Proof.
  vm_compute. intuition discriminate.
Qed.

(** C4 on the code.  A source that fails does not abort the combination and
    adds nothing to the BUY and SELL scores, but its weight is not moved to
    HOLD either: the three weights always add up to one, so the HOLD score
    reported is the plain sum of the HOLD contributions, for every input.
    With technical BUY of strength 0.8, a HOLD sentiment of strength 0.2 and
    a failed prediction, the HOLD score is [0.2 * 0.3 = 0.06], not
    [0.06 + 0.2 * 0.5 = 0.16]; with a failed sentiment and a failed
    prediction it is [0], not [0.3 * 0.5 + 0.2 * 0.5 = 0.25]. *)
Theorem C4_unused_weight_not_added :
  (forall (technical : Overall) (sentiment : Sentiment) (ml : MLAnalysis),
      same (hold (finalScores
                    (reasoning (combineSignals technical sentiment ml))))
           (sum (map (contributionOf "HOLD")
                     (entriesOf technical sentiment ml))))
  /\ (let d := combineSignals scenarioD_technical
                              (sentimentWith "HOLD" 0.2 0.6)
                              (performMLAnalysis None) in
      same (buy (finalScores (reasoning d))) 0.4
      /\ same (sell (finalScores (reasoning d))) 0
      /\ same (hold (finalScores (reasoning d))) 0.06
      /\ ~ same (hold (finalScores (reasoning d))) 0.16)
  /\ (let d := combineSignals scenarioD_technical
                              (performSentimentAnalysis None)
                              (performMLAnalysis None) in
      same (hold (finalScores (reasoning d))) 0
      /\ ~ same (hold (finalScores (reasoning d))) 0.25).
Proof.
  split.
  - intros technical sentiment ml.
    eapply same_trans; [apply hold_is_bucketScore|].
    apply bucketScore_contributions.
  - vm_compute. intuition discriminate.
Qed.

(** *** The combiner behind [evaluateTechnicalSignals]

    The object built by [evaluateTechnicalSignals] has no [strength], so the
    score of the bucket named by the technical verdict is NaN. *)

Lemma fold_from_nan (entries : list Entry) :
  fold_left (fun sum s => add sum (mul (toNumber (e_strength s)) (e_weight s)))
            entries NaN
  = NaN.
Proof.
  induction entries as [|e rest IH]; simpl; [reflexivity | exact IH].
Qed.

Lemma missing_strength_gives_nan (technical : Overall) (sentiment : Sentiment)
      (ml : MLAnalysis) :
  o_strength technical = None ->
  bucketScore (o_signal technical) (entriesOf technical sentiment ml) = NaN.
Proof.
  intro Hnone.
  unfold bucketScore, entriesOf, spreadOverall.
  cbn [filter hasSignal e_signal]. rewrite String.eqb_refl, Hnone.
  cbn [fold_left e_strength toNumber mul add].
  apply fold_from_nan.
Qed.

Lemma verdict_label (signals : list (string * Signal)) :
  tv_signal (evaluateTechnicalSignals signals) = "BUY"
  \/ tv_signal (evaluateTechnicalSignals signals) = "SELL"
  \/ tv_signal (evaluateTechnicalSignals signals) = "HOLD".
Proof.
  unfold evaluateTechnicalSignals. cbv zeta.
  repeat match goal with
         | |- context [if ?c then _ else _] => destruct c
         end; auto.
Qed.

Lemma gtb_nan_r (x : num) : gtb x NaN = false.
Proof. destruct x; reflexivity. Qed.

Lemma gtb_nan_l (x : num) : gtb NaN x = false.
Proof. destruct x; reflexivity. Qed.

(** Whatever the three analyses are, the decision of [analyzeMarket] is
    HOLD: one of the three scores is NaN and no comparison with NaN holds. *)
Lemma engine_decides_hold (signals : list (string * Signal))
      (fetched : option (SentimentScore * SentimentScore * SentimentScore))
      (predicted : option Prediction) :
  a_signal (analyzeMarket signals fetched predicted) = "HOLD".
Proof.
  unfold analyzeMarket. cbv zeta. cbn [a_signal].
  rewrite signal_of_rule. cbv zeta. rewrite finalScores_eq. cbv zeta.
  cbn [buy sell hold].
  pose proof (missing_strength_gives_nan
                (overallOf (evaluateTechnicalSignals signals))
                (performSentimentAnalysis fetched)
                (performMLAnalysis predicted) eq_refl) as Hnan.
  cbn [overallOf o_signal] in Hnan.
  destruct (verdict_label signals) as [E|[E|E]]; rewrite E in Hnan;
    rewrite Hnan; cbn [add];
    rewrite ?gtb_nan_r, ?gtb_nan_l, ?andb_false_r; reflexivity.
Qed.

(** When the technical verdict is HOLD the confidence of the decision is
    NaN. *)
Lemma hold_verdict_gives_nan_confidence (signals : list (string * Signal))
      (fetched : option (SentimentScore * SentimentScore * SentimentScore))
      (predicted : option Prediction) :
  tv_signal (evaluateTechnicalSignals signals) = "HOLD" ->
  a_confidence (analyzeMarket signals fetched predicted) = NaN.
Proof.
  intro Hhold. unfold analyzeMarket. cbv zeta. cbn [a_confidence].
  pose proof (decision_rule (overallOf (evaluateTechnicalSignals signals))
                            (performSentimentAnalysis fetched)
                            (performMLAnalysis predicted)) as Hrule.
  cbv zeta in Hrule. rewrite finalScores_eq in Hrule. cbv zeta in Hrule.
  cbn [buy sell hold] in Hrule.
  pose proof (missing_strength_gives_nan
                (overallOf (evaluateTechnicalSignals signals))
                (performSentimentAnalysis fetched)
                (performMLAnalysis predicted) eq_refl) as Hnan.
  cbn [overallOf o_signal] in Hnan. rewrite Hhold in Hnan.
  rewrite Hnan in Hrule. cbn [add] in Hrule.
  rewrite !gtb_nan_r, !andb_false_r in Hrule. cbn [andb] in Hrule.
  now injection Hrule as _ Hc.
Qed.

End CombinerClaims.

(** ** Claims on the risk evaluator *)

Module RiskFacts.

Import RiskManager RiskNotions.
Local Open Scope string_scope.




End RiskFacts.

Module RiskClaims.

Import RiskManager RiskNotions RiskFacts.
Local Open Scope string_scope.

(** The level that [assessMarketConditions] computes from given conditions,
    step by step. *)
Lemma level_of_conditions (env : Env) (c : Conditions) :
  getMarketConditions env = Some c ->
  level (assessMarketConditions env)
  = let l := if gtb (volatility c) 0.4 then HIGH
             else if gtb (volatility c) 0.25 then MEDIUM else LOW in
    let l := if hasMajorEvents c
             then (if levelEqb l HIGH then EXTREME else HIGH) else l in
    let l := if inMarketHours c
             then l else (if levelEqb l LOW then MEDIUM else l) in
    if ltb (liquidityScore c) 0.5
    then (if levelEqb l HIGH then EXTREME else HIGH) else l.
Proof.
  intro H. unfold assessMarketConditions, hasMajorEvents, inMarketHours.
  rewrite H.
  destruct (gtb (volatility c) 0.4), (gtb (volatility c) 0.25),
    (majorEvents c) as [[|ev evs]|], (isMarketHours c),
    (ltb (liquidityScore c) 0.5); reflexivity.
Qed.

(** A greater volatility is above the lower threshold as well. *)
Lemma gtb_thresholds (v : num) : gtb v 0.4 = true -> gtb v 0.25 = true.
Proof.
  destruct v as [q| | |]; simpl; try discriminate; try reflexivity.
  unfold gtb. simpl. intro H. apply Qltb_lt in H. apply Qltb_lt. lra.
Qed.

(** C5, as the code has it.  The level starts at LOW and stays there when
    nothing is flagged; volatility above 0.25 yields at least MEDIUM and
    above 0.4 at least HIGH; a scheduled major event yields at least HIGH;
    low liquidity (score below 0.5) sets the level to HIGH when it was LOW or
    MEDIUM before the liquidity check, and to EXTREME when it was HIGH.  The
    level before the liquidity check is the one assessed on the same
    conditions with a liquidity score that is not low. *)
Theorem C5_market_levels :
  forall (env : Env) (c : Conditions),
    getMarketConditions env = Some c ->
    let l := level (assessMarketConditions env) in
    (gtb (volatility c) 0.25 = false -> hasMajorEvents c = false ->
     inMarketHours c = true -> ltb (liquidityScore c) 0.5 = false ->
     l = LOW)
    /\ (gtb (volatility c) 0.25 = true -> (1 <= rank l)%nat)
    /\ (gtb (volatility c) 0.4 = true -> (2 <= rank l)%nat)
    /\ (hasMajorEvents c = true -> (2 <= rank l)%nat)
    /\ (ltb (liquidityScore c) 0.5 = true ->
        forall score : num,
          ltb score 0.5 = false ->
          let before :=
            level (assessMarketConditions
                     (withConditions env (Some (setLiquidity c score)))) in
          (2 <= rank l)%nat
          /\ (before = LOW \/ before = MEDIUM -> l = HIGH)
          /\ (before = HIGH -> l = EXTREME)).
Proof.
  intros env c Hc l. subst l.
  rewrite (level_of_conditions env c Hc). cbv zeta.
  split; [|split; [|split; [|split]]].
  - intros H1 H2 H3 H4.
    destruct (gtb (volatility c) 0.4) eqn:E;
      [apply gtb_thresholds in E; congruence|].
    now rewrite H1, H2, H3, H4.
  - intro H. rewrite H.
    destruct (gtb (volatility c) 0.4), (hasMajorEvents c), (inMarketHours c),
      (ltb (liquidityScore c) 0.5); simpl; lia.
  - intro H. rewrite H.
    destruct (hasMajorEvents c), (inMarketHours c),
      (ltb (liquidityScore c) 0.5); simpl; lia.
  - intro H. rewrite H.
    destruct (gtb (volatility c) 0.4), (gtb (volatility c) 0.25),
      (inMarketHours c), (ltb (liquidityScore c) 0.5); simpl; lia.
  - intros Hlow score Hscore.
    rewrite (level_of_conditions (withConditions env (Some (setLiquidity c score)))
                                 (setLiquidity c score) eq_refl).
    cbv zeta.
    change (volatility (setLiquidity c score)) with (volatility c).
    change (hasMajorEvents (setLiquidity c score)) with (hasMajorEvents c).
    change (inMarketHours (setLiquidity c score)) with (inMarketHours c).
    change (liquidityScore (setLiquidity c score)) with score.
    rewrite Hlow, Hscore.
    destruct (gtb (volatility c) 0.4), (gtb (volatility c) 0.25),
      (hasMajorEvents c), (inMarketHours c); simpl;
      (split; [lia|]); split; intro H;
        try reflexivity; try discriminate H;
        destruct H as [H|H]; discriminate H.
Qed.

(** C5 on the illiquid conditions: the level is HIGH. *)
Lemma C5_market_levels_witness :
  level (assessMarketConditions
           (withConditions (defaultEnv []) (Some illiquidConditions)))
  = HIGH.
Proof.
  pose proof (C5_market_levels
                (withConditions (defaultEnv []) (Some illiquidConditions))
                illiquidConditions eq_refl) as H.
  cbv zeta in H. destruct H as (_ & _ & _ & _ & H).
  destruct (H eq_refl (Fin 0.8) eq_refl) as (_ & Hhigh & _).
  apply Hhigh. left. reflexivity.
Defined.

(** C5 as stated fails: from LOW, low liquidity alone leads to HIGH, two
    steps up and not one. *)
Lemma C5_two_steps_counterexample :
  let before :=
    level (assessMarketConditions
             (withConditions (defaultEnv []) (Some calmConditions))) in
  let after :=
    level (assessMarketConditions
             (withConditions (defaultEnv []) (Some illiquidConditions))) in
  ltb (liquidityScore illiquidConditions) 0.5 = true
  /\ before = LOW /\ after = HIGH
  /\ rank after <> (rank before + 1)%nat.
Proof.
  vm_compute. repeat split. discriminate.
Qed.



(** With a NaN confidence the position size computed is NaN as well (or 0,
    when the risk settings are missing). *)
Lemma nan_confidence_gives_nan_size (env : Env) (analysis : TradeAnalysis)
      (symbol : string) :
  ta_confidence analysis = NaN ->
  calculatePositionSize env analysis symbol = NaN
  \/ calculatePositionSize env analysis symbol = Fin 0.
Proof.
  intro Hc. unfold calculatePositionSize.
  destruct (riskSettings (tradingConfig env)) as [rs|]; [|right; reflexivity].
  left. rewrite Hc. cbv zeta.
  assert (Em : forall x : num, mul x NaN = NaN) by (intros [| | |]; reflexivity).
  assert (Em' : forall x : num, mul NaN x = NaN) by (intros [| | |]; reflexivity).
  assert (En : forall x : num, min NaN x = NaN) by reflexivity.
  cbn [mul add]. rewrite Em, !Em'.
  destruct (useKellyCriterion rs); rewrite ?En, Em'; reflexivity.
Qed.

(** C2 on the code.  Whenever the technical verdict is HOLD, the analysis
    that the decision engine hands over has a NaN confidence; and an
    assessment that [evaluateOpportunity] approves for a NaN confidence has a
    NaN size.  Under the default settings with one platform, which pass
    [validateConfig], and with an empty portfolio, the analysis produced on
    neutral indicators is such a HOLD, and the risk evaluator approves it
    with a recommended size of NaN, which is neither positive nor within
    [[0, maxPositionSize]]. *)
Theorem C2_nan_size_is_approved :
  (forall signals fetched predicted,
      DecisionEngine.tv_signal (DecisionEngine.evaluateTechnicalSignals signals)
      = "HOLD" ->
      ta_confidence
        (tradeAnalysisOf (DecisionEngine.analyzeMarket signals fetched predicted))
      = NaN)
  /\ (forall env analysis symbol,
         ta_confidence analysis = NaN ->
         approved (evaluateOpportunity env analysis symbol) = true ->
         recommendedSize (evaluateOpportunity env analysis symbol) = NaN)
  /\ validateConfig defaultConfig = []
  /\ DecisionEngine.tv_signal (DecisionEngine.a_technical quietAnalysis) = "HOLD"
  /\ (let r := evaluateOpportunity (defaultEnv [])
                                   (tradeAnalysisOf quietAnalysis) "BTCUSDT" in
      approved r = true
      /\ approvedPlatforms r = ["binance"]
      /\ recommendedSize r = NaN
      /\ gtb (recommendedSize r) 0 = false
      /\ ~ sizeWithin (maxPositionSize defaultRiskSettings) (recommendedSize r)).
Proof.
  split; [|split].
  - intros signals fetched predicted Hhold.
    apply (CombinerClaims.hold_verdict_gives_nan_confidence
             signals fetched predicted Hhold).
  - intros env analysis symbol Hc.
    unfold evaluateOpportunity. cbv zeta.
    destruct (negb (isSymbolAllowed env symbol)); [discriminate|].
    destruct (levelEqb (level (assessMarketConditions env)) EXTREME);
      [discriminate|].
    destruct (negb (allowed (checkPortfolioExposure env symbol)));
      [discriminate|].
    destruct (ltb (sq_score (assessSignalQuality analysis)) 0.6);
      [discriminate|].
    destruct (nan_confidence_gives_nan_size env analysis symbol Hc) as [E|E];
      rewrite E; [|discriminate].
    cbn [leb].
    destruct (levelEqb (cr_level (checkCorrelationRisk env symbol)) HIGH);
      [discriminate|].
    destruct (assessPlatformRisk env symbol); [discriminate|].
    reflexivity.
  - vm_compute. intuition discriminate.
Qed.

(** C2's general part on the neutral analysis. *)
Lemma C2_nan_size_is_approved_witness :
  ta_confidence (tradeAnalysisOf quietAnalysis) = NaN.
Proof.
  apply (proj1 C2_nan_size_is_approved). vm_compute. reflexivity.
Defined.

(** The size invariant does hold when the inputs are finite numbers in
    their ranges; the departure above comes from NaN alone. *)
Lemma min_left_bound (b : Q) (x : num) :
  x <> NaN ->
  match min b x with
  | Fin p => p <= b
  | NInf => True
  | _ => False
  end.
Proof.
  intro Hx. destruct x as [y| | |]; try congruence; unfold min; simpl.
  - destruct (Qltb y b) eqn:E.
    + apply Qltb_lt in E. lra.
    + lra.
  - lra.
  - exact I.
Qed.

Lemma portfolio_value_positive (env : Env) (P : Q) :
  getTotalPortfolioValue env = Fin P -> 1000 <= P.
Proof.
  unfold getTotalPortfolioValue, getTotalAccountValue.
  match goal with
  | |- max ?x _ = _ -> _ => destruct x as [t| | |]
  end; unfold max; simpl; try discriminate.
  - destruct (Qltb t 1000) eqn:E; intro H; injection H as <-.
    + lra.
    + now apply Qltb_ge in E.
  - intro H. injection H as <-. lra.
Qed.

Lemma trade_cap_not_nan (cap : num) (P : Q) :
  1000 <= P -> div (orElse cap (mul P 0.1)) P <> NaN.
Proof.
  intro HP.
  assert (EP : isZero P = false) by (apply isZero_false; lra).
  assert (EP' : Qltb P 0 = false) by (apply Qltb_ge; lra).
  unfold orElse.
  destruct cap as [x| | |]; simpl.
  - destruct (negb (isZero x)); simpl; rewrite EP; discriminate.
  - rewrite EP'. discriminate.
  - rewrite EP'. discriminate.
  - rewrite EP. discriminate.
Qed.

Section FiniteInputs.

Variables (env : Env) (analysis : TradeAnalysis) (symbol : string).
Variables (rs : RiskSettings) (m c v P : Q).

Hypothesis settings : riskSettings (tradingConfig env) = Some rs.
Hypothesis cap : maxPositionSize rs = Fin m.
Hypothesis cap_nonneg : 0 <= m.
Hypothesis confidence : ta_confidence analysis = Fin c.
Hypothesis confidence_range : 0 <= c /\ c <= 1.
Hypothesis asset_volatility : getAssetVolatility env symbol = Fin v.
Hypothesis volatility_nonneg : 0 <= v.
Hypothesis portfolio_value : getTotalPortfolioValue env = Fin P.
Hypothesis kelly_finite :
  useKellyCriterion rs = true ->
  finite (calculateKellyPosition env analysis symbol).

Lemma volatility_adjustment_range :
  exists a : Q, max 0.3 (sub 1 v) = Fin a /\ 0.3 <= a /\ a <= 1.
Proof.
  unfold max. simpl. destruct (Qltb 0.3 (1 + - v)) eqn:E.
  - apply Qltb_lt in E. eexists. split; [reflexivity|]. lra.
  - eexists. split; [reflexivity|]. lra.
Qed.

Lemma market_adjustment_range :
  exists k : Q,
    (if levelEqb (level (assessMarketConditions env)) HIGH
     then Fin 0.5
     else if levelEqb (level (assessMarketConditions env)) MEDIUM
          then Fin 0.7 else Fin 1.0)
    = Fin k /\ 0 <= k /\ k <= 1.
Proof.
  destruct (levelEqb (level (assessMarketConditions env)) HIGH);
    [|destruct (levelEqb (level (assessMarketConditions env)) MEDIUM)];
    eexists; (split; [reflexivity|]); lra.
Qed.

(** The size computed is a finite number below the cap, or minus infinity
    when [maxTradeValue] is. *)
Lemma position_size_bounded :
  match calculatePositionSize env analysis symbol with
  | Fin p => p <= m
  | NInf => True
  | _ => False
  end.
Proof.
  destruct confidence_range as [Hc0 Hc1].
  pose proof (portfolio_value_positive env P portfolio_value) as HP0.
  unfold calculatePositionSize.
  rewrite settings, cap, confidence, asset_volatility, portfolio_value.
  cbv zeta.
  destruct volatility_adjustment_range as (a & Ea & Ha0 & Ha1). rewrite Ea.
  destruct market_adjustment_range as (k & Ek & Hk0 & Hk1). rewrite Ek.
  cbn [mul add].
  assert (Hb : 0 <= m * (c * 0.8 + 0.2) * a * k
               /\ m * (c * 0.8 + 0.2) * a * k <= m).
  { assert (H1 : 0 <= m * (c * 0.8 + 0.2) /\ m * (c * 0.8 + 0.2) <= m)
      by nra.
    assert (H2 : 0 <= m * (c * 0.8 + 0.2) * a
                 /\ m * (c * 0.8 + 0.2) * a <= m) by nra.
    nra. }
  set (b3 := m * (c * 0.8 + 0.2) * a * k) in *.
  assert (Hb4 : exists b4 : Q,
             (if useKellyCriterion rs
              then min b3 (calculateKellyPosition env analysis symbol)
              else Fin b3) = Fin b4 /\ b4 <= m).
  { destruct (useKellyCriterion rs).
    - pose proof (kelly_finite eq_refl) as Hk.
      destruct (calculateKellyPosition env analysis symbol) as [kk| | |];
        simpl in Hk; try tauto.
      unfold min. simpl. destruct (Qltb kk b3) eqn:E.
      + apply Qltb_lt in E. exists kk. split; [reflexivity|]. lra.
      + exists b3. split; [reflexivity|]. lra.
    - exists b3. split; [reflexivity|]. lra. }
  destruct Hb4 as (b4 & Eb4 & Hb4). rewrite Eb4.
  destruct (ltb (mul b4 P) (orElse (minTradeValue rs) 10)); [simpl; lra|].
  pose proof (min_left_bound b4 _
                (trade_cap_not_nan (maxTradeValue rs) P HP0)) as Hmin.
  cbn [mul] in Hmin.
  destruct (min b4 (div (orElse (maxTradeValue rs) (P * 0.1)) P));
    cbv iota beta in Hmin |- *; try tauto. lra.
Qed.

(** On such inputs every assessment returned has a size in
    [[0, maxPositionSize]], and an approved one has a positive size and at
    least one approved platform. *)
Lemma size_invariant_on_finite_inputs :
  let r := evaluateOpportunity env analysis symbol in
  sizeWithin (maxPositionSize rs) (recommendedSize r)
  /\ (approved r = true ->
      gtb (recommendedSize r) 0 = true /\ approvedPlatforms r <> []).
Proof.
  intro r. pose proof position_size_bounded as Hsize.
  assert (Hrej : forall reason platforms,
             sizeWithin (maxPositionSize rs)
                        (recommendedSize (rejected reason platforms))
             /\ (approved (rejected reason platforms) = true ->
                 gtb (recommendedSize (rejected reason platforms)) 0 = true
                 /\ approvedPlatforms (rejected reason platforms) <> [])).
  { intros reason platforms. rewrite cap. simpl.
    split; [lra | discriminate]. }
  subst r. unfold evaluateOpportunity.
  destruct (negb (isSymbolAllowed env symbol)); [apply Hrej|].
  cbv zeta.
  destruct (levelEqb (level (assessMarketConditions env)) EXTREME);
    [apply Hrej|].
  destruct (negb (allowed (checkPortfolioExposure env symbol)));
    [apply Hrej|].
  destruct (ltb (sq_score (assessSignalQuality analysis)) 0.6);
    [apply Hrej|].
  destruct (leb (calculatePositionSize env analysis symbol) 0) eqn:Epos;
    [apply Hrej|].
  destruct (levelEqb (cr_level (checkCorrelationRisk env symbol)) HIGH);
    [apply Hrej|].
  destruct (assessPlatformRisk env symbol) as [|name names]; [apply Hrej|].
  cbn [recommendedSize approved approvedPlatforms]. rewrite cap.
  destruct (calculatePositionSize env analysis symbol) as [p| | |];
    simpl in Hsize, Epos; try tauto; try discriminate.
  assert (Hp : 0 < p).
  { destruct (Qle_bool p 0) eqn:E; [discriminate|].
    apply Qnot_le_lt. intro Hle. apply Qle_bool_iff in Hle. congruence. }
  simpl. repeat split; try lra.
  - unfold gtb. simpl. now apply Qltb_lt.
  - discriminate.
Qed.

End FiniteInputs.

End RiskClaims.

(** ** The model on the documented scenarios *)

Module Scenarios.

Import DecisionEngine RiskManager RiskNotions.
Local Open Scope string_scope.

(** A fast average of 105 over a slow average of 100 is a BUY of strength
    0.7, since [105 > 100 * 1.01]. *)
Example crossover_buy : getMACrossoverSignal 105 100 = sig "BUY" 0.7.
Proof. reflexivity. Qed.

(** Inside the one-percent band the rule abstains. *)
Example crossover_hold : getMACrossoverSignal 100.5 100 = sig "HOLD" 0.3.
Proof. reflexivity. Qed.

(** Three positions of exposure 0.12 correlated at 0.8 with the candidate
    add up to 0.36 > 0.3: the correlation risk is HIGH and the trade is
    rejected. *)
Example correlated_positions_reject :
  let env := withPositions (defaultEnv []) threePositions (fun _ _ => Fin 0.8) in
  cr_level (checkCorrelationRisk env "BTCUSDT") = HIGH
  /\ same (totalCorrelatedExposure (checkCorrelationRisk env "BTCUSDT")) 0.36
  /\ reason (evaluateManualTrade env "BUY" "BTCUSDT")
     = "High correlation with existing positions".
Proof. vm_compute. repeat split. Qed.

(** High volatility with a major event is EXTREME; when liquidity is low
    on top of that, the liquidity rule writes HIGH over it. *)
Example liquidity_rule_on_extreme :
  level (assessMarketConditions
           (withConditions (defaultEnv []) (Some stressedConditions)))
  = EXTREME
  /\ level (assessMarketConditions
              (withConditions (defaultEnv []) (Some stressedIlliquid)))
     = HIGH.
Proof. vm_compute. split; reflexivity. Qed.

(** With the trade statistics of the source (win rate 0.55, average win
    0.03, average loss 0.02) the Kelly fraction 0.25 is capped at 0.05. *)
Example kelly_capped :
  same (calculateKellyPosition (defaultEnv [])
          (mkTradeAnalysis "BUY" 0.7 None None None) "BTCUSDT") 0.05.
Proof. vm_compute. reflexivity. Qed.

(** A manual trade under the default settings is approved with a size of
    [0.02 * (0.7 * 0.8 + 0.2) * 0.7 = 0.01064]. *)
Example manual_trade_size :
  let r := evaluateManualTrade (defaultEnv []) "BUY" "BTCUSDT" in
  approved r = true /\ same (recommendedSize r) 0.01064.
Proof. vm_compute. repeat split. Qed.

End Scenarios.

(* ================================================================== *)
(** * Further properties of the code *)


(** ** The decision engine *)

Module EngineProperties.

Import DecisionEngine Notions MoreNotions CombinerFacts.
Local Open Scope string_scope.

Lemma fold_add_finite (l : list num) :
  Forall nonneg l ->
  forall a : Q,
    0 <= a ->
    exists q : Q,
      fold_left add l (Fin a) = Fin q /\ a <= q /\ Forall (boundedBy q) l.
Proof.
  induction 1 as [|x l Hx Hl IH]; intros a Ha; simpl.
  - exists a. split; [reflexivity|]. split; [lra | constructor].
  - destruct x as [y| | |]; simpl in Hx; try tauto.
    destruct (IH (a + y)) as (q & Eq & Hq & Hall); [lra|].
    exists q. split; [exact Eq|]. split; [lra|].
    constructor; [simpl; lra | exact Hall].
Qed.

Lemma sum_finite (l : list num) :
  Forall nonneg l ->
  exists q : Q, sum l = Fin q /\ 0 <= q /\ Forall (boundedBy q) l.
Proof.
  intro H. destruct (fold_add_finite l H 0) as (q & Eq & Hq & Hall); [lra|].
  exists q. split; [exact Eq|]. split; assumption.
Qed.

Lemma strengthsWhere_nonneg (p : string -> bool)
      (signals : list (string * Signal)) :
  Forall (fun e => nonneg (strength (snd e))) signals ->
  Forall nonneg (strengthsWhere p signals).
Proof.
  induction 1 as [|e rest He Hrest IH].
  - constructor.
  - rewrite AggregationClaims.strengthsWhere_cons.
    destruct (p (signal (snd e))); [constructor|]; assumption.
Qed.

(** Every strength ends up in one of the three buckets. *)
Lemma strength_in_some_bucket (signals : list (string * Signal))
      (b s h : Q) :
  Forall (boundedBy b) (strengthsWhere isBuyLabel signals) ->
  Forall (boundedBy s) (strengthsWhere isSellLabel signals) ->
  Forall (boundedBy h) (strengthsWhere isHoldLabel signals) ->
  0 <= b -> 0 <= s -> 0 <= h ->
  Forall (fun e => boundedBy (b + s + h) (strength (snd e))) signals.
Proof.
  intros Hb Hs Hh Hb0 Hs0 Hh0.
  induction signals as [|e rest IH]; [constructor|].
  rewrite !AggregationClaims.strengthsWhere_cons in *.
  unfold isBuyLabel, isSellLabel, isHoldLabel in *.
  destruct (includes (signal (snd e)) "BUY");
    [|destruct (includes (signal (snd e)) "SELL")]; simpl in *.
  - inversion Hb; subst. constructor; [|now apply IH].
    destruct (strength (snd e)); simpl in *; try tauto. lra.
  - inversion Hs; subst. constructor; [|now apply IH].
    destruct (strength (snd e)); simpl in *; try tauto. lra.
  - inversion Hh; subst. constructor; [|now apply IH].
    destruct (strength (snd e)); simpl in *; try tauto. lra.
Qed.

(** The three bucket sums of non-negative strengths. *)
Lemma bucket_sums (signals : list (string * Signal)) :
  Forall (fun e => nonneg (strength (snd e))) signals ->
  exists b s h : Q,
    sum (buySignals (partitionSignals signals)) = Fin b
    /\ sum (sellSignals (partitionSignals signals)) = Fin s
    /\ sum (holdSignals (partitionSignals signals)) = Fin h
    /\ 0 <= b /\ 0 <= s /\ 0 <= h
    /\ Forall (fun e => boundedBy (b + s + h) (strength (snd e))) signals.
Proof.
  intro H.
  unfold partitionSignals. rewrite AggregationClaims.partition_fold.
  cbn [buySignals sellSignals holdSignals app].
  destruct (sum_finite _ (strengthsWhere_nonneg isBuyLabel signals H))
    as (b & Eb & Hb & Hball).
  destruct (sum_finite _ (strengthsWhere_nonneg isSellLabel signals H))
    as (s & Es & Hs & Hsall).
  destruct (sum_finite _ (strengthsWhere_nonneg isHoldLabel signals H))
    as (h & Eh & Hh & Hhall).
  exists b, s, h.
  split; [exact Eb|]. split; [exact Es|]. split; [exact Eh|].
  split; [exact Hb|]. split; [exact Hs|]. split; [exact Hh|].
  now apply strength_in_some_bucket.
Qed.




Lemma generated_strengths (indicators : Indicators) :
  Forall (fun e => nonneg (strength (snd e)))
         (generateTechnicalSignals indicators).
Proof.
  unfold generateTechnicalSignals.
  repeat apply Forall_cons; try apply Forall_nil; cbn [snd].
  - unfold getMACrossoverSignal.
    repeat match goal with
           | |- context [if ?c then _ else _] => destruct c
           end; simpl; lra.
  - unfold getEMACrossoverSignal.
    repeat match goal with
           | |- context [if ?c then _ else _] => destruct c
           end; simpl; lra.
  - unfold getMACDSignal.
    repeat match goal with
           | |- context [if ?c then _ else _] => destruct c
           end; simpl; lra.
  - unfold getRSISignal.
    repeat match goal with
           | |- context [if ?c then _ else _] => destruct c
           end; simpl; lra.
  - unfold getBollingerSignal.
    repeat match goal with
           | |- context [if ?c then _ else _] => destruct c
           end; simpl; lra.
  - unfold getSupportResistanceSignal.
    repeat match goal with
           | |- context [if ?c then _ else _] => destruct c
           end; simpl; lra.
  - unfold getVolumeSignal.
    repeat match goal with
           | |- context [if ?c then _ else _] => destruct c
           end; simpl; lra.
  - unfold getPatternSignal.
    destruct (patterns indicators) as [|type rest]; [simpl; lra|].
    generalize (type :: rest). intro l.
    induction l as [|t l IH]; cbn [firstPatternSignal]; [simpl; lra|].
    destruct (arrayIncludes bullishPatterns t); [simpl; lra|].
    destruct (arrayIncludes bearishPatterns t); [simpl; lra|].
    exact IH.
Qed.

(** On the signals that [generateTechnicalSignals] builds from any indicator
    readings, NaN included, every strength is one of the constants of the
    rules, the moving-average rule never returns a zero strength, and so
    the confidence of the verdict is always a number in [[0, 1]]. *)
Theorem generated_confidence_is_a_ratio :
  forall indicators : Indicators,
    within 0 1 (tv_confidence
                  (evaluateTechnicalSignals
                     (generateTechnicalSignals indicators))).
Proof.
  intro indicators.
  destruct (bucket_sums _ (generated_strengths indicators))
    as (b & s & h & Eb & Es & Eh & Hb & Hs & Hh & Hall).
  assert (Htotal : 0.3 <= b + s + h).
  { unfold generateTechnicalSignals in Hall.
    inversion Hall as [|e l Hma _]; subst. cbn [snd] in Hma.
    unfold getMACrossoverSignal in Hma. revert Hma.
    repeat match goal with
           | |- context [if ?c then _ else _] => destruct c
           end; simpl; lra. }
  assert (Hratio : forall w : Q,
             0 <= w -> w <= b + s + h -> within 0 1 (div w (b + s + h))).
  { intros w H0 H1. cbn [div].
    replace (isZero (b + s + h)) with false
      by (symmetry; apply isZero_false; lra).
    simpl. split.
    - apply Qle_shift_div_l; lra.
    - apply Qle_shift_div_r; lra. }
  unfold evaluateTechnicalSignals. cbv zeta. rewrite Eb, Es, Eh.
  cbn [add].
  destruct (gtb b s && gtb b h);
    [|destruct (gtb s b && gtb s h)];
    cbn [tv_confidence]; apply Hratio; lra.
Qed.

Lemma sentimentToSignal_strength (score confidence : num) :
  within 0 1 confidence ->
  within 0 0.7 (strength (sentimentToSignal score confidence)).
Proof.
  destruct confidence as [c| | |]; simpl; try tauto. intros [H0 H1].
  unfold sentimentToSignal.
  repeat match goal with
         | |- context [if ?c then _ else _] => destruct c
         end; simpl; lra.
Qed.

Lemma mlToSignal_strength (predictions : Prediction) :
  within 0 1 (p_confidence predictions) ->
  within 0 0.8 (strength (mlToSignal predictions)).
Proof.
  unfold mlToSignal. cbv zeta.
  destruct (p_confidence predictions) as [c| | |]; simpl; try tauto.
  intros [H0 H1].
  repeat match goal with
         | |- context [if ?c then _ else _] => destruct c
         end; simpl; lra.
Qed.

(** The strength of the overall sentiment signal is at most [0.7], that of
    the prediction signal at most [0.8]. *)
Lemma provider_strengths
      (fetched : option (SentimentScore * SentimentScore * SentimentScore))
      (predicted : option Prediction) :
  unitConfidences fetched ->
  unitPrediction predicted ->
  match so_signal (s_overall (performSentimentAnalysis fetched)) with
  | Some s => within 0 0.7 (strength s)
  | None => True
  end
  /\ match ml_signal (performMLAnalysis predicted) with
     | Some s => within 0 0.8 (strength s)
     | None => True
     end.
Proof.
  intros Hf Hp. split.
  - destruct fetched as [[[social news] market]|]; [|exact I].
    cbn [performSentimentAnalysis s_overall combineSentimentScores so_signal].
    apply sentimentToSignal_strength.
    destruct Hf as (H1 & H2 & H3).
    destruct (s_confidence social) as [a| | |]; simpl in H1; try tauto.
    destruct (s_confidence news) as [b| | |]; simpl in H2; try tauto.
    destruct (s_confidence market) as [c| | |]; simpl in H3; try tauto.
    simpl. split.
    + apply Qle_shift_div_l; lra.
    + apply Qle_shift_div_r; lra.
  - destruct predicted as [p|].
    + cbn [performMLAnalysis ml_signal]. now apply mlToSignal_strength.
    + simpl. lra.
Qed.

(** A score above [0.6] needs the technical source and one more. *)
Lemma score_needs_two_sources (label : string) (technical : Overall)
      (sentiment : Sentiment) (ml : MLAnalysis) :
  within 0 1 (toNumber (o_strength technical)) ->
  match so_signal (s_overall sentiment) with
  | Some s => within 0 0.7 (strength s)
  | None => True
  end ->
  match ml_signal ml with
  | Some s => within 0 0.8 (strength s)
  | None => True
  end ->
  exists b : Q,
    bucketScore label (entriesOf technical sentiment ml) = Fin b
    /\ b <= 0.87
    /\ (0.6 < b ->
        o_signal technical = label
        /\ (labelIs (so_signal (s_overall sentiment)) label
            || labelIs (ml_signal ml) label = true)).
Proof.
  intros Ht Hs Hm.
  unfold bucketScore, entriesOf, spreadOverall, spreadSignal, hasSignal, labelIs.
  destruct (o_strength technical) as [[x| | |]|]; simpl in Ht; try tauto.
  destruct (so_signal (s_overall sentiment)) as [[ls [y| | |] ps]|],
           (ml_signal ml) as [[lm [z| | |] pm]|];
    simpl in Hs, Hm; try tauto;
    cbn [e_signal e_strength e_weight filter signal strength];
    destruct (o_signal technical =? label) eqn:Et;
    try destruct (ls =? label) eqn:Es;
    try destruct (lm =? label) eqn:Em;
    simpl; eexists; (split; [reflexivity|]); (split; [lra|]);
    intro Hb; try (exfalso; lra);
    (split; [now apply String.eqb_eq | reflexivity]).
Qed.

(** No single source can trigger a trade.  When the technical verdict
    carries a strength in [[0, 1]] and the providers report confidences in
    [[0, 1]], a BUY (or SELL) decision of [combineSignals] on the analyses of
    [performSentimentAnalysis] and [performMLAnalysis] requires a technical
    BUY (SELL) together with a BUY (SELL) of the sentiment or of the
    prediction, and its confidence is in [(0.6, 0.87]]. *)
Theorem trade_needs_technical_and_one_more :
  forall (technical : Overall)
         (fetched : option (SentimentScore * SentimentScore * SentimentScore))
         (predicted : option Prediction) (label : string),
    within 0 1 (toNumber (o_strength technical)) ->
    unitConfidences fetched ->
    unitPrediction predicted ->
    label = "BUY" \/ label = "SELL" ->
    let sentiment := performSentimentAnalysis fetched in
    let ml := performMLAnalysis predicted in
    let d := combineSignals technical sentiment ml in
    d_signal d = label ->
    o_signal technical = label
    /\ (labelIs (so_signal (s_overall sentiment)) label
        || labelIs (ml_signal ml) label = true)
    /\ withinLeftOpen 0.6 0.87 (d_confidence d).
Proof.
  intros technical fetched predicted label Ht Hf Hp Hlabel sentiment ml d Hd.
  destruct (provider_strengths fetched predicted Hf Hp) as [Hs Hm].
  fold sentiment in Hs. fold ml in Hm.
  pose proof (decision_rule technical sentiment ml) as Hrule.
  cbv zeta in Hrule. subst d.
  rewrite finalScores_eq in Hrule. cbv zeta in Hrule.
  cbn [buy sell hold] in Hrule.
  destruct (score_needs_two_sources "BUY" technical sentiment ml Ht Hs Hm)
    as (b & Eb & Hb87 & Hb).
  destruct (score_needs_two_sources "SELL" technical sentiment ml Ht Hs Hm)
    as (s & Es & Hs87 & Hsell).
  rewrite Eb, Es in Hrule.
  assert (Hcap : forall q : Q, 0.6 < q -> q <= 0.87 ->
                               min q 0.95 = Fin q).
  { intros q H1 H2. unfold min. simpl.
    destruct (Qltb 0.95 q) eqn:E; [|reflexivity].
    apply Qltb_lt in E. lra. }
  destruct (gtb b s && gtb b (add (bucketScore "HOLD" (entriesOf technical sentiment ml))
                                  (mul (sub 1 (fold_left (fun sum s => add sum (e_weight s))
                                                         (entriesOf technical sentiment ml) 0)) 0.5))
            && gtb b 0.6) eqn:EB.
  - apply andb_true_iff in EB as [_ E]. unfold gtb in E. simpl in E.
    apply Qltb_lt in E.
    injection Hrule as Hsig Hconf.
    assert (EL : label = "BUY") by congruence. clear Hd Hlabel. subst label.
    destruct (Hb E) as [H1 H2].
    split; [exact H1|]. split; [exact H2|].
    rewrite Hconf, (Hcap b E Hb87). simpl. lra.
  - destruct (gtb s b && gtb s (add (bucketScore "HOLD" (entriesOf technical sentiment ml))
                                  (mul (sub 1 (fold_left (fun sum s => add sum (e_weight s))
                                                         (entriesOf technical sentiment ml) 0)) 0.5))
            && gtb s 0.6) eqn:ES.
    + apply andb_true_iff in ES as [_ E]. unfold gtb in E. simpl in E.
      apply Qltb_lt in E.
      injection Hrule as Hsig Hconf.
      assert (EL : label = "SELL") by congruence. clear Hd Hlabel. subst label.
      destruct (Hsell E) as [H1 H2].
      split; [exact H1|]. split; [exact H2|].
      rewrite Hconf, (Hcap s E Hs87). simpl. lra.
    + injection Hrule as Hsig Hconf.
      exfalso. destruct Hlabel as [L|L]; subst label; congruence.
Qed.

(** [trade_needs_technical_and_one_more] on a technical BUY of strength 1, a
    strongly positive sentiment of full confidence and no prediction. *)
Lemma trade_needs_technical_and_one_more_witness :
  labelIs (so_signal (s_overall (performSentimentAnalysis
                                   (Some (mkSentimentScore 0.9 1,
                                          mkSentimentScore 0.9 1,
                                          mkSentimentScore 0.9 1))))) "BUY"
  || labelIs (ml_signal (performMLAnalysis None)) "BUY" = true.
Proof.
  apply (trade_needs_technical_and_one_more
           (mkOverall "BUY" (Some (Fin 1)) 1)
           (Some (mkSentimentScore 0.9 1, mkSentimentScore 0.9 1,
                  mkSentimentScore 0.9 1))
           None "BUY").
  - simpl. lra.
  - simpl. lra.
  - exact I.
  - left. reflexivity.
  - vm_compute. reflexivity.
Defined.


(** The background service never executes a trade: whatever the technical
    signals, the provider results, the stored settings and the portfolio
    are, the test [riskCheck.approved && analysis.signal !== 'HOLD'] of
    [performTradingAnalysis] fails, because the decision handed over by
    [analyzeMarket] is always HOLD. *)
Theorem service_never_executes :
  forall (env : RiskManager.Env) (signals : list (string * Signal))
         (fetched : option (SentimentScore * SentimentScore * SentimentScore))
         (predicted : option Prediction) (symbol : string),
    TradingService.analyseAndDecide env signals fetched predicted symbol = false.
Proof.
  intros env signals fetched predicted symbol.
  unfold TradingService.analyseAndDecide, TradingService.shouldExecute.
  cbv zeta.
  rewrite (CombinerClaims.engine_decides_hold signals fetched predicted).
  cbn [String.eqb Ascii.eqb Bool.eqb negb]. apply andb_false_r.
Qed.

End EngineProperties.

(** ** The indicator library *)

Module IndicatorFacts.

Import TechnicalAnalysis IndicatorLibrary MoreNotions.

Lemma leb_refl (a : num) : isNaN a = false -> leb a a = true.
Proof.
  destruct a; simpl; try reflexivity; try discriminate.
  intros _. apply Qle_bool_iff. lra.
Qed.

Lemma leb_trans (a b c : num) :
  leb a b = true -> leb b c = true -> leb a c = true.
Proof.
  destruct a, b, c; simpl; try reflexivity; try discriminate.
  intros H1 H2. apply Qle_bool_iff in H1. apply Qle_bool_iff in H2.
  apply Qle_bool_iff. lra.
Qed.

Lemma leb_not_nan (a b : num) :
  leb a b = true -> isNaN a = false /\ isNaN b = false.
Proof. destruct a, b; simpl; try discriminate; auto. Qed.

Lemma max_spec (a b : num) :
  isNaN a = false -> isNaN b = false ->
  (max a b = a \/ max a b = b)
  /\ leb a (max a b) = true /\ leb b (max a b) = true.
Proof.
  destruct a as [x| | |], b as [y| | |]; unfold max; simpl;
    try discriminate; intros _ _;
    try (split; [auto|]; split; try reflexivity;
         apply Qle_bool_iff; lra).
  destruct (Qltb x y) eqn:E.
  - apply Qltb_lt in E. split; [auto|].
    split; apply Qle_bool_iff; lra.
  - apply Qltb_ge in E. split; [auto|].
    split; apply Qle_bool_iff; lra.
Qed.

Lemma min_spec (a b : num) :
  isNaN a = false -> isNaN b = false ->
  (min a b = a \/ min a b = b)
  /\ leb (min a b) a = true /\ leb (min a b) b = true.
Proof.
  destruct a as [x| | |], b as [y| | |]; unfold min; simpl;
    try discriminate; intros _ _;
    try (split; [auto|]; split; try reflexivity;
         apply Qle_bool_iff; lra).
  destruct (Qltb y x) eqn:E.
  - apply Qltb_lt in E. split; [auto|].
    split; apply Qle_bool_iff; lra.
  - apply Qltb_ge in E. split; [auto|].
    split; apply Qle_bool_iff; lra.
Qed.

Lemma max_nan_l (b : num) : max NaN b = NaN.
Proof. reflexivity. Qed.

Lemma min_nan_l (b : num) : min NaN b = NaN.
Proof. reflexivity. Qed.

Lemma max_nan_r (a : num) : max a NaN = NaN.
Proof. unfold max. now rewrite orb_true_r. Qed.

Lemma min_nan_r (a : num) : min a NaN = NaN.
Proof. unfold min. now rewrite orb_true_r. Qed.

Lemma fold_max_nan (l : list num) : fold_left max l NaN = NaN.
Proof. induction l as [|x l IH]; simpl; [reflexivity | exact IH]. Qed.

Lemma fold_min_nan (l : list num) : fold_left min l NaN = NaN.
Proof. induction l as [|x l IH]; simpl; [reflexivity | exact IH]. Qed.

Lemma not_nan (a : num) : a <> NaN -> isNaN a = false.
Proof. destruct a; try reflexivity. intro H. now elim H. Qed.

Lemma is_not_nan (a : num) : isNaN a = false -> a <> NaN.
Proof. destruct a; try discriminate; intros _ H; discriminate H. Qed.

(** A maximum that is not NaN dominates the start value and every element,
    and is one of them. *)
Lemma fold_max_spec (l : list num) :
  forall a : num,
    isNaN (fold_left max l a) = false ->
    isNaN a = false
    /\ leb a (fold_left max l a) = true
    /\ Forall (fun x => leb x (fold_left max l a) = true) l
    /\ (fold_left max l a = a \/ In (fold_left max l a) l).
Proof.
  induction l as [|x l IH]; intros a H; simpl in H |- *.
  - split; [exact H|]. split; [now apply leb_refl|]. split; [constructor | auto].
  - destruct (IH _ H) as (Hm & Hle & Hall & Hin).
    destruct (isNaN a) eqn:Ea.
    { destruct a; try discriminate Ea. discriminate Hm. }
    destruct (isNaN x) eqn:Ex.
    { destruct x; try discriminate Ex. rewrite max_nan_r in Hm. discriminate Hm. }
    destruct (max_spec a x Ea Ex) as (Hor & Ha & Hx).
    split; [reflexivity|].
    split; [eapply leb_trans; eassumption|].
    split; [constructor; [eapply leb_trans; eassumption | exact Hall]|].
    destruct Hin as [Hin|Hin]; [|right; now right].
    destruct Hor as [Hor|Hor].
    + left. now rewrite Hin.
    + right. left. now rewrite Hin.
Qed.

Lemma fold_min_spec (l : list num) :
  forall a : num,
    isNaN (fold_left min l a) = false ->
    isNaN a = false
    /\ leb (fold_left min l a) a = true
    /\ Forall (fun x => leb (fold_left min l a) x = true) l
    /\ (fold_left min l a = a \/ In (fold_left min l a) l).
Proof.
  induction l as [|x l IH]; intros a H; simpl in H |- *.
  - split; [exact H|]. split; [now apply leb_refl|]. split; [constructor | auto].
  - destruct (IH _ H) as (Hm & Hle & Hall & Hin).
    destruct (isNaN a) eqn:Ea.
    { destruct a; try discriminate Ea. discriminate Hm. }
    destruct (isNaN x) eqn:Ex.
    { destruct x; try discriminate Ex. rewrite min_nan_r in Hm. discriminate Hm. }
    destruct (min_spec a x Ea Ex) as (Hor & Ha & Hx).
    split; [reflexivity|].
    split; [eapply leb_trans; eassumption|].
    split; [constructor; [eapply leb_trans; eassumption | exact Hall]|].
    destruct Hin as [Hin|Hin]; [|right; now right].
    destruct Hor as [Hor|Hor].
    + left. now rewrite Hin.
    + right. left. now rewrite Hin.
Qed.






(** *** Sums and slices *)




(** *** The exponential average *)

Lemma multiplier_value (period : nat) :
  div 2 (add (ofNat period) 1)
  = Fin (2 / (inject_Z (Z.of_nat period) + 1)).
Proof.
  unfold ofNat. cbn [add div].
  assert (0 <= inject_Z (Z.of_nat period)).
  { change 0 with (inject_Z 0). rewrite <- Zle_Qle. lia. }
  assert (E : isZero (inject_Z (Z.of_nat period) + 1) = false)
    by (apply isZero_false; lra).
  now rewrite E.
Qed.

Lemma multiplier_range (period : nat) :
  (1 <= period)%nat ->
  0 < 2 / (inject_Z (Z.of_nat period) + 1)
  /\ 2 / (inject_Z (Z.of_nat period) + 1) <= 1.
Proof.
  intro Hp. pose proof (ofNat_ge_1 period Hp) as H. split.
  - apply Qlt_shift_div_l; lra.
  - apply Qle_shift_div_r; lra.
Qed.

Lemma length_emaLoop (multiplier : num) (rest : list num) :
  forall previous : num,
    List.length (emaLoop multiplier previous rest) = List.length rest.
Proof.
  induction rest as [|p rest IH]; intro previous; simpl;
    [reflexivity | now rewrite IH].
Qed.

Lemma length_calculateEMA (prices : list num) (period : nat) :
  List.length (calculateEMA prices period) = List.length prices.
Proof.
  destruct prices as [|first rest]; simpl; [reflexivity|].
  now rewrite length_emaLoop.
Qed.


Lemma emaLoop_finite (m : Q) (rest : list num) :
  Forall finite rest ->
  forall previous : Q,
    Forall finite (emaLoop (Fin m) (Fin previous) rest).
Proof.
  induction 1 as [|p rest Hp Hrest IH]; intro previous; simpl.
  - constructor.
  - destruct p as [y| | |]; simpl in Hp; try tauto.
    constructor; [exact I|]. simpl. apply IH.
Qed.

Lemma calculateEMA_finite (prices : list num) (period : nat) :
  Forall finite prices -> Forall finite (calculateEMA prices period).
Proof.
  intro H. destruct prices as [|first rest]; [constructor|].
  unfold calculateEMA. cbv zeta. rewrite multiplier_value.
  inversion H as [|x l Hf Hrest]; subst.
  destruct first as [y| | |]; simpl in Hf; try tauto.
  constructor; [exact I|]. now apply emaLoop_finite.
Qed.

Lemma nth_error_combine {A B : Type} (l1 : list A) (l2 : list B) :
  forall (i : nat) (a : A) (b : B),
    nth_error l1 i = Some a -> nth_error l2 i = Some b ->
    nth_error (combine l1 l2) i = Some (a, b).
Proof.
  revert l2. induction l1 as [|x l1 IH]; intros l2 i a b H1 H2.
  - destruct i; discriminate H1.
  - destruct l2 as [|y l2]; [destruct i; discriminate H2|].
    destruct i as [|i]; simpl in *.
    + congruence.
    + now apply IH.
Qed.

Lemma nth_finite (l : list num) (i : nat) :
  Forall finite l -> (i < List.length l)%nat ->
  exists q : Q, nth_error l i = Some (Fin q).
Proof.
  intros Hfin Hi.
  destruct (nth_error l i) as [x|] eqn:E.
  - apply nth_error_In in E. rewrite Forall_forall in Hfin.
    specialize (Hfin x E). destruct x as [q| | |]; simpl in Hfin; try tauto.
    now exists q.
  - apply nth_error_None in E. lia.
Qed.

Lemma orElse_finite (y : Q) :
  exists y' : Q, orElse (Fin y) 0 = Fin y' /\ y' == y.
Proof.
  unfold orElse. simpl. destruct (isZero y) eqn:E; simpl.
  - apply isZero_true in E. exists 0. split; [reflexivity | now rewrite E].
  - exists y. split; reflexivity.
Qed.

(** The difference of two lists of finite numbers, element by element. *)
Lemma differences_finite (l1 l2 : list num) :
  Forall finite l1 -> Forall finite l2 ->
  Forall finite (map (fun p => sub (fst p) (snd p)) (combine l1 l2)).
Proof.
  intro H1. revert l2. induction H1 as [|x l1 Hx Hl1 IH]; intros l2 H2.
  - constructor.
  - destruct H2 as [|y l2 Hy Hl2]; [constructor|].
    simpl. constructor; [|now apply IH].
    destruct x, y; simpl in *; tauto.
Qed.

(** The MACD line and its signal line. *)
Lemma macd_lines (prices : list num) (fastPeriod slowPeriod signalPeriod : nat) :
  let macdLine :=
    skipn (slowPeriod - 1)
          (map (fun fs => sub (fst fs) (snd fs))
               (combine (calculateEMA prices fastPeriod)
                        (calculateEMA prices slowPeriod))) in
  let signalLine := calculateEMA macdLine signalPeriod in
  let histogram :=
    map (fun ms => sub (fst ms) (snd ms)) (combine macdLine signalLine) in
  calculateMACD prices fastPeriod slowPeriod signalPeriod
  = map (fun i =>
           DecisionEngine.mkMACD (at_ macdLine i)
                                 (orElse (at_ signalLine i) 0)
                                 (orElse (at_ histogram i) 0))
        (seq 0 (List.length macdLine)).
Proof.
  cbv zeta. unfold calculateMACD. cbv zeta.
  destruct prices as [|first rest].
  - simpl. now rewrite skipn_nil.
  - reflexivity.
Qed.

(** *** Bars *)

Lemma wellFormedBars_nth (highs lows closes : list num) :
  MoreNotions.wellFormedBars highs lows closes ->
  List.length lows = List.length highs
  /\ List.length closes = List.length highs
  /\ Forall finite highs /\ Forall finite lows /\ Forall finite closes
  /\ forall i : nat,
      (i < List.length highs)%nat ->
      exists h l c : Q,
        nth_error highs i = Some (Fin h)
        /\ nth_error lows i = Some (Fin l)
        /\ nth_error closes i = Some (Fin c)
        /\ l <= c /\ c <= h.
Proof.
  revert lows closes.
  induction highs as [|h highs IH]; intros lows closes H.
  - destruct lows, closes; simpl in H; try tauto.
    repeat split; try constructor. intros i Hi. simpl in Hi. lia.
  - destruct h as [h| | |]; simpl in H; try tauto.
    destruct lows as [|[l| | |] lows]; try tauto.
    destruct closes as [|[c| | |] closes]; try tauto.
    destruct H as (H1 & H2 & H).
    destruct (IH lows closes H) as (L1 & L2 & F1 & F2 & F3 & Hnth).
    split; [simpl; now rewrite L1|]. split; [simpl; now rewrite L2|].
    split; [constructor; [exact I | exact F1]|].
    split; [constructor; [exact I | exact F2]|].
    split; [constructor; [exact I | exact F3]|].
    intros [|i] Hi.
    + exists h, l, c. repeat split; assumption.
    + simpl in Hi. apply Hnth. lia.
Qed.

Lemma In_slice {A : Type} (l : list A) (k period i : nat) (x : A) :
  (k <= i)%nat -> (i < k + period)%nat ->
  nth_error l i = Some x ->
  In x (slice l k (k + period)).
Proof.
  intros H1 H2 E. unfold slice.
  apply (nth_error_In _ (i - k)).
  rewrite nth_error_firstn.
  replace (i - k <? k + period - k)%nat with true
    by (symmetry; apply Nat.ltb_lt; lia).
  rewrite nth_error_skipn. now replace (k + (i - k))%nat with i by lia.
Qed.






(** *** True range *)

Lemma max_finite (x y : Q) :
  exists m : Q, max (Fin x) (Fin y) = Fin m /\ x <= m /\ y <= m.
Proof.
  unfold max. simpl. destruct (Qltb x y) eqn:E.
  - apply Qltb_lt in E. exists y. split; [reflexivity|]. split; lra.
  - apply Qltb_ge in E. exists x. split; [reflexivity|]. split; lra.
Qed.

Lemma trueRange_nonneg (highs lows closes : list num) (i : nat) :
  Forall finite highs -> Forall finite lows -> Forall finite closes ->
  (i < List.length highs)%nat -> (i < List.length lows)%nat ->
  (i - 1 < List.length closes)%nat ->
  nonneg (trueRange highs lows closes i).
Proof.
  intros F1 F2 F3 H1 H2 H3.
  destruct (nth_finite highs i F1 H1) as (h & Eh).
  destruct (nth_finite lows i F2 H2) as (l & El).
  destruct (nth_finite closes (i - 1) F3 H3) as (c & Ec).
  unfold trueRange, at_. cbv zeta. rewrite Eh, El, Ec.
  cbn [toNumber sub neg add abs]. unfold maxOf. cbn [fold_left].
  change (max NInf (Fin (h + - l))) with (Fin (h + - l)).
  destruct (max_finite (h + - l) (Qabs (h + - c))) as (m1 & E1 & A1 & B1).
  rewrite E1.
  destruct (max_finite m1 (Qabs (l + - c))) as (m2 & E2 & A2 & B2).
  rewrite E2. simpl.
  pose proof (Qabs_nonneg (h + - c)). lra.
Qed.

Lemma emaLoop_nonneg (m : Q) (rest : list num) :
  0 <= m -> m <= 1 ->
  Forall nonneg rest ->
  forall previous : Q,
    0 <= previous ->
    Forall nonneg (emaLoop (Fin m) (Fin previous) rest).
Proof.
  intros Hm0 Hm1.
  induction 1 as [|p rest Hp Hrest IH]; intros previous H1; simpl.
  - constructor.
  - destruct p as [y| | |]; simpl in Hp; try tauto.
    assert (0 <= y * m + previous * (1 + - m)) by nra.
    constructor; [simpl; assumption|].
    simpl. now apply IH.
Qed.

(** *** Local extrema *)

Lemma strictEq_leb (a b : num) :
  strictEq a b = true -> leb a b = true /\ leb b a = true.
Proof.
  destruct a as [x| | |], b as [y| | |]; simpl; try discriminate; auto.
  intro H. apply Qeq_bool_iff in H.
  split; apply Qle_bool_iff; rewrite H; lra.
Qed.

Lemma ascending_cons (a : nat) (l : list nat) :
  Forall (fun i => (a < i)%nat) l -> MoreNotions.ascending l ->
  MoreNotions.ascending (a :: l).
Proof.
  intros Hall Hl. destruct l as [|b l]; [exact I|].
  inversion Hall; subst. split; assumption.
Qed.

(** The extrema are reported in the order of the loop index. *)
Lemma findExtrema_from (extreme : list num -> num) (prices : list num)
      (window : nat) :
  forall n start : nat,
    let found :=
      flat_map
        (fun i =>
           let subset := slice prices (i - window) (i + window + 1) in
           if strictEq (at_ prices i) (extreme subset)
           then [mkExtremum (at_ prices i) i] else [])
        (seq start n) in
    Forall (fun i => (start <= i)%nat) (map index found)
    /\ MoreNotions.ascending (map index found).
Proof.
  induction n as [|n IH]; intro start; cbv zeta.
  - split; [constructor | exact I].
  - cbn [seq flat_map]. destruct (IH (S start)) as [Hall Hasc].
    cbv zeta in Hall, Hasc.
    assert (Hlt : Forall (fun i => (start < i)%nat)
                    (map index
                       (flat_map
                          (fun i =>
                             if strictEq (at_ prices i)
                                  (extreme (slice prices (i - window)
                                                  (i + window + 1)))
                             then [mkExtremum (at_ prices i) i] else [])
                          (seq (S start) n)))).
    { eapply Forall_impl; [|exact Hall]. intros i Hi. cbv beta in Hi. lia. }
    destruct (strictEq (at_ prices start)
                (extreme (slice prices (start - window) (start + window + 1)))).
    + cbn [app map index]. split.
      * constructor; [lia|].
        eapply Forall_impl; [|exact Hlt]. intros i Hi. cbv beta in Hi. lia.
      * now apply ascending_cons.
    + cbn [app]. split; [|exact Hasc].
      eapply Forall_impl; [|exact Hlt]. intros i Hi. cbv beta in Hi. lia.
Qed.

Lemma findExtrema_ascending (extreme : list num -> num) (prices : list num)
      (window : nat) :
  MoreNotions.ascending (map index (findExtrema extreme prices window)).
Proof.
  unfold findExtrema.
  apply (findExtrema_from extreme prices window).
Qed.

(** What an element of [findExtrema] is. *)
Lemma findExtrema_In (extreme : list num -> num) (prices : list num)
      (window : nat) (e : Extremum) :
  In e (findExtrema extreme prices window) ->
  (window <= index e)%nat
  /\ (index e + window < List.length prices)%nat
  /\ price e = at_ prices (index e)
  /\ strictEq (price e)
              (extreme (slice prices (index e - window)
                              (index e + window + 1))) = true.
Proof.
  unfold findExtrema. intro H. apply in_flat_map in H.
  destruct H as (i & Hi & He). apply in_seq in Hi. cbv zeta in He.
  destruct (strictEq (at_ prices i)
              (extreme (slice prices (i - window) (i + window + 1)))) eqn:E;
    [|destruct He].
  destruct He as [He|[]]. subst e. cbn [index price].
  split; [lia|]. split; [lia|]. split; [reflexivity | exact E].
Qed.

(** *** The last elements of an array *)


Lemma Forall_sliceLast {A : Type} (P : A -> Prop) (l : list A) (n : nat) :
  Forall P l -> Forall P (sliceLast l n).
Proof.
  intro H. destruct n as [|n]; [exact H|]. now apply Forall_skipn.
Qed.

(** *** Least squares on a line *)






(** *** Chart patterns *)

Lemma consecutivePairs_In (points : list Extremum) (a b : Extremum) :
  In (a, b) (consecutivePairs points) -> In a points /\ In b points.
Proof.
  induction points as [|x [|y rest] IH]; simpl; try tauto.
  intros [E|H].
  - injection E as -> ->. intuition (auto 10).
  - destruct (IH H) as [H1 H2]. intuition (auto 10).
Qed.






Lemma doublePatterns_spec (patternType : string) (window : nat)
      (points : list Extremum) (p : Pattern) :
  In p (doublePatterns patternType window points) ->
  p_type p = patternType
  /\ exists p1 p2 : Extremum,
      ltb (div (abs (sub (price p1) (price p2))) (price p1)) 0.02 = true
      /\ p_confidence p = confidenceFor patternType [p1; p2].
Proof.
  unfold doublePatterns. intro H. apply in_flat_map in H.
  destruct H as ([p1 p2] & _ & H).
  destruct (ltb (div (abs (sub (price p1) (price p2))) (price p1)) 0.02) eqn:E;
    cbn [andb] in H; [|destruct H].
  destruct (_ <? _)%Z; [|destruct H].
  destruct H as [H|[]]. subst p. cbn [p_type p_confidence].
  split; [reflexivity|]. exists p1, p2. split; [exact E | reflexivity].
Qed.

End IndicatorFacts.

Module IndicatorProperties.

Import TechnicalAnalysis IndicatorLibrary MoreNotions IndicatorFacts.
Local Open Scope string_scope.





(** The MACD records.  There is one record per price from index
    [slowPeriod - 1] on.  On finite prices the histogram of a record is the
    difference of its two lines, so that the two tests of the MACD rule of
    the decision engine coincide: the rule says BUY exactly when the
    histogram is positive, SELL exactly when it is negative.  The first
    record has a signal line equal to the MACD line, and the rule abstains
    on it. *)
Theorem macd_rule_is_histogram_sign :
  forall (prices : list num) (fastPeriod slowPeriod signalPeriod : nat),
    List.length (calculateMACD prices fastPeriod slowPeriod signalPeriod)
    = (List.length prices - (slowPeriod - 1))%nat
    /\ (Forall finite prices ->
        Forall (fun m =>
                  same (DecisionEngine.histogram m)
                       (sub (DecisionEngine.macdLine m)
                            (DecisionEngine.signalLine m))
                  /\ DecisionEngine.getMACDSignal m
                     = if gtb (DecisionEngine.histogram m) 0
                       then DecisionEngine.sig "BUY" 0.75
                       else if ltb (DecisionEngine.histogram m) 0
                       then DecisionEngine.sig "SELL" 0.75
                       else DecisionEngine.sig "HOLD" 0.4)
               (calculateMACD prices fastPeriod slowPeriod signalPeriod)
        /\ match calculateMACD prices fastPeriod slowPeriod signalPeriod with
           | first :: _ =>
               DecisionEngine.getMACDSignal first = DecisionEngine.sig "HOLD" 0.4
           | [] => True
           end).
Proof.
  intros prices fastPeriod slowPeriod signalPeriod.
  rewrite macd_lines. cbv zeta.
  set (macdLine := skipn _ _).
  set (signalLine := calculateEMA macdLine signalPeriod).
  set (histogram := map _ (combine macdLine signalLine)).
  split.
  { rewrite length_map, length_seq. subst macdLine.
    rewrite length_skipn, length_map, length_combine, !length_calculateEMA.
    lia. }
  intro Hfin.
  assert (Hmacd : Forall finite macdLine).
  { subst macdLine. apply Forall_skipn.
    apply differences_finite; now apply calculateEMA_finite. }
  assert (Hsignal : Forall finite signalLine)
    by now apply calculateEMA_finite.
  assert (Hlen : List.length signalLine = List.length macdLine)
    by apply length_calculateEMA.
  assert (Hrecord : forall i, (i < List.length macdLine)%nat ->
            exists x y y' h : Q,
              at_ macdLine i = Fin x /\ at_ signalLine i = Fin y
              /\ orElse (at_ signalLine i) 0 = Fin y' /\ y' == y
              /\ orElse (at_ histogram i) 0 = Fin h /\ h == x - y).
  { intros i Hi.
    destruct (nth_finite macdLine i Hmacd Hi) as (x & Ex).
    destruct (nth_finite signalLine i Hsignal) as (y & Ey); [lia|].
    destruct (orElse_finite y) as (y' & Ey' & Hy').
    destruct (orElse_finite (x + - y)) as (h & Eh & Hh).
    exists x, y, y', h. unfold at_.
    subst histogram.
    rewrite nth_error_map, (nth_error_combine _ _ i _ _ Ex Ey), Ex, Ey.
    cbn [option_map toNumber fst snd sub neg add].
    split; [reflexivity|]. split; [reflexivity|]. split; [exact Ey'|].
    split; [exact Hy'|]. split; [exact Eh|]. rewrite Hh. ring. }
  split.
  - apply Forall_map, Forall_forall. intros i Hi. apply in_seq in Hi.
    destruct (Hrecord i) as (x & y & y' & h & Ex & Ey & Ey' & Hy' & Eh & Hh);
      [lia|].
    cbn [DecisionEngine.histogram DecisionEngine.macdLine
         DecisionEngine.signalLine].
    unfold DecisionEngine.getMACDSignal.
    cbn [DecisionEngine.histogram DecisionEngine.macdLine
         DecisionEngine.signalLine].
    rewrite Ex, Ey', Eh. unfold gtb. cbn [ltb sub neg add same].
    split; [rewrite Hh, Hy'; ring|].
    destruct (Qltb 0 h) eqn:E1, (Qltb y' x) eqn:E2, (Qltb h 0) eqn:E3,
             (Qltb x y') eqn:E4;
      try reflexivity; exfalso;
      repeat match goal with
             | H : Qltb _ _ = true |- _ => apply Qltb_lt in H
             | H : Qltb _ _ = false |- _ => apply Qltb_ge in H
             end; lra.
  - destruct (List.length macdLine) as [|n] eqn:En; [exact I|].
    cbn [seq map].
    destruct (Hrecord O) as (x & y & y' & h & Ex & Ey & Ey' & Hy' & Eh & Hh);
      [lia|].
    assert (Exy : x == y).
    { subst signalLine. unfold at_ in Ex, Ey.
      destruct macdLine as [|m0 rest]; [discriminate En|].
      simpl in Ex, Ey. congruence. }
    unfold DecisionEngine.getMACDSignal.
    cbn [DecisionEngine.histogram DecisionEngine.macdLine
         DecisionEngine.signalLine].
    rewrite Ex, Ey', Eh. unfold gtb. cbn [ltb].
    destruct (Qltb 0 h) eqn:E1, (Qltb y' x) eqn:E2, (Qltb h 0) eqn:E3,
             (Qltb x y') eqn:E4;
      try reflexivity; exfalso;
      repeat match goal with
             | H : Qltb _ _ = true |- _ => apply Qltb_lt in H
             | H : Qltb _ _ = false |- _ => apply Qltb_ge in H
             end; lra.
Qed.

(** [macd_rule_is_histogram_sign] on five rising prices with periods 2, 3
    and 2: the rule abstains on the first record. *)
Lemma macd_rule_is_histogram_sign_witness :
  match calculateMACD [Fin 10; Fin 11; Fin 13; Fin 16; Fin 20] 2 3 2 with
  | first :: _ =>
      DecisionEngine.getMACDSignal first = DecisionEngine.sig "HOLD" 0.4
  | [] => True
  end.
Proof.
  apply (macd_rule_is_histogram_sign
           [Fin 10; Fin 11; Fin 13; Fin 16; Fin 20] 2 3 2).
  repeat constructor.
Defined.





(** The average true range on well-formed bars and a period of at least
    one: one value per bar from the second on, each a finite number that is
    not negative. *)
Theorem atr_is_nonnegative :
  forall (highs lows closes : list num) (period : nat),
    (1 <= period)%nat ->
    MoreNotions.wellFormedBars highs lows closes ->
    List.length (calculateATR highs lows closes period)
    = (List.length highs - 1)%nat
    /\ Forall nonneg (calculateATR highs lows closes period).
Proof.
  intros highs lows closes period Hp Hbars.
  destruct (wellFormedBars_nth _ _ _ Hbars) as (L1 & L2 & F1 & F2 & F3 & _).
  unfold calculateATR. cbv zeta.
  destruct (List.length highs <? 2)%nat eqn:E.
  { apply Nat.ltb_lt in E. split; [simpl; lia | constructor]. }
  apply Nat.ltb_ge in E.
  split; [now rewrite length_calculateEMA, length_map, length_seq|].
  set (trueRanges := map _ _).
  assert (Hall : Forall nonneg trueRanges).
  { subst trueRanges. apply Forall_map, Forall_forall. intros i Hi.
    apply in_seq in Hi. apply trueRange_nonneg; try assumption; lia. }
  clearbody trueRanges.
  destruct trueRanges as [|first rest]; [constructor|].
  unfold calculateEMA. cbv zeta. rewrite multiplier_value.
  destruct (multiplier_range period Hp) as [Hm0 Hm1].
  inversion Hall as [|x l Hf Hrest]; subst.
  destruct first as [y| | |]; simpl in Hf; try tauto.
  constructor; [exact Hf|].
  apply emaLoop_nonneg; try lra; assumption.
Qed.

(** [atr_is_nonnegative] on three bars and period 2. *)
Lemma atr_is_nonnegative_witness :
  Forall nonneg (calculateATR [Fin 12; Fin 13; Fin 15] [Fin 10; Fin 11; Fin 12]
                              [Fin 11; Fin 13; Fin 12] 2).
Proof.
  apply (atr_is_nonnegative [Fin 12; Fin 13; Fin 15] [Fin 10; Fin 11; Fin 12]
                            [Fin 11; Fin 13; Fin 12] 2).
  - lia.
  - simpl. repeat split; lra.
Defined.

(** Local extrema.  Every peak reported by [findPeaks] sits at an index
    [i] with [window <= i < length - window], carries the price at that
    index, and no price of its neighbourhood [[i - window, i + window]] is
    above it; dually for the troughs of [findTroughs].  Both lists are in
    strictly increasing order of index.  This holds for every array, NaN and
    infinities included. *)
Theorem extrema_dominate_their_neighbourhood :
  forall (prices : list num) (window : nat),
    Forall (fun e =>
              (window <= index e)%nat
              /\ (index e + window < List.length prices)%nat
              /\ price e = at_ prices (index e)
              /\ forall j : nat,
                  (index e - window <= j)%nat -> (j <= index e + window)%nat ->
                  leb (at_ prices j) (price e) = true)
           (findPeaks prices window)
    /\ Forall (fun e =>
                 (window <= index e)%nat
                 /\ (index e + window < List.length prices)%nat
                 /\ price e = at_ prices (index e)
                 /\ forall j : nat,
                     (index e - window <= j)%nat -> (j <= index e + window)%nat ->
                     leb (price e) (at_ prices j) = true)
              (findTroughs prices window)
    /\ MoreNotions.ascending (map index (findPeaks prices window))
    /\ MoreNotions.ascending (map index (findTroughs prices window)).
Proof.
  intros prices window.
  split; [|split; [|split; apply findExtrema_ascending]].
  - apply Forall_forall. intros e He.
    destruct (findExtrema_In _ _ _ _ He) as (H1 & H2 & H3 & H4).
    split; [exact H1|]. split; [exact H2|]. split; [exact H3|].
    intros j Hj1 Hj2.
    destruct (strictEq_leb _ _ H4) as [Hle Hge].
    destruct (leb_not_nan _ _ Hge) as [Hd _]. unfold maxOf in Hd.
    destruct (fold_max_spec _ _ Hd) as (_ & _ & Hall & _).
    destruct (nth_error prices j) as [x|] eqn:Ex;
      [|apply nth_error_None in Ex; lia].
    rewrite Forall_forall in Hall.
    unfold at_. rewrite Ex. cbn [toNumber].
    eapply leb_trans; [|exact Hge]. apply Hall.
    replace (index e + window + 1)%nat
      with ((index e - window) + (window + window + 1))%nat by lia.
    apply (In_slice prices _ _ j); [lia | lia | exact Ex].
  - apply Forall_forall. intros e He.
    destruct (findExtrema_In _ _ _ _ He) as (H1 & H2 & H3 & H4).
    split; [exact H1|]. split; [exact H2|]. split; [exact H3|].
    intros j Hj1 Hj2.
    destruct (strictEq_leb _ _ H4) as [Hle Hge].
    destruct (leb_not_nan _ _ Hge) as [Hd _]. unfold minOf in Hd.
    destruct (fold_min_spec _ _ Hd) as (_ & _ & Hall & _).
    destruct (nth_error prices j) as [x|] eqn:Ex;
      [|apply nth_error_None in Ex; lia].
    rewrite Forall_forall in Hall.
    unfold at_. rewrite Ex. cbn [toNumber].
    eapply leb_trans; [exact Hle|]. apply Hall.
    replace (index e + window + 1)%nat
      with ((index e - window) + (window + window + 1))%nat by lia.
    apply (In_slice prices _ _ j); [lia | lia | exact Ex].
Qed.

(** [extrema_dominate_their_neighbourhood] on a zigzag of five prices: the
    peak at index 1 dominates its two neighbours. *)
Lemma extrema_dominate_their_neighbourhood_witness :
  leb (at_ [Fin 1; Fin 3; Fin 2; Fin 5; Fin 4] 2) (Fin 3) = true.
Proof.
  pose proof (extrema_dominate_their_neighbourhood
                [Fin 1; Fin 3; Fin 2; Fin 5; Fin 4] 1) as [H _].
  inversion H as [|e rest (_ & _ & _ & Hdom) _]; subst.
  apply (Hdom 2%nat); simpl; lia.
Defined.





(** The patterns [detectPatterns] reports carry one of five types (the
    bullish [HEAD_AND_SHOULDERS_INVERSE] that the decision engine knows is
    never produced), and there is none on a series shorter than three
    windows.  On what is detected, the pattern rule of the engine is decided
    by the first pattern alone: NONE without a pattern, otherwise BUY or SELL
    of strength [0.8]; its fallback HOLD is never reached. *)
Theorem pattern_signal_is_first_pattern :
  forall (prices : list num) (window : nat),
    Forall (fun p => In (p_type p)
                        ["DOUBLE_TOP"; "DOUBLE_BOTTOM"; "HEAD_AND_SHOULDERS";
                         "ASCENDING_TRIANGLE"; "DESCENDING_TRIANGLE"])
           (detectPatterns prices window)
    /\ ((List.length prices <? window * 3)%nat = true ->
        detectPatterns prices window = [])
    /\ patternSignalOf prices window
       = match detectPatterns prices window with
         | [] => DecisionEngine.sig "NONE" 0
         | first :: _ =>
             if DecisionEngine.arrayIncludes DecisionEngine.bullishPatterns
                                             (p_type first)
             then DecisionEngine.mkSignal "BUY" 0.8 (Some (p_type first))
             else DecisionEngine.mkSignal "SELL" 0.8 (Some (p_type first))
         end.
Proof.
  intros prices window.
  assert (Htypes :
            Forall (fun p => In (p_type p)
                                ["DOUBLE_TOP"; "DOUBLE_BOTTOM";
                                 "HEAD_AND_SHOULDERS";
                                 "ASCENDING_TRIANGLE"; "DESCENDING_TRIANGLE"])
                   (detectPatterns prices window)).
  { unfold detectPatterns.
    destruct (List.length prices <? window * 3)%nat; [constructor|].
    apply Forall_app. split; [|apply Forall_app; split].
    - unfold detectDoubleTopBottom. apply Forall_app.
      split; apply Forall_forall; intros p Hp;
        destruct (doublePatterns_spec _ _ _ _ Hp) as [-> _]; simpl; auto.
    - unfold detectHeadAndShoulders. cbv zeta.
      destruct (_ <? 3)%nat; [constructor|].
      apply Forall_flat_map, Forall_forall. intros [[l h] r] _.
      destruct (_ && _); [|constructor].
      constructor; [simpl; auto | constructor].
    - unfold detectTriangles.
      destruct (_ <? _)%nat; [constructor|]. cbv zeta.
      destruct (findExtrema maxOf _ 5) as [|h0 [|h1 hs]]; try constructor.
      destruct (findExtrema minOf _ 5) as [|l0 [|l1 ls]]; try constructor.
      apply Forall_app. split.
      + destruct (_ && _); [|constructor].
        constructor; [simpl; auto 6 | constructor].
      + destruct (_ && _); [|constructor].
        constructor; [simpl; auto 6 | constructor]. }
  split; [exact Htypes|].
  split.
  { intro H. unfold detectPatterns. now rewrite H. }
  unfold patternSignalOf.
  destruct (detectPatterns prices window) as [|first rest]; [reflexivity|].
  inversion Htypes as [|x l Hfirst _]; subst.
  cbn [map DecisionEngine.getPatternSignal DecisionEngine.firstPatternSignal].
  simpl in Hfirst.
  destruct Hfirst as [E|[E|[E|[E|[E|[]]]]]]; rewrite <- E; reflexivity.
Qed.



End IndicatorProperties.

(** ** Volume analysis *)

Module VolumeProperties.

Import DecisionEngine IndicatorLibrary VolumeAnalysis MoreNotions IndicatorFacts.
Local Open Scope string_scope.

(** The volume report.  On fewer than twenty volumes the report is
    UNKNOWN / LOW and the volume rule of the engine answers WEAK_SIGNAL.
    On volumes that are finite and not negative, a strength above LOW
    implies an INCREASING trend (so a DECREASING trend implies LOW), and the
    rule answers CONFIRMATION exactly when the strength is HIGH and the last
    volume is not unusual. *)
Theorem volume_strength_implies_trend :
  forall prices volumes : list num,
    Forall nonneg volumes ->
    let r := analyzeVolume prices volumes in
    ((List.length volumes < 20)%nat ->
     vr_trend r = "UNKNOWN"
     /\ volumeSignalOf prices volumes = sig "WEAK_SIGNAL" 0.3)
    /\ (vr_strength r = "HIGH" \/ vr_strength r = "MEDIUM" ->
        vr_trend r = "INCREASING")
    /\ (vr_trend r = "DECREASING" -> vr_strength r = "LOW")
    /\ (signal (volumeSignalOf prices volumes) = "CONFIRMATION"
        <-> vr_strength r = "HIGH" /\ vr_unusualActivity r = false).
Proof.
  intros prices volumes Hall r. subst r.
  unfold volumeSignalOf, volumeAnalysisOf, analyzeVolume.
  destruct (List.length volumes <? 20)%nat eqn:E.
  { cbn [vr_trend vr_strength vr_unusualActivity].
    split; [intros _; split; reflexivity|].
    split; [intros [H|H]; discriminate H|].
    split; [intro H; discriminate H|].
    split; [intro H; discriminate H | intros [H _]; discriminate H]. }
  apply Nat.ltb_ge in E. cbv zeta.
  split; [intro H; lia|].
  pose proof (sum_nonneg volumes Hall) as Hsum.
  pose proof (sum_nonneg (sliceLast volumes 5)
                         (Forall_sliceLast nonneg volumes 5 Hall)) as Hrecent.
  destruct (sum volumes) as [s| | |]; simpl in Hsum; try tauto.
  destruct (sum (sliceLast volumes 5)) as [t| | |]; simpl in Hrecent; try tauto.
  unfold ofNat.
  set (N := inject_Z (Z.of_nat (List.length volumes))).
  assert (HN : 20 <= N).
  { subst N. change 20 with (inject_Z 20). rewrite <- Zle_Qle. lia. }
  cbn [div].
  replace (isZero N) with false by (symmetry; apply isZero_false; lra).
  replace (isZero 5) with false by reflexivity.
  assert (HA : 0 <= s / N) by (apply Qle_shift_div_l; lra).
  set (A := s / N) in *. set (R := t / 5).
  set (U := gtb (at_ volumes _) _). clearbody U.
  unfold gtb. cbn [mul ltb].
  cbn [vr_trend vr_strength vr_unusualActivity].
  destruct (Qltb (A * 2) R) eqn:E2.
  - apply Qltb_lt in E2.
    replace (Qltb (A * 1.2) R) with true by (symmetry; apply Qltb_lt; lra).
    split; [reflexivity|]. split; [intro H; discriminate H|].
    unfold getVolumeSignal. cbn [unusualActivity trend volumeStrength].
    destruct U; cbn [String.eqb Ascii.eqb Bool.eqb andb signal sig].
    + split; [intro H; discriminate H | intros [_ H]; discriminate H].
    + split; [intros _; split; reflexivity | reflexivity].
  - destruct (Qltb (A * 1.5) R) eqn:E3.
    + apply Qltb_lt in E3.
      replace (Qltb (A * 1.2) R) with true by (symmetry; apply Qltb_lt; lra).
      split; [reflexivity|]. split; [intro H; discriminate H|].
      unfold getVolumeSignal. cbn [unusualActivity trend volumeStrength].
      destruct U; cbn [String.eqb Ascii.eqb Bool.eqb andb signal sig];
        (split; [intro H; discriminate H | intros [H _]; discriminate H]).
    + split; [intros [H|H]; discriminate H|].
      split; [reflexivity|].
      unfold getVolumeSignal. cbn [unusualActivity trend volumeStrength].
      destruct U, (Qltb (A * 1.2) R), (Qltb R (A * 0.8));
        cbn [String.eqb Ascii.eqb Bool.eqb andb signal sig];
        (split; [intro H; discriminate H | intros [H _]; discriminate H]).
Qed.

(** [volume_strength_implies_trend] on nineteen volumes: a short history. *)
Lemma volume_strength_implies_trend_witness :
  volumeSignalOf [] (repeat (Fin 5) 19) = sig "WEAK_SIGNAL" 0.3.
Proof.
  apply (volume_strength_implies_trend [] (repeat (Fin 5) 19)).
  - repeat constructor; simpl; lra.
  - simpl. lia.
Defined.

End VolumeProperties.

(** ** Sentiment analysis *)

Module SentimentFacts.

Import DecisionEngine SentimentAnalysis MoreNotions IndicatorFacts.
Local Open Scope string_scope.

Lemma finite_list (l : list num) :
  Forall finite l -> exists qs : list Q, l = map Fin qs.
Proof.
  induction 1 as [|x l Hx Hl (qs & ->)].
  - now exists [].
  - destruct x as [q| | |]; simpl in Hx; try tauto.
    now exists (q :: qs).
Qed.

Lemma fold_add_Fin (qs : list Q) :
  forall a : Q,
    fold_left add (map Fin qs) (Fin a) = Fin (fold_left Qplus qs a).
Proof.
  induction qs as [|q qs IH]; intro a; simpl; [reflexivity | apply IH].
Qed.

Lemma square_nonneg (x : Q) : 0 <= x * x.
Proof.
  destruct (Qlt_le_dec x 0).
  - setoid_replace (x * x) with ((- x) * (- x)) by ring.
    apply Qmult_le_0_compat; lra.
  - apply Qmult_le_0_compat; lra.
Qed.

Lemma fold_squares (m : Q) (qs : list Q) :
  forall a : Q,
    0 <= a ->
    a <= fold_left Qplus (map (fun q => (q + - m) * (q + - m)) qs) a
    /\ (fold_left Qplus (map (fun q => (q + - m) * (q + - m)) qs) a == 0 ->
        a == 0 /\ Forall (fun q => q == m) qs).
Proof.
  induction qs as [|q qs IH]; intros a Ha; cbn [map fold_left].
  - split; [lra|]. intro H. split; [exact H | constructor].
  - assert (Hsq : 0 <= (q + - m) * (q + - m)) by apply square_nonneg.
    destruct (IH (a + (q + - m) * (q + - m))) as [H1 H2]; [lra|].
    split; [lra|]. intro H. destruct (H2 H) as [H3 H4].
    split; [lra|]. constructor; [|exact H4].
    assert (Hz : (q + - m) * (q + - m) == 0) by lra.
    apply Qmult_integral in Hz. destruct Hz; lra.
Qed.


(** The variance of finite values, as a rational. *)
Lemma variance_value (q : Q) (qs : list Q) :
  let N := inject_Z (Z.of_nat (List.length (q :: qs))) in
  let m := fold_left Qplus (q :: qs) 0 / N in
  calculateVariance (map Fin (q :: qs))
  = Fin (fold_left Qplus
                   (map (fun x => (x + - m) * (x + - m)) (q :: qs)) 0 / N).
Proof.
  cbv zeta.
  set (N := inject_Z (Z.of_nat (List.length (q :: qs)))).
  assert (HN : 1 <= N).
  { subst N. change 1 with (inject_Z 1). rewrite <- Zle_Qle. simpl. lia. }
  assert (EN : isZero N = false) by (apply isZero_false; lra).
  assert (Emean : div (sum (map Fin (q :: qs)))
                      (ofNat (List.length (map Fin (q :: qs))))
                  = Fin (fold_left Qplus (q :: qs) 0 / N)).
  { unfold sum. rewrite fold_add_Fin, length_map. unfold ofNat. fold N.
    cbn [div]. now rewrite EN. }
  unfold calculateVariance.
  change (map Fin (q :: qs)) with (Fin q :: map Fin qs).
  cbv iota. cbv zeta.
  change (Fin q :: map Fin qs) with (map Fin (q :: qs)).
  rewrite Emean.
  rewrite map_map. cbn [sub neg add mul].
  rewrite <- (map_map (fun x => (x + - (fold_left Qplus (q :: qs) 0 / N))
                                * (x + - (fold_left Qplus (q :: qs) 0 / N)))
                      Fin).
  unfold sum. rewrite fold_add_Fin, length_map. unfold ofNat. fold N.
  cbn [div]. now rewrite EN.
Qed.

Lemma variance_nonneg (values : list num) :
  Forall finite values -> nonneg (calculateVariance values).
Proof.
  intro H. destruct (finite_list values H) as (qs & ->).
  destruct qs as [|q qs]; [simpl; lra|].
  rewrite variance_value. cbv zeta.
  set (N := inject_Z (Z.of_nat (List.length (q :: qs)))).
  assert (HN : 1 <= N).
  { subst N. change 1 with (inject_Z 1). rewrite <- Zle_Qle. simpl. lia. }
  unfold nonneg.
  apply Qle_shift_div_l; [lra|].
  destruct (fold_squares (fold_left Qplus (q :: qs) 0 / N) (q :: qs) 0) as [H1 _];
    lra.
Qed.

(** [Math.max(lo, Math.min(hi, v))] *)
Lemma clamp_between (lo hi : Q) (v : num) :
  lo <= hi -> v <> NaN -> within lo hi (max lo (min hi v)).
Proof.
  intros Hlh Hv. destruct v as [x| | |]; try (now elim Hv).
  - unfold min, max. cbn [isNaN orb ltb].
    destruct (Qltb x hi) eqn:E1; cbn [isNaN orb ltb].
    + apply Qltb_lt in E1. destruct (Qltb lo x) eqn:E2; simpl.
      * apply Qltb_lt in E2. lra.
      * lra.
    + destruct (Qltb lo hi) eqn:E2; simpl; lra.
  - unfold min, max. cbn [isNaN orb ltb].
    destruct (Qltb lo hi) eqn:E2; simpl; lra.
  - unfold min, max. cbn [isNaN orb ltb]. simpl. lra.
Qed.

Lemma clamp_inside (lo hi a x : Q) :
  lo <= a -> a <= x -> a <= hi ->
  within a hi (max lo (min hi x)).
Proof.
  intros H1 H2 H3.
  unfold min, max. cbn [isNaN orb ltb].
  destruct (Qltb x hi) eqn:E1; cbn [isNaN orb ltb].
  - apply Qltb_lt in E1. destruct (Qltb lo x) eqn:E2; simpl.
    + lra.
    + apply Qltb_ge in E2. lra.
  - apply Qltb_ge in E1. destruct (Qltb lo hi) eqn:E2; simpl.
    + lra.
    + apply Qltb_ge in E2. lra.
Qed.

Lemma min_finite (x y : Q) :
  exists m : Q, min (Fin x) (Fin y) = Fin m /\ m <= x /\ m <= y.
Proof.
  unfold min. simpl. destruct (Qltb y x) eqn:E.
  - apply Qltb_lt in E. exists y. split; [reflexivity|]. split; lra.
  - apply Qltb_ge in E. exists x. split; [reflexivity|]. split; lra.
Qed.

Lemma min_one (x : Q) :
  0 <= x -> within 0 1 (min x 1).
Proof.
  intro H. unfold min. cbn [isNaN orb ltb].
  destruct (Qltb 1 x) eqn:E; simpl.
  - lra.
  - apply Qltb_ge in E. lra.
Qed.

Lemma max_zero (x : Q) :
  x <= 1 -> within 0 1 (max 0 x).
Proof.
  intro H. unfold max. cbn [isNaN orb ltb].
  destruct (Qltb 0 x) eqn:E; simpl.
  - apply Qltb_lt in E. lra.
  - lra.
Qed.

Lemma same_key_lookup {Data : Type} (cache : Cache Data) (key : string)
      (entry : Data * Z) :
  cacheLookup (cacheStore cache key entry) key = Some entry.
Proof.
  induction cache as [|[k e] rest IH]; simpl.
  - now rewrite String.eqb_refl.
  - destruct (k =? key) eqn:E; simpl.
    + now rewrite String.eqb_refl.
    + now rewrite E.
Qed.

Lemma other_key_lookup {Data : Type} (cache : Cache Data) (key key' : string)
      (entry : Data * Z) :
  key' <> key ->
  cacheLookup (cacheStore cache key entry) key' = cacheLookup cache key'.
Proof.
  intro Hne. apply String.eqb_neq in Hne.
  induction cache as [|[k e] rest IH]; simpl.
  - rewrite String.eqb_sym. now rewrite Hne.
  - destruct (k =? key) eqn:E; simpl.
    + apply String.eqb_eq in E. subst k.
      rewrite (String.eqb_sym key key'). now rewrite Hne.
    + destruct (k =? key'); [reflexivity | exact IH].
Qed.

End SentimentFacts.

Module SentimentProperties.

Import DecisionEngine SentimentAnalysis MoreNotions IndicatorFacts SentimentFacts.
Local Open Scope string_scope.


(** The analysis of social data.  On finite inputs the score is a number
    in [[-1, 1]] and the confidence a number in [[0.1, 0.95]]; when the
    three counts are not negative the confidence is at least [0.2]. *)
Theorem social_sentiment_ranges :
  forall socialData : SocialData,
    MoreNotions.finiteSocial socialData ->
    within (-1) 1 (score (analyzeSentimentData socialData))
    /\ within 0.1 0.95 (s_confidence (analyzeSentimentData socialData))
    /\ (MoreNotions.nonnegCounts socialData ->
        within 0.2 0.95 (s_confidence (analyzeSentimentData socialData))).
Proof.
  intros [[m ts tv inf] [p ur cm rs] [msg gs mc]] Hfin.
  unfold MoreNotions.finiteSocial, MoreNotions.nonnegCounts in *.
  cbn [twitter reddit telegram tw_sentiment rd_sentiment tg_sentiment
       influencerSentiment tw_mentions posts messages] in *.
  repeat match goal with
         | H : Forall finite (_ :: _) |- _ =>
             let Hx := fresh "F" in
             inversion H as [|? ? Hx ?]; subst; clear H
         end.
  destruct ts as [ts| | |], rs as [rs| | |], gs as [gs| | |],
           inf as [inf| | |], m as [m| | |], p as [p| | |],
           msg as [msg| | |];
    simpl in F, F0, F1, F2, F3, F4, F5; try tauto.
  unfold analyzeSentimentData.
  cbn [twitter reddit telegram tw_sentiment rd_sentiment tg_sentiment
       influencerSentiment tw_mentions posts messages score s_confidence].
  cbv zeta.
  pose proof (variance_nonneg [Fin ts; Fin rs; Fin gs]
                              ltac:(repeat constructor)) as Hvar.
  destruct (calculateVariance [Fin ts; Fin rs; Fin gs]) as [v| | |];
    simpl in Hvar; try tauto.
  split; [apply clamp_between; [lra | simpl; discriminate]|].
  cbn [add mul sub neg].
  change (div (Fin (m + p + msg)) 1000) with (Fin ((m + p + msg) / 1000)).
  assert (Hcons : within 0 1 (max 0 (1 + - v))) by (apply max_zero; lra).
  destruct (max 0 (1 + - v)) as [c| | |]; simpl in Hcons; try tauto.
  split.
  - apply clamp_between; [lra|].
    destruct (min_finite ((m + p + msg) / 1000) 1) as (vs & -> & _).
    simpl. discriminate.
  - intro Hcounts.
    repeat match goal with
           | H : Forall nonneg (_ :: _) |- _ =>
               let Hx := fresh "N" in
               inversion H as [|? ? Hx ?]; subst; clear H
           end.
    simpl in N, N0, N1.
    assert (Hvol : within 0 1 (min (Fin ((m + p + msg) / 1000)) 1)).
    { apply min_one. apply Qle_shift_div_l; lra. }
    destruct (min (Fin ((m + p + msg) / 1000)) 1) as [vs| | |];
      simpl in Hvol; try tauto.
    cbn [mul add]. apply clamp_inside; try lra. nra.
Qed.

(** [social_sentiment_ranges] on a sample of social data. *)
Lemma social_sentiment_ranges_witness :
  within 0.2 0.95
         (s_confidence
            (analyzeSentimentData
               (mkSocialData (mkTwitter 400 0.5 1000 0.2)
                             (mkReddit 100 0.8 300 0.3)
                             (mkTelegram 200 0.1 5000)))).
Proof.
  apply (social_sentiment_ranges
           (mkSocialData (mkTwitter 400 0.5 1000 0.2)
                         (mkReddit 100 0.8 300 0.3)
                         (mkTelegram 200 0.1 5000))).
  - repeat constructor.
  - repeat constructor; simpl; lra.
Defined.

(** The analysis of market indicators.  On finite inputs the score is a
    number in [[-1, 1]] and the confidence a number in [[0.3, 0.9]]: the
    lower clamp at [0.1] is never active. *)
Theorem market_sentiment_ranges :
  forall marketData : MarketData,
    MoreNotions.finiteMarket marketData ->
    within (-1) 1 (score (analyzeMarketIndicators marketData))
    /\ within 0.3 0.9 (s_confidence (analyzeMarketIndicators marketData)).
Proof.
  intros [fg vx fr pc mr inst] Hfin.
  unfold MoreNotions.finiteMarket in Hfin.
  cbn [fearGreedIndex vix fundingRate putCallRatio institutionalFlow] in Hfin.
  repeat match goal with
         | H : Forall finite (_ :: _) |- _ =>
             let Hx := fresh "F" in
             inversion H as [|? ? Hx ?]; subst; clear H
         end.
  destruct fg as [fg| | |], vx as [vx| | |], fr as [fr| | |],
           pc as [pc| | |], inst as [inst| | |];
    simpl in F, F0, F1, F2, F3; try tauto.
  unfold analyzeMarketIndicators.
  cbn [fearGreedIndex vix fundingRate putCallRatio institutionalFlow
       score s_confidence].
  cbv zeta. cbn [sub neg add].
  change (div (Fin (fg + - (50))) 50) with (Fin ((fg + - (50)) / 50)).
  change (div (Fin (- (vx + - (20)))) 20) with (Fin (- (vx + - (20)) / 20)).
  change (div (Fin (- (pc + - (1)))) 1) with (Fin (- (pc + - (1)) / 1)).
  assert (Hfund : within (-1) 1 (max (Fin (- (1))) (min 1 (mul fr 100)))).
  { apply (clamp_between (- (1)) 1); [lra | simpl; discriminate]. }
  destruct (max (Fin (- (1))) (min 1 (mul fr 100))) as [f| | |];
    simpl in Hfund; try tauto.
  match goal with
  | |- context [calculateVariance ?l] =>
      pose proof (variance_nonneg l ltac:(repeat constructor)) as Hvar;
      destruct (calculateVariance l) as [v| | |]; simpl in Hvar; try tauto
  end.
  split.
  - apply (clamp_between (- (1)) 1); [lra | simpl; discriminate].
  - cbn [add neg].
    destruct (max_finite 0.3 (1 + - v)) as (c & Ec & C1 & C2).
    rewrite Ec.
    assert (Hc : c <= 1).
    { unfold max in Ec. simpl in Ec.
      destruct (Qltb 0.3 (1 + - v)); injection Ec as <-; lra. }
    apply clamp_inside; lra.
Qed.

(** [market_sentiment_ranges] on a sample of market data. *)
Lemma market_sentiment_ranges_witness :
  within 0.3 0.9
         (s_confidence
            (analyzeMarketIndicators (mkMarketData 70 18 0.0001 0.9 0.05 0.2))).
Proof.
  apply (market_sentiment_ranges (mkMarketData 70 18 0.0001 0.9 0.05 0.2)).
  repeat constructor.
Defined.

Lemma description_known (signal strength : string) :
  In signal ["BULLISH"; "BEARISH"; "NEUTRAL"] ->
  In strength ["STRONG"; "MODERATE"; "WEAK"] ->
  In (getSentimentDescription signal strength) (map snd descriptions).
Proof.
  intros Hs Ht. simpl in Hs, Ht.
  destruct Hs as [<-|[<-|[<-|[]]]]; destruct Ht as [<-|[<-|[<-|[]]]];
    vm_compute; tauto.
Qed.

(** The interpretation of a sentiment.  The signal is UNCERTAIN exactly
    when the confidence is below [0.3]; otherwise the signal is BULLISH,
    BEARISH or NEUTRAL, a NEUTRAL signal always has the strength WEAK (the
    table entries for a strong or moderate neutral sentiment are never
    used), and the description is always an entry of the table: the
    fallback text of [getSentimentDescription] is never produced. *)
Theorem neutral_sentiment_is_weak :
  forall sentimentScore confidence : num,
    let i := interpretSentiment sentimentScore confidence in
    (i_signal i = "UNCERTAIN" <-> ltb confidence 0.3 = true)
    /\ In (i_signal i) ["UNCERTAIN"; "BULLISH"; "BEARISH"; "NEUTRAL"]
    /\ In (i_strength i) ["STRONG"; "MODERATE"; "WEAK"]
    /\ (i_signal i = "NEUTRAL" -> i_strength i = "WEAK")
    /\ (ltb confidence 0.3 = false ->
        In (description i) (map snd descriptions)
        /\ i_score i = Some sentimentScore).
Proof.
  intros sentimentScore confidence i. subst i. unfold interpretSentiment.
  destruct (ltb confidence 0.3).
  { cbn [i_signal i_strength description].
    split; [split; reflexivity|].
    split; [simpl; auto|]. split; [simpl; auto|].
    split; [intro H; discriminate H | intro H; discriminate H]. }
  cbv zeta. cbn [i_signal i_strength description i_score].
  assert (Hsig : In (if gtb sentimentScore 0.2 then "BULLISH"
                     else if ltb sentimentScore (neg 0.2) then "BEARISH"
                     else "NEUTRAL") ["BULLISH"; "BEARISH"; "NEUTRAL"]).
  { destruct (gtb sentimentScore 0.2); [simpl; auto|].
    destruct (ltb sentimentScore (neg 0.2)); simpl; auto. }
  assert (Hstr : In (if gtb (abs sentimentScore) 0.7 then "STRONG"
                     else if gtb (abs sentimentScore) 0.4 then "MODERATE"
                     else "WEAK") ["STRONG"; "MODERATE"; "WEAK"]).
  { destruct (gtb (abs sentimentScore) 0.7); [simpl; auto|].
    destruct (gtb (abs sentimentScore) 0.4); simpl; auto. }
  split.
  { split; [|intro H; discriminate H].
    destruct (gtb sentimentScore 0.2); [intro H; discriminate H|].
    destruct (ltb sentimentScore (neg 0.2)); intro H; discriminate H. }
  split; [simpl in Hsig |- *; tauto|].
  split; [exact Hstr|].
  split; [|intros _; split; [now apply description_known | reflexivity]].
  destruct sentimentScore as [x| | |]; try (vm_compute; intro H; try reflexivity; discriminate H).
  unfold gtb. cbn [ltb abs neg].
  destruct (Qltb 0.2 x) eqn:E1; [intro H; discriminate H|].
  destruct (Qltb x _) eqn:E2; [intro H; discriminate H|].
  intros _. apply Qltb_ge in E1. apply Qltb_ge in E2.
  assert (Habs : Qabs x <= 0.2) by (apply Qabs_case; intros; lra).
  replace (Qltb 0.7 (Qabs x)) with false by (symmetry; apply Qltb_ge; lra).
  replace (Qltb 0.4 (Qabs x)) with false by (symmetry; apply Qltb_ge; lra).
  reflexivity.
Qed.

(** The result cache.  An entry stored at time [t] is returned for its key
    exactly while less than five minutes have passed since [t]; storing
    under one key does not change what is returned for another key; after
    [clearCache] nothing is returned. *)
Theorem cache_round_trip :
  forall (Data : Type) (cache : Cache Data) (t now : Z) (key : string)
         (data : Data),
    getFromCache (setCache cache t key data) now key
    = (if (now - t <? 300000)%Z then Some data else None)
    /\ (forall key' : string,
           key' <> key ->
           getFromCache (setCache cache t key data) now key'
           = getFromCache cache now key')
    /\ (forall key' : string, getFromCache (clearCache cache) now key' = None).
Proof.
  intros Data cache t now key data.
  unfold getFromCache, setCache, clearCache.
  split; [now rewrite same_key_lookup|].
  split; [|reflexivity].
  intros key' Hne. now rewrite other_key_lookup.
Qed.

(** A social sentiment that was analysed is served from the cache: when
    nothing fresh is cached for the symbol, the analysis of the fetched data
    is returned and stored, and a second request less than five minutes
    after the storing returns the same result and leaves the cache as it is,
    whatever is fetched then.  The default sentiment returned on a failed
    fetch is not stored, and a market request for the same symbol is not
    answered from the social entry. *)
Theorem social_sentiment_is_cached :
  forall (cache : Cache SentimentScore) (now later now' later' : Z)
         (symbol : string) (socialData : SocialData)
         (fetched' : option SocialData) (market' : option MarketData),
    getFromCache cache now ("social_" ++ symbol) = None ->
    (now' - later < 300000)%Z ->
    let first := analyzeSocialMedia cache now later symbol (Some socialData) in
    fst first = analyzeSentimentData socialData
    /\ analyzeSocialMedia (snd first) now' later' symbol fetched' = first
    /\ analyzeSocialMedia cache now later symbol None
       = (getDefaultSentiment, cache)
    /\ fst (analyzeMarketSentiment (snd first) now' later' symbol market')
       = fst (analyzeMarketSentiment cache now' later' symbol market').
Proof.
  intros cache now later now' later' symbol socialData fetched' market'
         Hmiss Hfresh first.
  subst first. unfold analyzeSocialMedia, analyzeMarketSentiment, analyzeCached.
  rewrite Hmiss. cbn [option_map fst snd].
  split; [reflexivity|].
  split.
  - unfold getFromCache at 1. unfold setCache at 1.
    rewrite same_key_lookup.
    now replace (now' - later <? cacheTimeout)%Z with true
      by (symmetry; apply Z.ltb_lt; exact Hfresh).
  - split; [reflexivity|].
    assert (Hother : getFromCache
                       (setCache cache later ("social_" ++ symbol)
                                 (analyzeSentimentData socialData))
                       now' ("market_" ++ symbol)
                     = getFromCache cache now' ("market_" ++ symbol)).
    { unfold getFromCache, setCache.
      rewrite other_key_lookup; [reflexivity|].
      simpl. intro H. discriminate H. }
    rewrite Hother.
    destruct (getFromCache cache now' ("market_" ++ symbol)); [reflexivity|].
    destruct market'; reflexivity.
Qed.

(** [social_sentiment_is_cached] on an empty cache: the second request, one
    minute later, is answered with the first analysis. *)
Lemma social_sentiment_is_cached_witness :
  fst (analyzeSocialMedia [] 0 10 "BTC"
         (Some (mkSocialData (mkTwitter 400 0.5 1000 0.2)
                             (mkReddit 100 0.8 300 0.3)
                             (mkTelegram 200 0.1 5000))))
  = analyzeSentimentData (mkSocialData (mkTwitter 400 0.5 1000 0.2)
                                       (mkReddit 100 0.8 300 0.3)
                                       (mkTelegram 200 0.1 5000)).
Proof.
  apply (social_sentiment_is_cached
           [] 0 10 60000 60010 "BTC"
           (mkSocialData (mkTwitter 400 0.5 1000 0.2)
                         (mkReddit 100 0.8 300 0.3)
                         (mkTelegram 200 0.1 5000))
           None None).
  - reflexivity.
  - lia.
Defined.

End SentimentProperties.

(** ** The risk evaluator *)

Module RiskEvaluatorFacts.

Import RiskManager RiskNotions MoreNotions.
Local Open Scope string_scope.

Lemma setting_check (bound : Q) (x : num) (message : string) :
  (if leb x 0 || gtb x bound then [message] else []) = []
  <-> MoreNotions.validSetting bound x.
Proof.
  destruct x as [q| | |]; unfold gtb; simpl.
  - destruct (Qle_bool q 0) eqn:E1; simpl.
    + apply Qle_bool_iff in E1. split; [discriminate | intros [H _]; lra].
    + assert (H0 : 0 < q).
      { destruct (Qlt_le_dec 0 q) as [H|H]; [exact H|].
        apply Qle_bool_iff in H. congruence. }
      destruct (Qltb bound q) eqn:E2.
      * apply Qltb_lt in E2. split; [discriminate | intros [_ H]; lra].
      * apply Qltb_ge in E2. split; [intros _; split; assumption | reflexivity].
  - split; [discriminate | tauto].
  - split; [discriminate | tauto].
  - split; [tauto | reflexivity].
Qed.

Lemma validSetting_same (b b' : Q) (x : num) :
  b == b' -> MoreNotions.validSetting b x <-> MoreNotions.validSetting b' x.
Proof.
  intro H. destruct x as [q| | |]; simpl; try tauto. rewrite H. tauto.
Qed.

(** The two outcomes of the exposure check. *)
Lemma exposure_outcome (env : Env) (symbol : string) :
  (exists reason : string,
      checkPortfolioExposure env symbol = rejectExposure reason
      /\ reason <> "" /\ reason <> "Signal quality too low for trading")
  \/ (exists rs : RiskSettings,
         riskSettings (tradingConfig env) = Some rs
         /\ geb (total (getCurrentExposure env)) (maxTotalExposure rs) = false
         /\ checkPortfolioExposure env symbol
            = mkExposureCheck true None (Some (getCurrentExposure env))
                (Some (sub (maxTotalExposure rs)
                           (total (getCurrentExposure env))))).
Proof.
  unfold checkPortfolioExposure.
  destruct (riskSettings (tradingConfig env)) as [rs|];
    [|left; eexists; split; [reflexivity | split; discriminate]].
  cbv zeta.
  destruct (geb (total (getCurrentExposure env)) (maxTotalExposure rs)) eqn:E1;
    [left; eexists; split; [reflexivity | split; discriminate]|].
  destruct (geb _ (maxPositionSize rs));
    [left; eexists; split; [reflexivity | split; discriminate]|].
  destruct (getAssetSector symbol) as [sector|].
  - destruct (geb _ (orElse (maxSectorExposure rs) 0.3));
      [left; eexists; split; [reflexivity | split; discriminate]|].
    right. exists rs. split; [reflexivity|]. split; [exact E1 | reflexivity].
  - right. exists rs. split; [reflexivity|]. split; [exact E1 | reflexivity].
Qed.










(** *** Exposure maps *)







End RiskEvaluatorFacts.

Module RiskEvaluatorProperties.

Import RiskManager RiskNotions MoreNotions RiskEvaluatorFacts.
Local Open Scope string_scope.

(** What [validateConfig] accepts.  The list of errors is empty exactly
    when the three sections are present, at least one platform is
    configured, and each of the four limits is a number in its range
    [(0, bound]] or NaN: a limit that is missing or not a number passes the
    validation. *)
Theorem validation_lets_nan_through :
  (forall config : Config,
      validateConfig config = []
      <-> exists (rs : RiskSettings) (p : string) (ps : list string)
                 (ts : TradingSettings),
          riskSettings config = Some rs
          /\ platforms config = Some (p :: ps)
          /\ tradingSettings config = Some ts
          /\ MoreNotions.validSetting 0.1 (maxPositionSize rs)
          /\ MoreNotions.validSetting 0.05 (maxDailyLoss rs)
          /\ MoreNotions.validSetting 1 (maxTotalExposure rs)
          /\ MoreNotions.validSetting 0.1 (stopLossPercentage rs))
  /\ (forall (p : string) (ps : list string) (ts : TradingSettings),
         validateConfig
           (mkConfig (Some (mkRiskSettings NaN NaN NaN NaN NaN false NaN NaN))
                     (Some (p :: ps)) (Some ts))
         = []).
Proof.
  split; [|reflexivity].
  intros [[rs|] ps ts]; unfold validateConfig;
    cbn [riskSettings platforms tradingSettings].
  2:{ split; [intro H; discriminate H|].
      intros (rs & _ & _ & _ & H & _). discriminate H. }
  split.
  - intro H.
    apply app_eq_nil in H as [H1 H].
    apply app_eq_nil in H as [H2 H3].
    apply app_eq_nil in H1 as [Ha H1].
    apply app_eq_nil in H1 as [Hb H1].
    apply app_eq_nil in H1 as [Hc Hd].
    destruct ps as [[|p ps]|]; try discriminate H2.
    destruct ts as [ts|]; try discriminate H3.
    exists rs, p, ps, ts.
    split; [reflexivity|]. split; [reflexivity|]. split; [reflexivity|].
    split; [now apply (setting_check 0.1) in Ha|].
    split; [now apply (setting_check 0.05) in Hb|].
    split; [apply (setting_check 1.0) in Hc;
            now apply (validSetting_same 1.0 1) in Hc|].
    now apply (setting_check 0.1) in Hd.
  - intros (rs' & p & ps' & ts' & E1 & E2 & E3 & Ha & Hb & Hc & Hd).
    injection E1 as <-. subst ps ts.
    apply (validSetting_same 1.0 1) in Hc; [|reflexivity].
    rewrite (proj2 (setting_check 0.1 _ _) Ha),
            (proj2 (setting_check 0.05 _ _) Hb),
            (proj2 (setting_check 1.0 _ _) Hc),
            (proj2 (setting_check 0.1 _ _) Hd).
    reflexivity.
Qed.


(** A symbol on the blacklist is refused whatever the whitelist says and
    whatever the analysis is; without trading settings, or with neither
    list, every symbol passes the symbol test. *)
Theorem blacklist_wins :
  forall (env : Env) (analysis : TradeAnalysis) (symbol : string)
         (ts : TradingSettings) (blacklist : list string),
    tradingSettings (tradingConfig env) = Some ts ->
    blockedSymbols ts = Some blacklist ->
    In symbol blacklist ->
    evaluateOpportunity env analysis symbol
    = rejected "Symbol not in allowed trading list" [].
Proof.
  intros env analysis symbol ts blacklist Hts Hbl Hin.
  unfold evaluateOpportunity, isSymbolAllowed. cbv zeta.
  rewrite Hts, Hbl.
  replace (existsb (String.eqb symbol) blacklist) with true; [reflexivity|].
  symmetry. apply existsb_exists. exists symbol.
  split; [exact Hin | apply String.eqb_refl].
Qed.

(** [blacklist_wins] on a symbol that is on both lists. *)
Lemma blacklist_wins_witness :
  evaluateOpportunity
    (sourceEnv (mkConfig (Some defaultRiskSettings) (Some ["binance"])
                         (Some (mkTradingSettings (Some ["BTCUSDT"])
                                                  (Some ["BTCUSDT"]))))
               [] 1 15 (fun _ _ => 0))
    (tradeAnalysisOf quietAnalysis) "BTCUSDT"
  = rejected "Symbol not in allowed trading list" [].
Proof.
  apply (blacklist_wins _ _ _ (mkTradingSettings (Some ["BTCUSDT"])
                                                 (Some ["BTCUSDT"]))
                        ["BTCUSDT"]).
  - reflexivity.
  - reflexivity.
  - left. reflexivity.
Defined.




(** A manual trade always gets past the signal-quality gate: its mock
    analysis scores [0.61].  When it is approved, its level is LOW or HIGH,
    never MEDIUM, and its conditions recommend a limit order and never
    mention high volatility. *)
Theorem manual_trade_passes_quality_gate :
  forall (env : Env) (side symbol : string),
    let r := evaluateManualTrade env side symbol in
    reason r <> "Signal quality too low for trading"
    /\ (approved r = true ->
        riskLevel r <> MEDIUM
        /\ In "Limit order recommended due to lower confidence"
              (ra_conditions r)
        /\ ~ In "Extra caution due to high volatility" (ra_conditions r)).
Proof.
  intros env side symbol r. subst r.
  unfold evaluateManualTrade, evaluateOpportunity. cbv zeta.
  set (mock := mkTradeAnalysis side 0.7 (Some (Fin 0.6)) (Some (Fin 0.5))
                               (Some (mkMLView 0.5 (Some "MEDIUM")))).
  assert (Hscore : ltb (sq_score (assessSignalQuality mock)) 0.6 = false)
    by reflexivity.
  rewrite Hscore.
  destruct (negb (isSymbolAllowed env symbol));
    [split; [discriminate | intro H; discriminate H]|].
  destruct (levelEqb (level (assessMarketConditions env)) EXTREME);
    [split; [discriminate | intro H; discriminate H]|].
  destruct (exposure_outcome env symbol)
    as [(reason & -> & _ & Hne)|(rs & Ers & Hgeb & ->)].
  { cbn [allowed rejectExposure negb ec_reason].
    split; [exact Hne | intro H; discriminate H]. }
  cbn [allowed negb].
  destruct (leb (calculatePositionSize env mock symbol) 0);
    [split; [discriminate | intro H; discriminate H]|].
  destruct (levelEqb (cr_level (checkCorrelationRisk env symbol)) HIGH) eqn:Ec;
    [split; [discriminate | intro H; discriminate H]|].
  destruct (assessPlatformRisk env symbol) as [|p ps];
    [split; [discriminate | intro H; discriminate H]|].
  cbn [reason approved riskLevel ra_conditions].
  split; [discriminate|]. intros _.
  unfold calculateRiskLevel, getTradeConditions. cbv zeta.
  subst mock. cbn [ta_confidence ta_machineLearning currentExposure].
  replace (ltb 0.7 0.7) with false by reflexivity.
  replace (ltb 0.7 0.8) with true by reflexivity.
  replace (isVolatility (Some (mkMLView 0.5 (Some "MEDIUM"))) "HIGH")
    with false by reflexivity.
  rewrite Ec.
  destruct (gtb (total (getCurrentExposure env)) 0.8); cbn.
  - split; [discriminate|]. split; [auto|]. intros [H|[H|[H|[]]]]; discriminate H.
  - split; [discriminate|]. split; [auto|]. intros [H|[]]; discriminate H.
Qed.



End RiskEvaluatorProperties.
